(** * react-native-paywall: promo codes, validation cache and purchase flow

    A shallow embedding of [src/services/PromoCodeService.ts] and of the
    reducers and actions of the [PaywallProvider] context, with the
    properties of the subscription and promo orchestration engine.

    Conventions of the embedding.
    - A TypeScript [number] that carries a price or a discount value is a
      rational ([Q]): exact decimal arithmetic, without the rounding, the
      infinities and the NaN of binary64.  Counters and clock readings
      (milliseconds since the epoch) are integers ([Z]); a time value that
      may be NaN is an [option Z], with [None] for NaN.
    - A string is a [string] of one-byte code units: ASCII text, where
      [toUpperCase] acts on the letters a to z only.
    - An optional field [f?: T] is an [option T]; [undefined] is [None].
    - An exception is a value of [completion]: [Throw e] instead of a
      result.  State (the service's cache, the clock, the React stores) is
      threaded explicitly through a small state and exception monad. *)

From Stdlib Require Import ZArith QArith Qminmax Lqa String Ascii List Lia.
From stdpp Require Import base option gmap strings pretty.

Import ListNotations.
Open Scope string_scope.

(** ** Strings as JavaScript uses them *)

Module JsString.

Definition code_unit (c : ascii) : Z := Z.of_nat (nat_of_ascii c).

(** White space of [String.prototype.trim] and of the regular expression
    class [\s], restricted to one-byte code units: TAB, LF, VT, FF, CR,
    SPACE and NBSP. *)
Definition is_space (c : ascii) : bool :=
  let n := code_unit c in
  ((9 <=? n) && (n <=? 13) || (n =? 32) || (n =? 160))%Z.

Definition upper (c : ascii) : ascii :=
  let n := code_unit c in
  if ((97 <=? n) && (n <=? 122))%Z then ascii_of_nat (Z.to_nat (n - 32)) else c.

Fixpoint trimStart (s : string) : string :=
  match s with
  | String c s' => if is_space c then trimStart s' else s
  | EmptyString => EmptyString
  end.

(** [trimEnd] keeps a character when it is not white space or when
    something survives to its right. *)
Fixpoint trimEnd (s : string) : string :=
  match s with
  | String c s' =>
      match trimEnd s' with
      | EmptyString => if is_space c then EmptyString else String c EmptyString
      | t => String c t
      end
  | EmptyString => EmptyString
  end.

Definition trim (s : string) : string := trimEnd (trimStart s).

Fixpoint toUpperCase (s : string) : string :=
  match s with
  | String c s' => String (upper c) (toUpperCase s')
  | EmptyString => EmptyString
  end.

(** [s.replace(/\s+/g, '')]: every run of white space is deleted. *)
Fixpoint remove_spaces (s : string) : string :=
  match s with
  | String c s' => if is_space c then remove_spaces s' else String c (remove_spaces s')
  | EmptyString => EmptyString
  end.

(** [s.includes(c)] for a one-character needle. *)
Fixpoint includes_char (c : ascii) (s : string) : bool :=
  match s with
  | String d s' => if Ascii.eqb c d then true else includes_char c s'
  | EmptyString => false
  end.

(** Truthiness of a string: the empty string is falsy. *)
Definition truthy (s : string) : bool :=
  match s with EmptyString => false | _ => true end.

(** Truthiness of an optional string. *)
Definition truthy_opt (o : option string) : bool :=
  match o with Some s => truthy s | None => false end.

(** A value of type [string | undefined | null], as an argument that
    TypeScript declares optional receives it at run time. *)
Inductive value := undefined | null | str (s : string).

Definition truthy_value (v : value) : bool :=
  match v with str s => truthy s | _ => false end.

(** A value in a template literal: [undefined] and [null] print as the
    words. *)
Definition template (v : value) : string :=
  match v with str s => s | undefined => "undefined" | null => "null" end.

(** [v === s] for a string [s]. *)
Definition strict_eq (v : value) (s : string) : bool :=
  match v with str t => String.eqb t s | _ => false end.

End JsString.

(** ** The data model of [types/index.ts] *)

Inductive Duration := monthly | yearly | lifetime.

Module SubscriptionPlan.
Record t := mk {
  id : string;
  name : string;
  description : string;
  price : Q;
  currency : string;
  duration : Duration;
  features : list string;
  originalPrice : option Q;
  discountPercentage : option Q;
  isPopular : option bool;
  productId : option string
}.
End SubscriptionPlan.

Inductive DiscountType := percentage | fixed | free_trial.

Module Discount.
Record t := mk {
  type : DiscountType;
  value : Q;
  duration : option Z   (* in days for free trial *)
}.
End Discount.

Module Restrictions.
Record t := mk {
  newCustomersOnly : option bool;
  minimumPlan : option string;
  maximumDiscount : option Q
}.
End Restrictions.

Module PromoCode.
Record t := mk {
  id : string;
  code : string;
  description : string;
  discount : Discount.t;
  maxUses : option Z;
  currentUses : Z;
  validFrom : string;
  validUntil : string;
  isActive : bool;
  applicablePlans : option (list string);
  restrictions : option Restrictions.t
}.
End PromoCode.

Module PromoCodeValidation.
Record t := mk {
  isValid : bool;
  promoCode : option PromoCode.t;
  discountedPrice : option Q;
  message : string;
  error : option string
}.
End PromoCodeValidation.

Module PromoCodeApplication.
Record t := mk {
  promoCode : PromoCode.t;
  originalPlan : SubscriptionPlan.t;
  discountedPlan : SubscriptionPlan.t;
  appliedAt : Z
}.
End PromoCodeApplication.

Module PurchaseInfo.
Record t := mk {
  transactionId : string;
  productId : string;
  purchaseDate : string;
  expirationDate : option string;
  isActive : bool;
  promoCodeUsed : option string;
  originalPrice : Q;
  finalPrice : Q;
  currency : string
}.
End PurchaseInfo.

Module SubscriptionStatusResponse.
Record t := mk {
  isActive : bool;
  entitlements : list string;
  expirationDate : option string;
  willRenew : bool;
  trialPeriod : option bool;
  promoCodeUsed : option string
}.
End SubscriptionStatusResponse.

Module PurchaseState.
Inductive t := idle | processing | success | error.
End PurchaseState.

Module PaywallState.
Record t := mk {
  isVisible : bool;
  selectedPlan : option SubscriptionPlan.t;
  isLoading : bool;
  error : option string;
  purchaseState : PurchaseState.t
}.
End PaywallState.

Module PromoCodeState.
Record t := mk {
  code : string;
  validation : option PromoCodeValidation.t;
  isApplying : bool;
  appliedPromo : option PromoCodeApplication.t
}.
End PromoCodeState.

(** ** Discount calculator *)

(** [Math.max(a, b)] on rationals. *)
Definition Math_max (a b : Q) : Q := if Qlt_le_dec a b then b else a.

(** The [default] branch of the [switch] is not reached for the three
    kinds that the type of [discount.type] has. *)
Definition calculateDiscountedPrice (plan : SubscriptionPlan.t) (promoCode : PromoCode.t) : Q :=
  let discount := PromoCode.discount promoCode in
  match Discount.type discount with
  | percentage =>
      Math_max 0 (SubscriptionPlan.price plan * (1 - Discount.value discount / 100))
  | fixed =>
      Math_max 0 (SubscriptionPlan.price plan - Discount.value discount)
  | free_trial => 0
  end.

(** The number of days in the description of a free trial; a missing
    [duration] prints as [undefined]. *)
Definition template_days (d : option Z) : string :=
  match d with Some n => pretty n | None => "undefined" end.

Definition applyDiscountToPlan (plan : SubscriptionPlan.t) (promoCode : PromoCode.t)
  : SubscriptionPlan.t :=
  let discountedPrice := calculateDiscountedPrice plan promoCode in
  {| SubscriptionPlan.id := SubscriptionPlan.id plan;
     SubscriptionPlan.name := SubscriptionPlan.name plan;
     SubscriptionPlan.description :=
       match Discount.type (PromoCode.discount promoCode) with
       | free_trial =>
           SubscriptionPlan.description plan ++ " - "
             ++ template_days (Discount.duration (PromoCode.discount promoCode))
             ++ " days free trial"
       | _ => SubscriptionPlan.description plan
       end;
     SubscriptionPlan.price := discountedPrice;
     SubscriptionPlan.currency := SubscriptionPlan.currency plan;
     SubscriptionPlan.duration := SubscriptionPlan.duration plan;
     SubscriptionPlan.features := SubscriptionPlan.features plan;
     SubscriptionPlan.originalPrice := SubscriptionPlan.originalPrice plan;
     SubscriptionPlan.discountPercentage := SubscriptionPlan.discountPercentage plan;
     SubscriptionPlan.isPopular := SubscriptionPlan.isPopular plan;
     SubscriptionPlan.productId := SubscriptionPlan.productId plan |}.

(** ** [Date.parse]

    The host function, for the date-time string format that ECMAScript
    fixes: [YYYY], [YYYY-MM] or [YYYY-MM-DD] (the year may be expanded to a
    sign and six digits), optionally followed by [THH:mm], [THH:mm:ss] or
    [THH:mm:ss.sss] and then by [Z] or a [+HH:mm] / [-HH:mm] offset.  A
    string outside that format is unrecognised and gives NaN ([None]); the
    legacy formats that an engine may accept besides are not part of the
    model. *)

Module JsDate.

Definition parser (A : Type) : Type := list ascii -> option (A * list ascii).

Definition pret {A} (a : A) : parser A := fun s => Some (a, s).

Definition pfail {A} : parser A := fun _ => None.

Definition pbind {A B} (p : parser A) (f : A -> parser B) : parser B :=
  fun s => match p s with Some (a, r) => f a r | None => None end.

Local Notation "'let*' x ':=' p 'in' q" := (pbind p (fun x => q))
  (at level 10, x name, p at level 100, q at level 200, only parsing).

Definition is_digit (c : ascii) : bool :=
  let n := JsString.code_unit c in ((48 <=? n) && (n <=? 57))%Z.

Definition digit : parser Z :=
  fun s => match s with
           | c :: r => if is_digit c then Some ((JsString.code_unit c - 48)%Z, r) else None
           | [] => None
           end.

(** [opt c p q]: when the next character is [c], consume it and go on
    with [p]; otherwise go on with [q]. *)
Definition opt {A} (c : ascii) (p q : parser A) : parser A :=
  fun s => match s with
           | d :: r => if Ascii.eqb c d then p r else q s
           | [] => q s
           end.

Definition lit (c : ascii) : parser unit := opt c (pret tt) pfail.

Definition digits2 : parser Z :=
  let* a := digit in let* b := digit in pret (10 * a + b)%Z.

Definition digits3 : parser Z :=
  let* a := digits2 in let* b := digit in pret (10 * a + b)%Z.

Definition digits4 : parser Z :=
  let* a := digits2 in let* b := digits2 in pret (100 * a + b)%Z.

Definition digits6 : parser Z :=
  let* a := digits4 in let* b := digits2 in pret (100 * a + b)%Z.

Definition year : parser Z :=
  opt "+" digits6
    (opt "-" (let* y := digits6 in if (y =? 0)%Z then pfail else pret (- y)%Z)
       digits4).

Definition date : parser (Z * Z * Z) :=
  let* y := year in
  opt "-" (let* m := digits2 in
           opt "-" (let* d := digits2 in pret (y, m, d)) (pret (y, m, 1%Z)))
    (pret (y, 1%Z, 1%Z)).

Definition seconds : parser (Z * Z) :=
  opt ":" (let* s := digits2 in opt "." (let* ms := digits3 in pret (s, ms)) (pret (s, 0%Z)))
    (pret (0%Z, 0%Z)).

(** The offset in minutes east of UTC; [None] when the string has none. *)
Definition offset : parser (option Z) :=
  opt "Z" (pret (Some 0%Z))
    (opt "+" (let* h := digits2 in let* sep := lit ":" in let* m := digits2 in pret (Some (60 * h + m)%Z))
       (opt "-" (let* h := digits2 in let* sep := lit ":" in let* m := digits2 in pret (Some (- (60 * h + m))%Z))
          (pret None))).

(** Milliseconds into the day and the offset, when a time is given. *)
Definition time : parser (option (Z * option Z)) :=
  opt "T" (let* h := digits2 in let* sep := lit ":" in let* mi := digits2 in
           let* sm := seconds in let* off := offset in
           let '(s, ms) := sm in
           if ((h <=? 24) && (mi <=? 59) && (s <=? 59)
               && ((h <? 24) || ((mi =? 0) && (s =? 0) && (ms =? 0))))%Z
           then pret (Some ((h * 3600000 + mi * 60000 + s * 1000 + ms)%Z, off))
           else pfail)
    (pret None).

(** Days since the epoch of a civil date (proleptic Gregorian). *)
Definition days_from_civil (y m d : Z) : Z :=
  (let y' := if m <=? 2 then y - 1 else y in
   let era := y' / 400 in
   let yoe := y' - era * 400 in
   let doy := (153 * (if m >? 2 then m - 3 else m + 9) + 2) / 5 + d - 1 in
   let doe := yoe * 365 + yoe / 4 - yoe / 100 + doy in
   era * 146097 + doe - 719468)%Z.

(** The offset of local time from UTC, in minutes; the host is taken to
    run in UTC. *)
Definition LocalTZA : Z := 0.

Definition TimeClip (t : Z) : option Z :=
  if (Z.abs t <=? 8640000000000000)%Z then Some t else None.

Definition date_time : parser (option Z) :=
  let* ymd := date in let* tm := time in
  let '(y, m, d) := ymd in
  if ((1 <=? m) && (m <=? 12) && (1 <=? d) && (d <=? 31))%Z then
    let day := (days_from_civil y m d * 86400000)%Z in
    match tm with
    | None => pret (TimeClip day)
    | Some (ms, Some off) => pret (TimeClip (day + ms - off * 60000)%Z)
    | Some (ms, None) => pret (TimeClip (day + ms - LocalTZA * 60000)%Z)
    end
  else pfail.

Definition parse (s : string) : option Z :=
  match date_time (list_ascii_of_string s) with
  | Some (t, []) => t
  | _ => None
  end.

(** A parser is [barless] when the text it consumes has no vertical bar. *)
Definition barless {A} (p : parser A) : Prop :=
  forall s a r, p s = Some (a, r) ->
    exists pre, s = (pre ++ r)%list
                /\ forallb (fun c => negb (Ascii.eqb "|" c)) pre = true.

(** [a < b] on time values; a comparison with NaN is false. *)
Definition lt (a b : option Z) : bool :=
  match a, b with
  | Some x, Some y => (x <? y)%Z
  | _, _ => false
  end.

(** [a - b] on time values; NaN propagates. *)
Definition sub (a b : option Z) : option Z :=
  match a, b with
  | Some x, Some y => Some (x - y)%Z
  | _, _ => None
  end.

End JsDate.

(** ** Exceptions *)

Module JsError.
(** A thrown value: an [Error] (a message only) or a [PaywallError]
    object (a code and a message). *)
Record t := mk {
  code : option string;
  message : string
}.
End JsError.

Inductive completion (A : Type) : Type :=
  | Normal (a : A)
  | Throw (e : JsError.t).

Arguments Normal {A} a.
Arguments Throw {A} e.

(** ** The collaborators, as one call sees them *)

Module Host.

(** What [fetch] gives: a rejected promise (no connection) or a response
    with its status and its JSON body. *)
Inductive response (A : Type) : Type :=
  | Rejected
  | Reply (status : Z) (body : A).

Arguments Rejected {A}.
Arguments Reply {A} status body.

(** [response.ok] *)
Definition ok (status : Z) : bool := ((200 <=? status) && (status <=? 299))%Z.

Record t := mk {
  validate : response PromoCodeValidation.t;   (* POST /promo-codes/validate *)
  redeem : response unit;                      (* POST /promo-codes/redeem *)
  latency : Z;   (* time that passes while a request is pending *)
  lateness : Z;  (* time by which a timer fires after its delay *)
  (* the billing collaborator, behind [PaywallService]: [None] when the
     call fails *)
  purchase : option PurchaseInfo.t;
  status : option SubscriptionStatusResponse.t
}.

End Host.

(** A request to the promo code catalog: the local mock table or the
    remote backend. *)
Inductive Request :=
  | MockCatalog (code : string) (planId : JsString.value)
  | BackendValidate (code : string) (planId userId : JsString.value)
  | BackendRedeem (code : string) (userId purchaseId : JsString.value).

(** ** The promo code service *)

Module PromoCodeService.

Record t := mk {
  backendUrl : option string;
  apiKey : option string;
  debugMode : bool;
  cache : gmap string PromoCodeValidation.t;
  cacheExpiry : Z
}.

Definition set_cache (c : gmap string PromoCodeValidation.t) (s : t) : t :=
  mk (backendUrl s) (apiKey s) (debugMode s) c (cacheExpiry s).

Module Config.
Record t := mk {
  backendUrl : option string;
  apiKey : option string;
  debugMode : option bool;
  enableCache : option bool
}.
End Config.

(** The constructor; the field initialisers give an empty cache and
    five minutes of expiry, and [enableCache: false] only clears the cache,
    which is empty already. *)
Definition new (config : Config.t) : t :=
  {| backendUrl := Config.backendUrl config;
     apiKey := Config.apiKey config;
     debugMode := default false (Config.debugMode config);
     cache := ∅;
     cacheExpiry := 5 * 60 * 1000 |}.

End PromoCodeService.

(** The state one call of the service runs in: the service object, the
    wall clock and the log of catalog requests made so far. *)
Module Runtime.

Record t := mk {
  service : PromoCodeService.t;
  now : Z;
  requests : list Request
}.

Definition set_service (s : PromoCodeService.t) (w : t) : t :=
  mk s (now w) (requests w).

Definition advance (d : Z) (w : t) : t :=
  mk (service w) (now w + d)%Z (requests w).

Definition log (r : Request) (w : t) : t :=
  mk (service w) (now w) (requests w ++ [r]).

End Runtime.

(** State and exceptions: a computation over a state [S] gives a result or
    throws, and leaves a state behind in both cases. *)
Definition M (S A : Type) : Type := S -> completion A * S.

Definition ret {S A} (a : A) : M S A := fun w => (Normal a, w).

Definition throw {S A} (e : JsError.t) : M S A := fun w => (Throw e, w).

Definition bind {S A B} (m : M S A) (k : A -> M S B) : M S B :=
  fun w => match m w with
           | (Normal a, w') => k a w'
           | (Throw e, w') => (Throw e, w')
           end.

Definition try_catch {S A} (body : M S A) (handler : JsError.t -> M S A) : M S A :=
  fun w => match body w with
           | (Normal a, w') => (Normal a, w')
           | (Throw e, w') => handler e w'
           end.

(** [try { body } finally { final }]: [final] runs on both exits and the
    completion of [body] stands unless [final] throws. *)
Definition try_finally {S A} (body : M S A) (final : M S unit) : M S A :=
  fun w => match body w with
           | (c, w') =>
               match final w' with
               | (Normal _, w'') => (c, w'')
               | (Throw e, w'') => (Throw e, w'')
               end
           end.

Definition gets {S A} (f : S -> A) : M S A := fun w => (Normal (f w), w).

Definition modify {S} (f : S -> S) : M S unit := fun w => (Normal tt, f w).

Notation "'let*' x ':=' m 'in' k" := (bind m (fun x => k))
  (at level 10, x name, m at level 100, k at level 200, only parsing).

Notation "m ';;' k" := (bind m (fun _ => k))
  (at level 100, k at level 200, right associativity, only parsing).

Module Filters.
Record t := mk {
  active : option bool;
  planId : option string;
  limit : option Z
}.
End Filters.

(** [a.slice(0, n)] *)
Definition slice0 {A} (n : Z) (a : list A) : list A :=
  if (0 <=? n)%Z then take (Z.to_nat n) a
  else take (Z.to_nat (Z.of_nat (length a) + n)) a.

(** The three entries of [mockCodes]. *)
Definition SAVE20 : PromoCode.t :=
  {| PromoCode.id := "1";
     PromoCode.code := "SAVE20";
     PromoCode.description := "Save 20% on your first subscription";
     PromoCode.discount := Discount.mk percentage 20 None;
     PromoCode.maxUses := Some 1000%Z;
     PromoCode.currentUses := 342;
     PromoCode.validFrom := "2024-01-01T00:00:00Z";
     PromoCode.validUntil := "2024-12-31T23:59:59Z";
     PromoCode.isActive := true;
     PromoCode.applicablePlans := Some ["monthly"; "yearly"];
     PromoCode.restrictions := Some (Restrictions.mk (Some true) None None) |}.

Definition FREEMONTH : PromoCode.t :=
  {| PromoCode.id := "2";
     PromoCode.code := "FREEMONTH";
     PromoCode.description := "Get your first month free";
     PromoCode.discount := Discount.mk free_trial 30 (Some 30%Z);
     PromoCode.maxUses := Some 500%Z;
     PromoCode.currentUses := 198;
     PromoCode.validFrom := "2024-01-01T00:00:00Z";
     PromoCode.validUntil := "2024-06-30T23:59:59Z";
     PromoCode.isActive := true;
     PromoCode.applicablePlans := Some ["monthly"];
     PromoCode.restrictions := Some (Restrictions.mk (Some true) None None) |}.

Definition SPECIAL50 : PromoCode.t :=
  {| PromoCode.id := "3";
     PromoCode.code := "SPECIAL50";
     PromoCode.description := "$50 off annual subscription";
     PromoCode.discount := Discount.mk fixed 50 None;
     PromoCode.maxUses := Some 200%Z;
     PromoCode.currentUses := 67;
     PromoCode.validFrom := "2024-01-01T00:00:00Z";
     PromoCode.validUntil := "2024-03-31T23:59:59Z";
     PromoCode.isActive := true;
     PromoCode.applicablePlans := Some ["yearly"];
     PromoCode.restrictions := None |}.

Definition mockCodes : list PromoCode.t := [SAVE20; FREEMONTH; SPECIAL50].

Definition getMockPromoCodes (filters : option Filters.t) : list PromoCode.t :=
  let filtered := mockCodes in
  let filtered :=
    match filters ≫= Filters.active with
    | Some a => List.filter (fun code => Bool.eqb (PromoCode.isActive code) a) filtered
    | None => filtered
    end in
  let filtered :=
    match filters ≫= Filters.planId with
    | Some p =>
        if JsString.truthy p then
          List.filter (fun code =>
                         match PromoCode.applicablePlans code with
                         | None => true
                         | Some plans => existsb (String.eqb p) plans
                         end) filtered
        else filtered
    | None => filtered
    end in
  match filters ≫= Filters.limit with
  | Some n => if (n =? 0)%Z then filtered else slice0 n filtered
  | None => filtered
  end.

Definition getMockPlans : list SubscriptionPlan.t :=
  [ {| SubscriptionPlan.id := "monthly";
       SubscriptionPlan.name := "Monthly Premium";
       SubscriptionPlan.description := "Monthly subscription";
       SubscriptionPlan.price := 999 # 100;
       SubscriptionPlan.currency := "USD";
       SubscriptionPlan.duration := monthly;
       SubscriptionPlan.features := [];
       SubscriptionPlan.originalPrice := None;
       SubscriptionPlan.discountPercentage := None;
       SubscriptionPlan.isPopular := None;
       SubscriptionPlan.productId := None |};
    {| SubscriptionPlan.id := "yearly";
       SubscriptionPlan.name := "Annual Premium";
       SubscriptionPlan.description := "Annual subscription";
       SubscriptionPlan.price := 9999 # 100;
       SubscriptionPlan.currency := "USD";
       SubscriptionPlan.duration := yearly;
       SubscriptionPlan.features := [];
       SubscriptionPlan.originalPrice := None;
       SubscriptionPlan.discountPercentage := None;
       SubscriptionPlan.isPopular := None;
       SubscriptionPlan.productId := None |} ].

Definition invalid (message error : string) : PromoCodeValidation.t :=
  {| PromoCodeValidation.isValid := false;
     PromoCodeValidation.promoCode := None;
     PromoCodeValidation.discountedPrice := None;
     PromoCodeValidation.message := message;
     PromoCodeValidation.error := Some error |}.

(** The checks of [mockValidate], once the timer has fired, against the
    tables [mockPromoCodes] and [mockPlans] and at the instant [now] of
    [new Date()]. *)
Definition mockValidateIn (mockPromoCodes : list PromoCode.t)
    (mockPlans : list SubscriptionPlan.t) (now : Z)
    (code : string) (planId : JsString.value) : PromoCodeValidation.t :=
  match List.find (fun pc => String.eqb (PromoCode.code pc) code) mockPromoCodes with
  | None => invalid "Invalid promo code" "CODE_NOT_FOUND"
  | Some promoCode =>
      if negb (PromoCode.isActive promoCode) then
        invalid "Invalid promo code" "CODE_NOT_FOUND"
      else
        (* Check expiration *)
        let validFrom := JsDate.parse (PromoCode.validFrom promoCode) in
        let validUntil := JsDate.parse (PromoCode.validUntil promoCode) in
        if JsDate.lt (Some now) validFrom || JsDate.lt validUntil (Some now) then
          invalid "Promo code has expired" "CODE_EXPIRED"
        else if
          (* Check usage limits *)
          match PromoCode.maxUses promoCode with
          | Some maxUses =>
              negb (maxUses =? 0)%Z && (maxUses <=? PromoCode.currentUses promoCode)%Z
          | None => false
          end
        then invalid "Promo code has been fully redeemed" "CODE_EXHAUSTED"
        else if
          (* Check plan restrictions *)
          match PromoCode.applicablePlans promoCode with
          | Some plans =>
              JsString.truthy_value planId
              && negb (existsb (JsString.strict_eq planId) plans)
          | None => false
          end
        then invalid "Promo code is not applicable to this plan" "PLAN_NOT_APPLICABLE"
        else
          (* Calculate discount (mock calculation) *)
          let discountedPrice :=
            if JsString.truthy_value planId then
              match List.find (fun p => JsString.strict_eq planId (SubscriptionPlan.id p))
                      mockPlans with
              | Some plan => Some (calculateDiscountedPrice plan promoCode)
              | None => None
              end
            else None in
          {| PromoCodeValidation.isValid := true;
             PromoCodeValidation.promoCode := Some promoCode;
             PromoCodeValidation.discountedPrice := discountedPrice;
             PromoCodeValidation.message := "Promo code applied successfully";
             PromoCodeValidation.error := None |}
  end.

Section Service.

Variable host : Host.t.

Definition normalizeCode (code : string) : string :=
  JsString.remove_spaces (JsString.toUpperCase (JsString.trim code)).

Definition getCachedValidation (key : string) : M Runtime.t (option PromoCodeValidation.t) :=
  fun w =>
    let this := Runtime.service w in
    match PromoCodeService.cache this !! key with
    | None => (Normal None, w)
    | Some cached =>
        (* Check if cache has expired *)
        let age := JsDate.sub (Some (Runtime.now w))
                     (JsDate.parse (PromoCodeValidation.message cached)) in
        if JsDate.lt (Some (PromoCodeService.cacheExpiry this)) age then
          (Normal None,
           Runtime.set_service
             (PromoCodeService.set_cache (delete key (PromoCodeService.cache this)) this) w)
        else (Normal (Some cached), w)
    end.

(** The entry that [setCachedValidation] stores at the instant [now]. *)
Definition validationWithTimestamp (now : Z) (validation : PromoCodeValidation.t)
  : PromoCodeValidation.t :=
  {| PromoCodeValidation.isValid := PromoCodeValidation.isValid validation;
     PromoCodeValidation.promoCode := PromoCodeValidation.promoCode validation;
     PromoCodeValidation.discountedPrice := PromoCodeValidation.discountedPrice validation;
     PromoCodeValidation.message :=
       if JsString.includes_char "|" (PromoCodeValidation.message validation)
       then PromoCodeValidation.message validation
       else PromoCodeValidation.message validation ++ "|" ++ pretty now;
     PromoCodeValidation.error := PromoCodeValidation.error validation |}.

Definition setCachedValidation (key : string) (validation : PromoCodeValidation.t) : M Runtime.t unit :=
  fun w =>
    let this := Runtime.service w in
    (Normal tt,
     Runtime.set_service
       (PromoCodeService.set_cache
          (<[key := validationWithTimestamp (Runtime.now w) validation]>
             (PromoCodeService.cache this)) this) w).

Definition validateWithBackend (code : string) (planId userId : JsString.value)
  : M Runtime.t PromoCodeValidation.t :=
  modify (Runtime.log (BackendValidate code planId userId)) ;;
  modify (Runtime.advance (Host.latency host)) ;;
  match Host.validate host with
  | Host.Rejected => throw (JsError.mk None "Network request failed")
  | Host.Reply status body =>
      if Host.ok status then ret body
      else throw (JsError.mk None ("Backend validation failed: " ++ pretty status))
  end.

Definition mockValidate (code : string) (planId : JsString.value)
  : M Runtime.t PromoCodeValidation.t :=
  (* Simulate network delay *)
  modify (Runtime.advance (500 + Host.lateness host)) ;;
  modify (Runtime.log (MockCatalog code planId)) ;;
  let* now := gets Runtime.now in
  ret (mockValidateIn (getMockPromoCodes None) getMockPlans now code planId).

Definition cacheKey (code : string) (planId userId : JsString.value) : string :=
  code ++ "_" ++ JsString.template planId ++ "_" ++ JsString.template userId.

(** The [try] block of [validatePromoCode]. *)
Definition validatePromoCode_try (code : string) (planId userId : JsString.value)
  : M Runtime.t PromoCodeValidation.t :=
  (* Check cache first *)
  let cacheKey := cacheKey code planId userId in
  let* cached := getCachedValidation cacheKey in
  match cached with
  | Some cached => ret cached
  | None =>
      (* Normalize the promo code *)
      let normalizedCode := normalizeCode code in
      let* backendUrl := gets (fun w => PromoCodeService.backendUrl (Runtime.service w)) in
      if JsString.truthy_opt backendUrl then
        let* validation := validateWithBackend normalizedCode planId userId in
        setCachedValidation cacheKey validation ;;
        ret validation
      else
        (* Use mock validation for development *)
        let* validation := mockValidate normalizedCode planId in
        setCachedValidation cacheKey validation ;;
        ret validation
  end.

Definition validatePromoCode (code : string) (planId userId : JsString.value)
  : M Runtime.t PromoCodeValidation.t :=
  try_catch (validatePromoCode_try code planId userId)
    (fun error => ret (invalid "Invalid promo code" "VALIDATION_FAILED")).

(** [createPaywallError]: the object that the service throws. *)
Definition createPaywallError (code message : string) : JsError.t :=
  JsError.mk (Some code) message.

(** [new PaywallError(code, message)]: [PaywallError] is declared as an
    interface only and is no value at run time, so the [new] expression
    does not build the error that its arguments describe: it throws the
    [TypeError] of the engine, which has no [code] and whose message names
    the missing constructor. *)
Definition new_PaywallError (code message : string) : JsError.t :=
  JsError.mk None "PaywallError is not a constructor".

(** The application stores the instant of [new Date()], which the source
    prints with [toISOString]. *)
Definition applyPromoCode (code : string) (plan : SubscriptionPlan.t)
    (userId : JsString.value) : M Runtime.t PromoCodeApplication.t :=
  try_catch
    (let* validation :=
       validatePromoCode code (JsString.str (SubscriptionPlan.id plan)) userId in
     match PromoCodeValidation.isValid validation,
           PromoCodeValidation.promoCode validation with
     | true, Some promoCode =>
         (* Apply discount to the plan *)
         let discountedPlan := applyDiscountToPlan plan promoCode in
         let* now := gets Runtime.now in
         ret {| PromoCodeApplication.promoCode := promoCode;
                PromoCodeApplication.originalPlan := plan;
                PromoCodeApplication.discountedPlan := discountedPlan;
                PromoCodeApplication.appliedAt := now |}
     | _, _ =>
         throw (new_PaywallError "INVALID_PROMO_CODE"
                  (if JsString.truthy (PromoCodeValidation.message validation)
                   then PromoCodeValidation.message validation
                   else "Invalid promo code"))
     end)
    (fun error => throw error).

Definition redeemWithBackend (code : string) (userId purchaseId : JsString.value)
  : M Runtime.t unit :=
  modify (Runtime.log (BackendRedeem code userId purchaseId)) ;;
  modify (Runtime.advance (Host.latency host)) ;;
  match Host.redeem host with
  | Host.Rejected => throw (JsError.mk None "Network request failed")
  | Host.Reply status _ =>
      if Host.ok status then ret tt
      else throw (JsError.mk None ("Failed to redeem promo code: " ++ pretty status))
  end.

(** [mockRedeem] only writes to the console. *)
Definition mockRedeem (code : string) (userId purchaseId : JsString.value)
  : M Runtime.t unit :=
  ret tt.

Definition redeemPromoCode (code : string) (userId purchaseId : JsString.value)
  : M Runtime.t unit :=
  try_catch
    (let* backendUrl := gets (fun w => PromoCodeService.backendUrl (Runtime.service w)) in
     (if JsString.truthy_opt backendUrl
      then redeemWithBackend code userId purchaseId
      else ret tt) ;;
     (* Mock redemption for development *)
     mockRedeem code userId purchaseId)
    (fun error =>
       throw (createPaywallError "REDEEM_FAILED" "Failed to redeem promo code")).

Definition clearCache : M Runtime.t unit :=
  modify (fun w => Runtime.set_service
                     (PromoCodeService.set_cache ∅ (Runtime.service w)) w).

End Service.

(** ** The provider: reducers *)

Inductive PaywallAction :=
  | SHOW_PAYWALL
  | HIDE_PAYWALL
  | SELECT_PLAN (payload : SubscriptionPlan.t)
  | SET_LOADING (payload : bool)
  | SET_ERROR (payload : option string)
  | SET_PURCHASE_STATE (payload : PurchaseState.t).

Inductive PromoCodeAction :=
  | SET_CODE (payload : string)
  | SET_VALIDATION (payload : option PromoCodeValidation.t)
  | SET_APPLYING (payload : bool)
  | SET_APPLIED_PROMO (payload : option PromoCodeApplication.t)
  | CLEAR_PROMO_CODE.

Definition initialPaywallState : PaywallState.t :=
  {| PaywallState.isVisible := false;
     PaywallState.selectedPlan := None;
     PaywallState.isLoading := false;
     PaywallState.error := None;
     PaywallState.purchaseState := PurchaseState.idle |}.

Definition initialPromoCodeState : PromoCodeState.t :=
  {| PromoCodeState.code := "";
     PromoCodeState.validation := None;
     PromoCodeState.isApplying := false;
     PromoCodeState.appliedPromo := None |}.

Definition paywallReducer (state : PaywallState.t) (action : PaywallAction) : PaywallState.t :=
  let '(PaywallState.mk isVisible selectedPlan isLoading error purchaseState) := state in
  match action with
  | SHOW_PAYWALL => PaywallState.mk true selectedPlan isLoading None purchaseState
  | HIDE_PAYWALL => PaywallState.mk false None isLoading None purchaseState
  | SELECT_PLAN payload => PaywallState.mk isVisible (Some payload) isLoading error purchaseState
  | SET_LOADING payload => PaywallState.mk isVisible selectedPlan payload error purchaseState
  | SET_ERROR payload => PaywallState.mk isVisible selectedPlan isLoading payload purchaseState
  | SET_PURCHASE_STATE payload => PaywallState.mk isVisible selectedPlan isLoading error payload
  end.

Definition promoCodeReducer (state : PromoCodeState.t) (action : PromoCodeAction)
  : PromoCodeState.t :=
  let '(PromoCodeState.mk code validation isApplying appliedPromo) := state in
  match action with
  | SET_CODE payload => PromoCodeState.mk payload validation isApplying appliedPromo
  | SET_VALIDATION payload => PromoCodeState.mk code payload isApplying appliedPromo
  | SET_APPLYING payload => PromoCodeState.mk code validation payload appliedPromo
  | SET_APPLIED_PROMO payload => PromoCodeState.mk code validation isApplying payload
  | CLEAR_PROMO_CODE => PromoCodeState.mk "" None isApplying None
  end.

(** ** The provider: actions *)

(** What the provider does to its collaborators and to the event handlers
    of the application. *)
Inductive Event :=
  | BillingPurchase (plan : SubscriptionPlan.t) (promoCode : option string)
  | StatusRefresh
  | Timer (ms : Z)
  | onPurchaseStart (plan : SubscriptionPlan.t)
  | onPurchaseSuccess (purchase : PurchaseInfo.t)
  | onPurchaseError (error : string)
  | onPromoCodeApplied (application : PromoCodeApplication.t)
  | onPromoCodeError (error : string)
  | onPaywallClose.

Module Provider.

(** The stores of the component, its services and the events so far. *)
Record t := mk {
  paywallState : PaywallState.t;
  promoCodeState : PromoCodeState.t;
  subscriptionStatus : option SubscriptionStatusResponse.t;
  userId : JsString.value;
  promoCodeService : Runtime.t;
  events : list Event
}.

Definition dispatchPaywall (a : PaywallAction) : M t unit :=
  modify (fun w => mk (paywallReducer (paywallState w) a) (promoCodeState w)
                     (subscriptionStatus w) (userId w) (promoCodeService w) (events w)).

Definition dispatchPromo (a : PromoCodeAction) : M t unit :=
  modify (fun w => mk (paywallState w) (promoCodeReducer (promoCodeState w) a)
                     (subscriptionStatus w) (userId w) (promoCodeService w) (events w)).

Definition setSubscriptionStatus (s : SubscriptionStatusResponse.t) : M t unit :=
  modify (fun w => mk (paywallState w) (promoCodeState w) (Some s) (userId w)
                     (promoCodeService w) (events w)).

Definition emit (e : Event) : M t unit :=
  modify (fun w => mk (paywallState w) (promoCodeState w) (subscriptionStatus w)
                     (userId w) (promoCodeService w) (events w ++ [e])).

(** A call into the promo code service. *)
Definition call {A} (m : M Runtime.t A) : M t A :=
  fun w => match m (promoCodeService w) with
           | (c, r) => (c, mk (paywallState w) (promoCodeState w) (subscriptionStatus w)
                             (userId w) r (events w))
           end.

(** What the functions of one render close over. *)
Module Render.
Record t := mk {
  paywallState : PaywallState.t;
  promoCodeState : PromoCodeState.t;
  userId : JsString.value
}.
End Render.

Definition render (w : t) : Render.t :=
  Render.mk (paywallState w) (promoCodeState w) (userId w).

Definition initial (userId : JsString.value) (service : Runtime.t) : t :=
  mk initialPaywallState initialPromoCodeState None userId service [].

End Provider.

Module PaywallProvider.

Import Provider.

Section Actions.

Variable host : Host.t.

(** The functions of the render [this]: they read the state as that
    render saw it, and their dispatches act on the stores. *)
Variable this : Render.t.

Definition hidePaywall : M Provider.t unit :=
  dispatchPaywall HIDE_PAYWALL ;;
  emit onPaywallClose.

Definition selectPlan (plan : SubscriptionPlan.t) : M Provider.t unit :=
  dispatchPaywall (SELECT_PLAN plan).

(** [refreshSubscriptionStatus] catches its own failures. *)
Definition refreshSubscriptionStatus : M Provider.t unit :=
  emit StatusRefresh ;;
  match Host.status host with
  | Some status => setSubscriptionStatus status
  | None => ret tt
  end.

(** [paywallService.purchasePlan]: the request goes out, and the
    promise settles with the purchase or with the error that
    [PaywallService] wraps every failure in. *)
Definition billing_request (plan : SubscriptionPlan.t) (promoCode : option string)
  : M Provider.t unit :=
  emit (BillingPurchase plan promoCode).

Definition billing_settle : M Provider.t PurchaseInfo.t :=
  match Host.purchase host with
  | Some purchaseInfo => ret purchaseInfo
  | None => throw (JsError.mk (Some "PURCHASE_FAILED") "Purchase failed. Please try again.")
  end.

(** [purchasePlan] from the entry of its [try] block to the point where
    it awaits the billing collaborator. *)
Definition purchasePlan_pending (plan : SubscriptionPlan.t) (promoCode : option string)
  : M Provider.t unit :=
  dispatchPaywall (SET_LOADING true) ;;
  dispatchPaywall (SET_PURCHASE_STATE PurchaseState.processing) ;;
  emit (onPurchaseStart plan) ;;
  billing_request plan promoCode.

(** The callback that [purchasePlan] schedules after a success. *)
Definition purchasePlan_timeout : M Provider.t unit :=
  hidePaywall ;;
  dispatchPaywall (SET_PURCHASE_STATE PurchaseState.idle).

Definition purchasePlan : M Provider.t unit :=
  match PaywallState.selectedPlan (Render.paywallState this) with
  | None => dispatchPaywall (SET_ERROR (Some "No plan selected"))
  | Some selectedPlan =>
    let promoCode :=
      match PromoCodeState.appliedPromo (Render.promoCodeState this) with
      | Some applied => Some (PromoCode.code (PromoCodeApplication.promoCode applied))
      | None => None
      end in
    try_finally
      (try_catch
         (purchasePlan_pending selectedPlan promoCode ;;
          let* purchaseInfo := billing_settle in
          (* Update subscription status *)
          refreshSubscriptionStatus ;;
          dispatchPaywall (SET_PURCHASE_STATE PurchaseState.success) ;;
          emit (onPurchaseSuccess purchaseInfo) ;;
          (* Clear promo code after successful purchase *)
          match promoCode with
          | Some code =>
              if JsString.truthy code then
                call (redeemPromoCode host code (Render.userId this) JsString.undefined) ;;
                dispatchPromo CLEAR_PROMO_CODE
              else ret tt
          | None => ret tt
          end ;;
          (* Hide paywall after successful purchase *)
          emit (Timer 2000))
         (fun error =>
            dispatchPaywall (SET_PURCHASE_STATE PurchaseState.error) ;;
            dispatchPaywall
              (SET_ERROR (Some (if JsString.truthy (JsError.message error)
                                then JsError.message error
                                else "Purchase failed"))) ;;
            emit (onPurchaseError (JsError.message error))))
      (dispatchPaywall (SET_LOADING false))
  end.

Definition applyPromoCode (code : string) : M Provider.t unit :=
  match PaywallState.selectedPlan (Render.paywallState this) with
  | None => dispatchPaywall (SET_ERROR (Some "Select a plan first"))
  | Some selectedPlan =>
    try_finally
      (try_catch
         (dispatchPromo (SET_APPLYING true) ;;
          let* application :=
            call (applyPromoCode host code selectedPlan (Render.userId this)) in
          (* Update the selected plan with discounted price *)
          dispatchPaywall (SELECT_PLAN (PromoCodeApplication.discountedPlan application)) ;;
          dispatchPromo (SET_APPLIED_PROMO (Some application)) ;;
          emit (onPromoCodeApplied application))
         (fun error => emit (onPromoCodeError (JsError.message error))))
      (dispatchPromo (SET_APPLYING false))
  end.


End Actions.

(** An action as the current render provides it. *)
Definition rendered {A} (action : Render.t -> M Provider.t A) : M Provider.t A :=
  fun w => action (render w) w.

End PaywallProvider.

(** Every entry of the cache carries the vertical bar that
    [setCachedValidation] puts in front of the timestamp: the invariant of
    the cache of a service that only its own methods have written to. *)
Definition cache_stamped (w : Runtime.t) : Prop :=
  forall key cached,
    PromoCodeService.cache (Runtime.service w) !! key = Some cached ->
    JsString.includes_char "|" (PromoCodeValidation.message cached) = true.

(** The catalog request that a cache miss leads to. *)
Definition catalog_request (w : Runtime.t) (code : string) (planId userId : JsString.value)
  : Request :=
  if JsString.truthy_opt (PromoCodeService.backendUrl (Runtime.service w))
  then BackendValidate (normalizeCode code) planId userId
  else MockCatalog (normalizeCode code) planId.

(** ** Plans, codes and configurations used in the examples *)

(** A service without a backend, as [new PromoCodeService({})] makes it,
    on 31 December 2024 at 23:58:00 UTC, two minutes before [SAVE20] ends. *)
Definition fresh_service : Runtime.t :=
  Runtime.mk (PromoCodeService.new (PromoCodeService.Config.mk None None None None))
    1735689480000 [].

(** Collaborators that are never reached. *)
Definition offline : Host.t :=
  Host.mk Host.Rejected Host.Rejected 0 0 None None.

Definition monthly_plan : JsString.value := JsString.str "monthly".

Definition user1 : JsString.value := JsString.str "user_1".

Definition plan_9_99 : SubscriptionPlan.t :=
  SubscriptionPlan.mk "monthly" "Monthly Premium" "Billed monthly" (999 # 100) "USD" monthly
    ["Unlimited access"] None None None (Some "premium_monthly").

Definition promo_of (d : Discount.t) : PromoCode.t :=
  PromoCode.mk "9" "TEST" "test" d None 0 "2024-01-01T00:00:00Z" "2024-12-31T23:59:59Z"
    true None None.

(** What the mock catalog answers for [SAVE20] on the monthly plan in
    2024. *)
Definition save20_valid : PromoCodeValidation.t :=
  {| PromoCodeValidation.isValid := true;
     PromoCodeValidation.promoCode := Some SAVE20;
     PromoCodeValidation.discountedPrice := Some ((999 # 100) * (1 - 20 / 100))%Q;
     PromoCodeValidation.message := "Promo code applied successfully";
     PromoCodeValidation.error := None |}.

(** The service after that first validation. *)
Definition after_save20 : Runtime.t :=
  snd (validatePromoCode_try offline "SAVE20" monthly_plan user1 fresh_service).


(** A service configured with a backend, on 10 June 2024 at 06:13:20
    UTC. *)
Definition with_backend : Runtime.t :=
  Runtime.mk (PromoCodeService.new
                (PromoCodeService.Config.mk (Some "https://api.example.com") (Some "key")
                   None None))
    1718000000000 [].

Definition receipt : PurchaseInfo.t :=
  PurchaseInfo.mk "txn_1" "premium_monthly" "2024-06-10T06:13:21.000Z" None true
    (Some "SAVE20") (999 # 100) (7992 # 1000) "USD".

Definition subscribed : SubscriptionStatusResponse.t :=
  SubscriptionStatusResponse.mk true ["premium"] None true None (Some "SAVE20").

(** The backend validates [SAVE20], billing takes the purchase, and the
    redemption request is answered with the status [redeem_status]. *)
Definition shop (redeem_status : Z) : Host.t :=
  Host.mk (Host.Reply 200 save20_valid) (Host.Reply redeem_status tt) 120 0
    (Some receipt) (Some subscribed).

(** The application that [applyPromoCode] makes of it, 120 ms later. *)
Definition save20_applied : PromoCodeApplication.t :=
  {| PromoCodeApplication.promoCode := SAVE20;
     PromoCodeApplication.originalPlan := plan_9_99;
     PromoCodeApplication.discountedPlan := applyDiscountToPlan plan_9_99 SAVE20;
     PromoCodeApplication.appliedAt := 1718000000120 |}.

(** A provider with that service: the user selects the monthly plan and
    then applies [SAVE20]. *)
Definition plan_selected : Provider.t :=
  snd (PaywallProvider.selectPlan plan_9_99 (Provider.initial user1 with_backend)).

Definition promo_applied : Provider.t :=
  snd (PaywallProvider.rendered (fun this => PaywallProvider.applyPromoCode (shop 200) this "SAVE20")
         plan_selected).

(** ** More of the promo code service *)

Section ServiceQueries.

Variable host : Host.t.

(** What the backend answers to [POST /promo-codes/check-usage] (the
    [hasUsed] field of the body) and to [GET /promo-codes]. *)
Variable checkUsage : Host.response bool.
Variable promoCodes : Host.response (list PromoCode.t).

Definition checkUsageWithBackend (code : string) (userId : JsString.value)
  : M Runtime.t bool :=
  modify (Runtime.advance (Host.latency host)) ;;
  match checkUsage with
  | Host.Rejected => throw (JsError.mk None "Network request failed")
  | Host.Reply status hasUsed =>
      if Host.ok status then ret hasUsed
      else throw (JsError.mk None ("Failed to check usage: " ++ pretty status))
  end.

Definition mockCheckUsage (code : string) (userId : JsString.value) : bool :=
  let usedCodes := ["SAVE20"; "FREEMONTH"] in
  existsb (String.eqb code) usedCodes.

Definition hasUserUsedPromoCode (code : string) (userId : JsString.value)
  : M Runtime.t bool :=
  try_catch
    (let* backendUrl := gets (fun w => PromoCodeService.backendUrl (Runtime.service w)) in
     if JsString.truthy_opt backendUrl
     then checkUsageWithBackend code userId
     else
       (* Mock check for development *)
       ret (mockCheckUsage code userId))
    (fun error => ret false).

Definition getPromoCodesFromBackend (filters : option Filters.t)
  : M Runtime.t (list PromoCode.t) :=
  modify (Runtime.advance (Host.latency host)) ;;
  match promoCodes with
  | Host.Rejected => throw (JsError.mk None "Network request failed")
  | Host.Reply status body =>
      if Host.ok status then ret body
      else throw (JsError.mk None ("Failed to fetch promo codes: " ++ pretty status))
  end.

Definition getAvailablePromoCodes (filters : option Filters.t)
  : M Runtime.t (list PromoCode.t) :=
  try_catch
    (let* backendUrl := gets (fun w => PromoCodeService.backendUrl (Runtime.service w)) in
     if JsString.truthy_opt backendUrl
     then getPromoCodesFromBackend filters
     else
       (* Return mock promo codes for development *)
       ret (getMockPromoCodes filters))
    (fun error => throw (createPaywallError "FETCH_FAILED" "Failed to fetch promo codes")).

End ServiceQueries.

(** The filters with their limit taken out. *)
Definition without_limit (filters : option Filters.t) : option Filters.t :=
  match filters with
  | Some f => Some (Filters.mk (Filters.active f) (Filters.planId f) None)
  | None => None
  end.

(** ** More of the provider *)

(** [isFeatureUnlocked], on the subscription status of the provider. *)
Definition isFeatureUnlocked (subscriptionStatus : option SubscriptionStatusResponse.t)
    (featureId : string) : bool :=
  match subscriptionStatus with
  | None => false
  | Some status =>
      if negb (SubscriptionStatusResponse.isActive status) then false
      else
        (* Check if feature is included in user's entitlements *)
        existsb (String.eqb featureId) (SubscriptionStatusResponse.entitlements status)
        || existsb (String.eqb "premium") (SubscriptionStatusResponse.entitlements status)
  end.

(** ** The hooks *)

Module Hooks.

(** [useSubscriptionPlans] *)

Definition getPlanById (plans : list SubscriptionPlan.t) (planId : string)
  : option SubscriptionPlan.t :=
  List.find (fun plan => String.eqb (SubscriptionPlan.id plan) planId) plans.

Definition getPopularPlan (plans : list SubscriptionPlan.t) : option SubscriptionPlan.t :=
  List.find (fun plan => default false (SubscriptionPlan.isPopular plan)) plans.

(** [a < b] on prices. *)
Definition price_lt (a b : Q) : bool := if Qlt_le_dec a b then true else false.

(** [plans.reduce(f)] without an initial value starts from the first
    plan. *)
Definition getCheapestPlan (plans : list SubscriptionPlan.t) : option SubscriptionPlan.t :=
  match plans with
  | [] => None
  | first :: rest =>
      Some (fold_left
              (fun cheapest current =>
                 if price_lt (SubscriptionPlan.price current) (SubscriptionPlan.price cheapest)
                 then current else cheapest)
              rest first)
  end.

(** [usePromoCode] *)

Definition isValidPromo (state : PromoCodeState.t) : bool :=
  match PromoCodeState.validation state with
  | Some validation => PromoCodeValidation.isValid validation
  | None => false
  end.

Definition hasAppliedPromo (state : PromoCodeState.t) : bool :=
  match PromoCodeState.appliedPromo state with Some _ => true | None => false end.

Definition discountAmount (state : PromoCodeState.t) : Q :=
  match PromoCodeState.appliedPromo state with
  | Some appliedPromo =>
      SubscriptionPlan.price (PromoCodeApplication.originalPlan appliedPromo)
      - SubscriptionPlan.price (PromoCodeApplication.discountedPlan appliedPromo)
  | None => 0
  end.

(** [useSubscriptionUtils] *)

(** The days and hours that [getTimeUntilExpiration] returns; each is NaN
    ([None]) when the expiration date is no date. *)
Definition getTimeUntilExpiration (subscriptionStatus : option SubscriptionStatusResponse.t)
    (now : Z) : option (option Z * option Z) :=
  match subscriptionStatus ≫= SubscriptionStatusResponse.expirationDate with
  | None => None
  | Some expirationDate =>
      if negb (JsString.truthy expirationDate) then None
      else
        match JsDate.sub (JsDate.parse expirationDate) (Some now) with
        | None => Some (None, None)
        | Some diff =>
            if (diff <=? 0)%Z then None
            else
              let days := (diff / (1000 * 60 * 60 * 24))%Z in
              let hours := (Z.rem diff (1000 * 60 * 60 * 24) / (1000 * 60 * 60))%Z in
              Some (Some days, Some hours)
        end
  end.

Definition isExpiringSoon (subscriptionStatus : option SubscriptionStatusResponse.t)
    (now : Z) (daysThreshold : option Z) : bool :=
  let daysThreshold := default 3%Z daysThreshold in
  match getTimeUntilExpiration subscriptionStatus now with
  | None => false
  | Some (Some days, _) => (days <=? daysThreshold)%Z
  | Some (None, _) => false
  end.

End Hooks.

(** ** Predicates used in the statements *)

(** Every character of [s] satisfies [P]. *)
Fixpoint all_chars (P : ascii -> bool) (s : string) : bool :=
  match s with
  | String c s' => P c && all_chars P s'
  | EmptyString => true
  end.

(** A lower-case letter a to z. *)
Definition is_lower (c : ascii) : bool :=
  let n := JsString.code_unit c in ((97 <=? n) && (n <=? 122))%Z.

(** A character as a canonical code has it: no white space, no lower-case
    letter. *)
Definition canonical_char (c : ascii) : bool :=
  negb (JsString.is_space c) && negb (is_lower c).

(** The code that [purchasePlan] redeems after the purchase: the code of
    the applied promo, when there is one and it is not empty. *)
Definition code_to_redeem (state : PromoCodeState.t) : option string :=
  match PromoCodeState.appliedPromo state with
  | Some applied =>
      let code := PromoCode.code (PromoCodeApplication.promoCode applied) in
      if JsString.truthy code then Some code else None
  | None => None
  end.

(** ** The provider: validating and restoring

    [validatePromoCode] and [restorePurchases] call handlers that the
    events above do not list: [onPromoCodeApplied] with an application
    whose promo code and plans may be undefined, and the two restore
    handlers. *)

Inductive HandlerCall :=
| promoCodeApplied (promoCode : option PromoCode.t)
    (originalPlan discountedPlan : option SubscriptionPlan.t) (appliedAt : Z)
| promoCodeError (error : string)
| restoreSuccess (purchases : list PurchaseInfo.t)
| restoreError (error : string).

Module Session.

Record t := mk {
  provider : Provider.t;
  handlerCalls : list HandlerCall
}.

(** A step of the provider. *)
Definition step {A} (m : M Provider.t A) : M t A :=
  fun w => match m (provider w) with
           | (c, p) => (c, mk p (handlerCalls w))
           end.

Definition handle (h : HandlerCall) : M t unit :=
  modify (fun w => mk (provider w) (handlerCalls w ++ [h])).

End Session.

Module PaywallProviderMore.

Import Provider.

Section Actions.

Variable host : Host.t.

(** What [paywallService.restorePurchases] resolves with; [None] when it
    throws its [RESTORE_FAILED] error. *)
Variable restored : option (list PurchaseInfo.t).

Variable this : Render.t.

Definition validatePromoCode (code : string) : M Session.t PromoCodeValidation.t :=
  try_finally
    (try_catch
       (Session.step (dispatchPromo (SET_APPLYING true)) ;;
        let planId :=
          match PaywallState.selectedPlan (Render.paywallState this) with
          | Some plan => JsString.str (SubscriptionPlan.id plan)
          | None => JsString.undefined
          end in
        let* validation :=
          Session.step (call (validatePromoCode host code planId (Render.userId this))) in
        Session.step (dispatchPromo (SET_VALIDATION (Some validation))) ;;
        (if PromoCodeValidation.isValid validation then
           let* now := gets (fun w => Runtime.now (promoCodeService (Session.provider w))) in
           Session.handle
             (promoCodeApplied (PromoCodeValidation.promoCode validation)
                (PaywallState.selectedPlan (Render.paywallState this))
                (PaywallState.selectedPlan (Render.paywallState this))
                now)
         else
           Session.handle
             (promoCodeError
                (match PromoCodeValidation.error validation with
                 | Some error => if JsString.truthy error then error else "Invalid promo code"
                 | None => "Invalid promo code"
                 end))) ;;
        ret validation)
       (fun error =>
          let errorValidation :=
            {| PromoCodeValidation.isValid := false;
               PromoCodeValidation.promoCode := None;
               PromoCodeValidation.discountedPrice := None;
               PromoCodeValidation.message :=
                 if JsString.truthy (JsError.message error) then JsError.message error
                 else "Failed to validate promo code";
               PromoCodeValidation.error := Some "VALIDATION_ERROR" |} in
          Session.step (dispatchPromo (SET_VALIDATION (Some errorValidation))) ;;
          Session.handle (promoCodeError (JsError.message error)) ;;
          ret errorValidation))
    (Session.step (dispatchPromo (SET_APPLYING false))).

Definition paywallService_restorePurchases : M Session.t (list PurchaseInfo.t) :=
  match restored with
  | Some purchases => ret purchases
  | None =>
      throw (JsError.mk (Some "RESTORE_FAILED")
               "Failed to restore purchases. Please try again.")
  end.

Definition restorePurchases : M Session.t unit :=
  try_finally
    (try_catch
       (Session.step (dispatchPaywall (SET_LOADING true)) ;;
        let* purchases := paywallService_restorePurchases in
        Session.step (PaywallProvider.refreshSubscriptionStatus host) ;;
        Session.handle (restoreSuccess purchases))
       (fun error =>
          Session.handle (restoreError (JsError.message error)) ;;
          Session.step
            (dispatchPaywall
               (SET_ERROR (Some (if JsString.truthy (JsError.message error)
                                 then JsError.message error
                                 else "Restore failed"))))))
    (Session.step (dispatchPaywall (SET_LOADING false))).

End Actions.

(** An action as the current render provides it. *)
Definition rendered {A} (action : Render.t -> M Session.t A) : M Session.t A :=
  fun w => action (render (Session.provider w)) w.

End PaywallProviderMore.

(** ** [usePurchaseFlow] *)

Module PurchaseFlow.

(** The provider and the [purchaseError] state of the hook. *)
Record t := mk {
  provider : Provider.t;
  purchaseError : option string
}.

Definition setPurchaseError (e : option string) : M t unit :=
  modify (fun w => mk (provider w) e).

Definition step {A} (m : M Provider.t A) : M t A :=
  fun w => match m (provider w) with
           | (c, p) => (c, mk p (purchaseError w))
           end.

Definition handlePurchase (host : Host.t) : M t unit :=
  try_catch
    (setPurchaseError None ;;
     step (PaywallProvider.rendered (PaywallProvider.purchasePlan host)))
    (fun error => setPurchaseError (Some (JsError.message error))).

Definition isProcessing (w : t) : bool :=
  match PaywallState.purchaseState (Provider.paywallState (provider w)) with
  | PurchaseState.processing => true
  | _ => false
  end.

Definition isCompleted (w : t) : bool :=
  match PaywallState.purchaseState (Provider.paywallState (provider w)) with
  | PurchaseState.success => true
  | _ => false
  end.

Definition hasError (w : t) : bool :=
  match PaywallState.purchaseState (Provider.paywallState (provider w)) with
  | PurchaseState.error => true
  | _ => match purchaseError w with
         | Some e => JsString.truthy e
         | None => false
         end
  end.

End PurchaseFlow.

(** ** [Date.prototype.toISOString] *)

Module JsDateFormat.

Definition digit_char (n : Z) : ascii := ascii_of_nat (Z.to_nat (48 + n)).

Definition pad2 (n : Z) : list ascii :=
  [digit_char (n / 10); digit_char (n mod 10)]%Z.

Definition pad3 (n : Z) : list ascii :=
  (pad2 (n / 10) ++ [digit_char (n mod 10)])%Z%list.

Definition pad4 (n : Z) : list ascii :=
  (pad2 (n / 100) ++ pad2 (n mod 100))%Z%list.

Definition pad6 (n : Z) : list ascii :=
  (pad4 (n / 100) ++ pad2 (n mod 100))%Z%list.

(** The year, the month and the day of the month of a day of the era
    of 400 years that starts on 1 March. *)
Definition civil_of_doe (doe : Z) : Z * Z * Z :=
  (let yoe := (doe - doe / 1460 + doe / 36524 - doe / 146096) / 365 in
   let doy := doe - (365 * yoe + yoe / 4 - yoe / 100) in
   let mp := (5 * doy + 2) / 153 in
   let d := doy - (153 * mp + 2) / 5 + 1 in
   let m := if mp <? 10 then mp + 3 else mp - 9 in
   (yoe, m, d))%Z.

(** The civil date of a day since the epoch (proleptic Gregorian). *)
Definition civil_from_days (z : Z) : Z * Z * Z :=
  (let era := (z + 719468) / 146097 in
   let doe := (z + 719468) mod 146097 in
   let '(yoe, m, d) := civil_of_doe doe in
   let y := yoe + era * 400 in
   (if m <=? 2 then y + 1 else y, m, d))%Z.

(** Four digits for the years 0 to 9999, and a sign with six digits for
    the others. *)
Definition year_string (y : Z) : list ascii :=
  if ((0 <=? y) && (y <=? 9999))%Z then pad4 y
  else if (y <? 0)%Z then "-"%char :: pad6 (- y)%Z
  else "+"%char :: pad6 y.

(** [YYYY-MM-DDTHH:mm:ss.sssZ] of a time value. *)
Definition format (tv : Z) : string :=
  (let day := tv / 86400000 in
   let ms := tv mod 86400000 in
   let '(y, m, d) := civil_from_days day in
   string_of_list_ascii
     (year_string y ++ "-"%char :: pad2 m ++ "-"%char :: pad2 d
      ++ "T"%char :: pad2 (ms / 3600000)
      ++ ":"%char :: pad2 (ms / 60000 mod 60)
      ++ ":"%char :: pad2 (ms / 1000 mod 60)
      ++ "."%char :: pad3 (ms mod 1000) ++ ["Z"%char])%list)%Z.

(** [new Date(value)]: the time value, or NaN out of the range of
    dates. *)
Definition Date_of (value : Z) : option Z := JsDate.TimeClip value.

(** [toISOString] throws a [RangeError] on an invalid date. *)
Definition toISOString (tv : option Z) : completion string :=
  match tv with
  | Some t => Normal (format t)
  | None => Throw (JsError.mk None "Invalid time value")
  end.

End JsDateFormat.

(** [forall_from p n z]: [p] holds of the [n] integers from [z] on. *)
Fixpoint forall_from (p : Z -> bool) (n : nat) (z : Z) : bool :=
  match n with
  | O => true
  | S n' => p z && forall_from p n' (z + 1)%Z
  end.

(** ** [usePaywallTriggers] *)

Module Triggers.

Section Triggers.

(** What a caller attaches to a trigger; the hook stores it and never
    reads it. *)
Variable Context : Type.

Record record := mkRecord {
  trigger : string;
  timestamp : string;
  context : option Context
}.

(** The provider, the [triggerHistory] state of the hook and the items
    of [AsyncStorage]. *)
Record t := mk {
  provider : Provider.t;
  triggerHistory : list record;
  storage : gmap string string
}.

Definition step {A} (m : M Provider.t A) : M t A :=
  fun w => match m (provider w) with
           | (c, p) => (c, mk p (triggerHistory w) (storage w))
           end.

Definition settle {A} (c : completion A) : M t A := fun w => (c, w).

Definition LAST_SEEN_PAYWALL : string := "@paywall_last_seen".

(** [showPaywall] of the provider, at the clock reading [now]. *)
Definition showPaywall (now : Z) : M t unit :=
  step (Provider.dispatchPaywall SHOW_PAYWALL) ;;
  let* stamp := settle (JsDateFormat.toISOString (JsDateFormat.Date_of now)) in
  modify (fun w => mk (provider w) (triggerHistory w)
                     (<[LAST_SEEN_PAYWALL := stamp]> (storage w))).

Definition recordTrigger (now : Z) (trigger : string) (context : option Context) : M t unit :=
  let* timestamp := settle (JsDateFormat.toISOString (JsDateFormat.Date_of now)) in
  let record := mkRecord trigger timestamp context in
  modify (fun w => mk (provider w) (triggerHistory w ++ [record])%list (storage w)).

(** [recorded] and [shown] are the clock readings of [recordTrigger] and
    of [showPaywall]. *)
Definition triggerPaywall (recorded shown : Z) (trigger : string) (context : option Context)
  : M t unit :=
  recordTrigger recorded trigger context ;;
  showPaywall shown.

(** What [shouldShowPaywall] closes over. *)
Record Render := mkRender {
  subscriptionStatus : option SubscriptionStatusResponse.t;
  history : list record
}.

Definition render (w : t) : Render :=
  mkRender (Provider.subscriptionStatus (provider w)) (triggerHistory w).

(** A record counts as recent when less than 24 hours lie between its
    time stamp and [now], the reading of the clock during the call; a
    time stamp that is no date is not recent. *)
Definition recent (now : Z) (trigger : string) (r : record) : bool :=
  String.eqb (Triggers.trigger r) trigger
  && JsDate.lt (JsDate.sub (Some now) (JsDate.parse (timestamp r)))
       (Some (24 * 60 * 60 * 1000)%Z).

Definition shouldShowPaywall (this : Render) (now : Z) (trigger : string) : bool :=
  (* Don't show paywall if user is already subscribed *)
  if match subscriptionStatus this with
     | Some status => SubscriptionStatusResponse.isActive status
     | None => false
     end
  then false
  else
    (* Check if this trigger was recently shown *)
    let recentTriggers := List.filter (recent now trigger) (history this) in
    (length recentTriggers =? 0)%nat.

Definition triggerPaywallIfNeeded (this : Render) (now recorded shown : Z) (trigger : string)
    (context : option Context) : M t bool :=
  if shouldShowPaywall this now trigger then
    triggerPaywall recorded shown trigger context ;;
    ret true
  else ret false.

Definition rendered {A} (action : Render -> M t A) : M t A :=
  fun w => action (render w) w.

End Triggers.

Arguments mkRecord {Context}.
Arguments trigger {Context}.
Arguments timestamp {Context}.
Arguments context {Context}.
Arguments mk {Context}.
Arguments provider {Context}.
Arguments triggerHistory {Context}.
Arguments storage {Context}.
Arguments mkRender {Context}.
Arguments subscriptionStatus {Context}.
Arguments history {Context}.
Arguments render {Context}.
Arguments recent {Context}.
Arguments shouldShowPaywall {Context}.
Arguments triggerPaywallIfNeeded {Context}.
Arguments triggerPaywall {Context}.
Arguments recordTrigger {Context}.
Arguments showPaywall {Context}.
Arguments rendered {Context A}.

End Triggers.

(** ** [PaywallService]: purchases *)

Module PaywallService.

Record RevenueCatConfig := mkRevenueCat {
  apiKey : string;
  entitlementId : string;
  offeringId : option string
}.

Record t := mk {
  revenueCatConfig : option RevenueCatConfig;
  customBackendUrl : option string;
  customBackendApiKey : option string;
  debugMode : bool
}.

Definition getDurationMs (duration : Duration) : Z :=
  match duration with
  | monthly => 30 * 24 * 60 * 60 * 1000
  | yearly => 365 * 24 * 60 * 60 * 1000
  | lifetime => 0
  end%Z.

Section Purchase.

(** What the backend answers to [POST /purchase]. *)
Variable purchase : Host.response PurchaseInfo.t.

(** The three readings of the clock in [mockPurchase], after its delay:
    for the transaction id, for the purchase date and for the
    expiration date. *)
Variable t_id t_purchase t_expiration : Z.

Definition mockPurchase (plan : SubscriptionPlan.t) (promoCode : option string)
  : completion PurchaseInfo.t :=
  let discountedPrice :=
    (if JsString.truthy_opt promoCode then SubscriptionPlan.price plan * (8 # 10)
     else SubscriptionPlan.price plan)%Q in
  match JsDateFormat.toISOString (JsDateFormat.Date_of t_purchase) with
  | Throw e => Throw e
  | Normal purchaseDate =>
      let finish (expirationDate : option string) :=
        Normal
          {| PurchaseInfo.transactionId := "mock_" ++ pretty t_id;
             PurchaseInfo.productId :=
               if JsString.truthy_opt (SubscriptionPlan.productId plan)
               then default "" (SubscriptionPlan.productId plan)
               else SubscriptionPlan.id plan;
             PurchaseInfo.purchaseDate := purchaseDate;
             PurchaseInfo.expirationDate := expirationDate;
             PurchaseInfo.isActive := true;
             PurchaseInfo.promoCodeUsed := promoCode;
             PurchaseInfo.originalPrice := SubscriptionPlan.price plan;
             PurchaseInfo.finalPrice := discountedPrice;
             PurchaseInfo.currency := SubscriptionPlan.currency plan |} in
      match SubscriptionPlan.duration plan with
      | lifetime => finish None
      | duration =>
          match JsDateFormat.toISOString
                  (JsDateFormat.Date_of (t_expiration + getDurationMs duration)) with
          | Throw e => Throw e
          | Normal expirationDate => finish (Some expirationDate)
          end
      end
  end.

Definition purchaseRevenueCatPlan (plan : SubscriptionPlan.t) (promoCode : option string)
  : completion PurchaseInfo.t :=
  mockPurchase plan promoCode.

Definition purchaseCustomBackendPlan (plan : SubscriptionPlan.t) (promoCode : option string)
  : completion PurchaseInfo.t :=
  match purchase with
  | Host.Rejected => Throw (JsError.mk None "Network request failed")
  | Host.Reply status purchaseInfo =>
      if Host.ok status then Normal purchaseInfo
      else Throw (JsError.mk None ("Purchase failed: " ++ pretty status))
  end.

Definition createPaywallError (code message : string) : JsError.t :=
  JsError.mk (Some code) message.

Definition purchasePlan (this : t) (plan : SubscriptionPlan.t) (promoCode : option string)
  : completion PurchaseInfo.t :=
  match
    match revenueCatConfig this with
    | Some _ => purchaseRevenueCatPlan plan promoCode
    | None =>
        if JsString.truthy_opt (customBackendUrl this)
        then purchaseCustomBackendPlan plan promoCode
        else
          (* Mock purchase for development *)
          mockPurchase plan promoCode
    end
  with
  | Normal purchaseInfo => Normal purchaseInfo
  | Throw error =>
      Throw (createPaywallError "PURCHASE_FAILED" "Purchase failed. Please try again.")
  end.

End Purchase.

End PaywallService.

(** A user who has selected the monthly plan and has met no trigger
    yet. *)
Definition no_trigger_yet : Triggers.t string :=
  Triggers.mk plan_selected [] ∅.

(** * Properties *)

(** ** Discount calculator *)

Section DiscountCalculator.

Local Open Scope Q_scope.

Lemma Math_max_Qmax (a b : Q) : Math_max a b == Qmax a b.
Proof.
  unfold Math_max. destruct (Qlt_le_dec a b) as [Hlt | Hle].
  - symmetry. apply Q.max_r. apply Qlt_le_weak, Hlt.
  - symmetry. apply Q.max_l. exact Hle.
Qed.

Lemma Math_max_nonneg (x : Q) : 0 <= Math_max 0 x.
Proof.
  unfold Math_max. destruct (Qlt_le_dec 0 x) as [Hlt | Hle].
  - apply Qlt_le_weak, Hlt.
  - apply Qle_refl.
Qed.

Lemma Math_max_nonpos (x : Q) : x <= 0 -> Math_max 0 x = 0.
Proof.
  intros Hx. unfold Math_max. destruct (Qlt_le_dec 0 x) as [Hlt | Hle].
  - exfalso. apply (Qlt_irrefl 0). eapply Qlt_le_trans; eassumption.
  - reflexivity.
Qed.

Lemma over_100_percent (p v : Q) : 0 <= p -> 100 < v -> p * (1 - v / 100) <= 0.
Proof.
  intros Hp Hv. unfold Qdiv. change (/ 100) with (1 # 100).
  assert (Hf : 1 - v * (1 # 100) <= 0) by lra.
  nra.
Qed.

Lemma over_price (p v : Q) : p <= v -> p - v <= 0.
Proof. intros Hv. lra. Qed.

End DiscountCalculator.

(** C2. For a non-negative base price, a percentage discount gives
    [max 0 (p * (1 - value/100))], which is 0 once the value exceeds 100; a
    fixed discount gives [max 0 (p - value)]; a free trial gives 0; and the
    result is never negative. *)
Theorem calculateDiscountedPrice_spec (plan : SubscriptionPlan.t) (promoCode : PromoCode.t) :
  (0 <= SubscriptionPlan.price plan)%Q ->
  let p := SubscriptionPlan.price plan in
  let v := Discount.value (PromoCode.discount promoCode) in
  let r := calculateDiscountedPrice plan promoCode in
  match Discount.type (PromoCode.discount promoCode) with
  | percentage => (r == Qmax 0 (p * (1 - v / 100)))%Q /\ ((100 < v)%Q -> r = 0%Q)
  | fixed => (r == Qmax 0 (p - v))%Q /\ ((p <= v)%Q -> r = 0%Q)
  | free_trial => r = 0%Q
  end
  /\ (0 <= r)%Q.
Proof.
  intros Hp p v r. subst p v r. unfold calculateDiscountedPrice.
  destruct (Discount.type (PromoCode.discount promoCode)).
  - split; [split |].
    + apply Math_max_Qmax.
    + intros Hv. apply Math_max_nonpos. apply over_100_percent; assumption.
    + apply Math_max_nonneg.
  - split; [split |].
    + apply Math_max_Qmax.
    + intros Hv. apply Math_max_nonpos. apply over_price. exact Hv.
    + apply Math_max_nonneg.
  - split; [reflexivity | apply Qle_refl].
Qed.

(** 150% off 9.99 is 0, not a negative price. *)
Lemma calculateDiscountedPrice_spec_witness :
  calculateDiscountedPrice plan_9_99 (promo_of (Discount.mk percentage 150 None)) = 0%Q
  /\ (0 <= calculateDiscountedPrice plan_9_99 (promo_of (Discount.mk percentage 150 None)))%Q.
Proof.
  assert (Hp : (0 <= SubscriptionPlan.price plan_9_99)%Q) by (vm_compute; discriminate).
  pose proof (calculateDiscountedPrice_spec plan_9_99
                (promo_of (Discount.mk percentage 150 None)) Hp) as H.
  cbv zeta in H. simpl Discount.type in H. destruct H as [[_ H100] Hnn].
  split; [apply H100; reflexivity | exact Hnn].
Defined.

(** 20% off 9.99 is 7.992. *)
Example save20_on_monthly :
  (calculateDiscountedPrice plan_9_99 (promo_of (Discount.mk percentage 20 None))
   == 7992 # 1000)%Q.
Proof. vm_compute. reflexivity. Qed.

(** C10. The discounted plan has every field of the original plan except
    the price, which is the discounted one, and the description, which
    changes for a free trial only.  The function builds a new record from
    [plan] and assigns to none of its fields. *)
Theorem applyDiscountToPlan_frame (plan : SubscriptionPlan.t) (promoCode : PromoCode.t) :
  let d := applyDiscountToPlan plan promoCode in
  SubscriptionPlan.id d = SubscriptionPlan.id plan
  /\ SubscriptionPlan.name d = SubscriptionPlan.name plan
  /\ SubscriptionPlan.currency d = SubscriptionPlan.currency plan
  /\ SubscriptionPlan.duration d = SubscriptionPlan.duration plan
  /\ SubscriptionPlan.features d = SubscriptionPlan.features plan
  /\ SubscriptionPlan.originalPrice d = SubscriptionPlan.originalPrice plan
  /\ SubscriptionPlan.discountPercentage d = SubscriptionPlan.discountPercentage plan
  /\ SubscriptionPlan.isPopular d = SubscriptionPlan.isPopular plan
  /\ SubscriptionPlan.productId d = SubscriptionPlan.productId plan
  /\ SubscriptionPlan.price d = calculateDiscountedPrice plan promoCode
  /\ SubscriptionPlan.description d =
       match Discount.type (PromoCode.discount promoCode) with
       | free_trial =>
           SubscriptionPlan.description plan ++ " - "
             ++ template_days (Discount.duration (PromoCode.discount promoCode))
             ++ " days free trial"
       | percentage | fixed => SubscriptionPlan.description plan
       end.
Proof.
  unfold applyDiscountToPlan. simpl.
  destruct (Discount.type (PromoCode.discount promoCode)); repeat split; reflexivity.
Qed.

(** ** [Date.parse] reads no string with a vertical bar *)

Example parse_validFrom : JsDate.parse "2024-01-01T00:00:00Z" = Some 1704067200000%Z.
Proof. vm_compute. reflexivity. Qed.

Example parse_validUntil : JsDate.parse "2024-12-31T23:59:59Z" = Some 1735689599000%Z.
Proof. vm_compute. reflexivity. Qed.

Example parse_with_offset :
  JsDate.parse "2000-03-01T12:30:15.250+02:00" = Some 951906615250%Z.
Proof. vm_compute. reflexivity. Qed.

Example parse_cached_message :
  JsDate.parse "Promo code applied successfully|1735689480500" = None.
Proof. vm_compute. reflexivity. Qed.

Section DateFormat.

Import JsDate.

Lemma barless_pret {A} (a : A) : barless (pret a).
Proof. intros s b r [= <- <-]. exists []. split; reflexivity. Qed.

Lemma barless_pfail {A} : barless (@pfail A).
Proof. intros s a r [=]. Qed.

Lemma barless_pbind {A B} (p : parser A) (f : A -> parser B) :
  barless p -> (forall a, barless (f a)) -> barless (pbind p f).
Proof.
  intros Hp Hf s b r. unfold pbind.
  destruct (p s) as [[a r1] |] eqn:E; [| discriminate].
  intros Hfa. destruct (Hp _ _ _ E) as (pre1 & -> & H1).
  destruct (Hf _ _ _ _ Hfa) as (pre2 & -> & H2).
  exists (pre1 ++ pre2)%list. split.
  - rewrite <- List.app_assoc. reflexivity.
  - rewrite forallb_app, H1, H2. reflexivity.
Qed.

Lemma barless_digit : barless digit.
Proof.
  intros [| c s] a r; [discriminate |]. unfold digit.
  destruct (is_digit c) eqn:Ed; [| discriminate]. intros [= <- <-].
  exists [c]. split; [reflexivity |]. cbn [forallb].
  destruct (Ascii.eqb "|" c) eqn:Eb; [| reflexivity].
  apply Ascii.eqb_eq in Eb. subst c. discriminate Ed.
Qed.

Lemma barless_opt {A} (c : ascii) (p q : parser A) :
  Ascii.eqb "|" c = false -> barless p -> barless q -> barless (opt c p q).
Proof.
  intros Hc Hp Hq [| d s] a r; unfold opt.
  - apply Hq.
  - destruct (Ascii.eqb c d) eqn:Ecd.
    + apply Ascii.eqb_eq in Ecd. subst d. intros Hs.
      destruct (Hp _ _ _ Hs) as (pre & -> & H). exists (c :: pre).
      split; [reflexivity |]. cbn [forallb]. rewrite Hc, H. reflexivity.
    + apply Hq.
Qed.

Lemma barless_if {A} (b : bool) (p q : parser A) :
  barless p -> barless q -> barless (if b then p else q).
Proof. destruct b; trivial. Qed.

Create HintDb barless.

Hint Resolve barless_pret barless_pfail barless_digit barless_if : barless.
Hint Extern 2 (barless (pbind _ _)) => apply barless_pbind; [| intros ?] : barless.
Hint Extern 2 (barless (opt _ _ _)) => apply barless_opt; [reflexivity | |] : barless.

Lemma barless_digits2 : barless digits2.
Proof. unfold digits2. auto 10 with barless. Qed.

Hint Resolve barless_digits2 : barless.

Lemma barless_digits3 : barless digits3.
Proof. unfold digits3. auto 10 with barless. Qed.

Lemma barless_digits4 : barless digits4.
Proof. unfold digits4. auto 10 with barless. Qed.

Hint Resolve barless_digits3 barless_digits4 : barless.

Lemma barless_digits6 : barless digits6.
Proof. unfold digits6. auto 10 with barless. Qed.

Hint Resolve barless_digits6 : barless.

Lemma barless_lit (c : ascii) : Ascii.eqb "|" c = false -> barless (lit c).
Proof. intros Hc. unfold lit. apply barless_opt; auto with barless. Qed.

Lemma barless_year : barless year.
Proof. unfold year. auto 10 with barless. Qed.

Hint Resolve barless_year : barless.

Lemma barless_date : barless date.
Proof. unfold date. auto 12 with barless. Qed.

Lemma barless_seconds : barless seconds.
Proof. unfold seconds. auto 12 with barless. Qed.

Lemma barless_offset : barless offset.
Proof.
  unfold offset.
  repeat (first [ apply barless_opt; [reflexivity | |]
                | apply barless_pbind; [| intros ?]
                | apply barless_lit; reflexivity
                | solve [auto with barless] ]).
Qed.

Hint Resolve barless_date barless_seconds barless_offset : barless.

Lemma barless_time : barless time.
Proof.
  unfold time. apply barless_opt; [reflexivity | | auto with barless].
  repeat (first [ apply barless_pbind; [| intros ?]
                | apply barless_lit; reflexivity
                | solve [auto with barless] ]).
  match goal with sm : (Z * Z)%type |- _ => destruct sm end.
  auto with barless.
Qed.

Lemma barless_date_time : barless date_time.
Proof.
  unfold date_time. apply barless_pbind; [auto with barless | intros [[y m] d]].
  apply barless_pbind; [apply barless_time | intros tm].
  apply barless_if; [| auto with barless].
  destruct tm as [[ms [off |]] |]; auto with barless.
Qed.

Lemma includes_char_forallb (s : string) :
  JsString.includes_char "|" s
  = negb (forallb (fun c => negb (Ascii.eqb "|" c)) (list_ascii_of_string s)).
Proof.
  induction s as [| c s IH]; [reflexivity |].
  cbn [JsString.includes_char list_ascii_of_string forallb].
  destruct (Ascii.eqb "|" c); [reflexivity | exact IH].
Qed.

(** No string with a vertical bar is in the date format. *)
Lemma parse_bar (s : string) :
  JsString.includes_char "|" s = true -> parse s = None.
Proof.
  intros Hbar. unfold parse.
  destruct (date_time (list_ascii_of_string s)) as [[t [| c r]] |] eqn:E; try reflexivity.
  destruct (barless_date_time _ _ _ E) as (pre & Hs & Hall).
  rewrite List.app_nil_r in Hs. subst pre.
  rewrite includes_char_forallb, Hall in Hbar. discriminate Hbar.
Qed.

End DateFormat.

(** ** The validation cache *)

Example normalizeCode_save20 : normalizeCode "  sa ve 20 " = "SAVE20".
Proof. vm_compute. reflexivity. Qed.

Section Cache.

Variable host : Host.t.

Lemma includes_char_app (c : ascii) (a b : string) :
  JsString.includes_char c (a ++ String c b) = true.
Proof.
  induction a as [| d a IH]; simpl.
  - rewrite Ascii.eqb_refl. reflexivity.
  - destruct (Ascii.eqb c d); [reflexivity | exact IH].
Qed.

Lemma validationWithTimestamp_bar (now : Z) (v : PromoCodeValidation.t) :
  JsString.includes_char "|" (PromoCodeValidation.message (validationWithTimestamp now v))
  = true.
Proof.
  unfold validationWithTimestamp. cbn [PromoCodeValidation.message].
  destruct (JsString.includes_char "|" (PromoCodeValidation.message v)) eqn:E.
  - exact E.
  - apply (includes_char_app "|" (PromoCodeValidation.message v) (pretty now)).
Qed.

(** An entry with a bar in its message has no age: the lookup returns it
    at every instant and leaves the cache as it is. *)
Lemma getCachedValidation_stamped (key : string) (cached : PromoCodeValidation.t)
    (w : Runtime.t) :
  PromoCodeService.cache (Runtime.service w) !! key = Some cached ->
  JsString.includes_char "|" (PromoCodeValidation.message cached) = true ->
  getCachedValidation key w = (Normal (Some cached), w).
Proof.
  intros Hk Hbar. unfold getCachedValidation. rewrite Hk.
  rewrite (parse_bar _ Hbar). reflexivity.
Qed.

Lemma getCachedValidation_miss (key : string) (w : Runtime.t) :
  PromoCodeService.cache (Runtime.service w) !! key = None ->
  getCachedValidation key w = (Normal None, w).
Proof. intros Hk. unfold getCachedValidation. rewrite Hk. reflexivity. Qed.

Lemma setCachedValidation_lookup (key : string) (v : PromoCodeValidation.t) (w : Runtime.t) :
  PromoCodeService.cache (Runtime.service (snd (setCachedValidation key v w))) !! key
  = Some (validationWithTimestamp (Runtime.now w) v).
Proof. unfold setCachedValidation. cbn. apply lookup_insert_eq. Qed.

Lemma setCachedValidation_stamped (key : string) (v : PromoCodeValidation.t) (w : Runtime.t) :
  cache_stamped w -> cache_stamped (snd (setCachedValidation key v w)).
Proof.
  intros Hw k c. unfold setCachedValidation. cbn.
  rewrite lookup_insert. case_decide as Hk.
  - intros [= <-]. apply validationWithTimestamp_bar.
  - apply Hw.
Qed.

Lemma cache_stamped_advance (d : Z) (w : Runtime.t) :
  cache_stamped w -> cache_stamped (Runtime.advance d w).
Proof. intros Hw k c. exact (Hw k c). Qed.

Lemma cache_stamped_fresh : cache_stamped fresh_service.
Proof. intros k c. cbn. rewrite lookup_empty. discriminate. Qed.

(** What a call that finds its key in the cache does. *)
Lemma validatePromoCode_try_hit (code : string) (planId userId : JsString.value)
    (cached : PromoCodeValidation.t) (w : Runtime.t) :
  cache_stamped w ->
  PromoCodeService.cache (Runtime.service w) !! cacheKey code planId userId = Some cached ->
  validatePromoCode_try host code planId userId w = (Normal cached, w).
Proof.
  intros Hw Hk. unfold validatePromoCode_try, bind.
  rewrite (getCachedValidation_stamped _ _ _ Hk (Hw _ _ Hk)). reflexivity.
Qed.

(** What a call that does not find its key does: one catalog request under
    the canonical code, and the answer stored under the key of the call. *)
Lemma validatePromoCode_try_miss (code : string) (planId userId : JsString.value)
    (w : Runtime.t) :
  PromoCodeService.cache (Runtime.service w) !! cacheKey code planId userId = None ->
  let r := validatePromoCode_try host code planId userId w in
  Runtime.requests (snd r)
  = (Runtime.requests w ++ [catalog_request w code planId userId])%list
  /\ match fst r with
     | Normal v =>
         PromoCodeService.cache (Runtime.service (snd r)) !! cacheKey code planId userId
         = Some (validationWithTimestamp (Runtime.now (snd r)) v)
     | Throw _ => Runtime.service (snd r) = Runtime.service w
     end.
Proof.
  intros Hk. unfold validatePromoCode_try, bind.
  rewrite (getCachedValidation_miss _ _ Hk). unfold gets, catalog_request.
  destruct (JsString.truthy_opt (PromoCodeService.backendUrl (Runtime.service w))).
  - unfold validateWithBackend, bind, modify.
    destruct (Host.validate host) as [| status body]; [cbn; auto |].
    destruct (Host.ok status); cbn; [| auto].
    split; [reflexivity | apply lookup_insert_eq].
  - unfold mockValidate, bind, modify, gets, ret. cbn.
    split; [reflexivity | apply lookup_insert_eq].
Qed.

(** The invariant holds in a new service and every validation keeps it. *)
Lemma validatePromoCode_stamped (code : string) (planId userId : JsString.value)
    (w : Runtime.t) :
  cache_stamped w -> cache_stamped (snd (validatePromoCode host code planId userId w)).
Proof.
  intros Hw. unfold validatePromoCode, try_catch.
  destruct (PromoCodeService.cache (Runtime.service w) !! cacheKey code planId userId)
    as [cached |] eqn:Hk.
  - rewrite (validatePromoCode_try_hit _ _ _ _ _ Hw Hk). exact Hw.
  - pose proof (validatePromoCode_try_miss code planId userId w Hk) as [_ Hstore].
    unfold validatePromoCode_try, bind in *.
    rewrite (getCachedValidation_miss _ _ Hk) in *. unfold gets in *.
    destruct (JsString.truthy_opt (PromoCodeService.backendUrl (Runtime.service w))).
    + unfold validateWithBackend, bind, modify in *.
      destruct (Host.validate host) as [| status body]; [exact Hw |].
      destruct (Host.ok status); [| exact Hw].
      apply setCachedValidation_stamped. exact Hw.
    + unfold mockValidate, bind, modify, gets, ret. cbn [fst snd].
      apply setCachedValidation_stamped. exact Hw.
Qed.

End Cache.

(** An entry that [setCachedValidation] has stored is returned by every
    later lookup, however much time has passed, and is never purged. *)
Lemma setCachedValidation_never_expires (key : string) (v : PromoCodeValidation.t)
    (w : Runtime.t) (d : Z) :
  let stored := Runtime.advance d (snd (setCachedValidation key v w)) in
  getCachedValidation key stored
  = (Normal (Some (validationWithTimestamp (Runtime.now w) v)), stored).
Proof.
  intros stored. apply getCachedValidation_stamped.
  - apply setCachedValidation_lookup.
  - apply validationWithTimestamp_bar.
Qed.

(** C1 (the code departs from it).  [SAVE20] is validated two minutes
    before it ends and the validation is cached.  Ten minutes later, past
    the five minutes of [cacheExpiry], the same call returns the cached
    validation, still valid; the entry is not purged and the catalog is not
    asked, although it would now answer [CODE_EXPIRED].  The age of an
    entry is computed from [Date.parse] of the whole message, which is NaN,
    and NaN is not greater than the expiry. *)
Theorem cached_validation_outlives_expiry :
  let first := validatePromoCode offline "SAVE20" monthly_plan user1 fresh_service in
  let later := Runtime.advance 600000 (snd first) in
  let second := validatePromoCode offline "SAVE20" monthly_plan user1 later in
  PromoCodeService.cacheExpiry (Runtime.service later) = 300000%Z
  /\ (Runtime.now later - 1735689480500 = 600000)%Z
  /\ (exists cached,
        fst second = Normal cached
        /\ PromoCodeValidation.isValid cached = true
        /\ PromoCodeValidation.message cached
           = "Promo code applied successfully|1735689480500")
  /\ snd second = later
  /\ Runtime.requests (snd second) = [MockCatalog "SAVE20" monthly_plan]
  /\ PromoCodeValidation.error
       (mockValidateIn (getMockPromoCodes None) getMockPlans (Runtime.now later)
          "SAVE20" monthly_plan)
     = Some "CODE_EXPIRED".
Proof.
  vm_compute. repeat split; try reflexivity.
  eexists. repeat split; reflexivity.
Qed.

(** C6 does not hold as stated: with a backend that cannot be reached, the
    first call returns [VALIDATION_FAILED] from its [catch] block, which
    caches nothing, and the same call one second later asks the backend
    again. *)
Lemma failed_validation_is_asked_again :
  let first := validatePromoCode offline "SAVE20" monthly_plan user1 with_backend in
  let second :=
    validatePromoCode offline "SAVE20" monthly_plan user1 (Runtime.advance 1000 (snd first)) in
  fst first = Normal (invalid "Invalid promo code" "VALIDATION_FAILED")
  /\ Runtime.requests (snd first) = [BackendValidate "SAVE20" monthly_plan user1]
  /\ Runtime.requests (snd second)
     = [BackendValidate "SAVE20" monthly_plan user1;
        BackendValidate "SAVE20" monthly_plan user1].
Proof. vm_compute. repeat split; reflexivity. Qed.

(** The validation that the cache returns has the timestamp of the cache in
    its message, which the validation returned by the first call has
    not. *)
Example cached_message_carries_timestamp :
  let first := validatePromoCode offline "SAVE20" monthly_plan user1 fresh_service in
  let second :=
    validatePromoCode offline "SAVE20" monthly_plan user1 (Runtime.advance 1000 (snd first)) in
  exists v1 v2,
    fst first = Normal v1 /\ fst second = Normal v2
    /\ PromoCodeValidation.message v1 = "Promo code applied successfully"
    /\ PromoCodeValidation.message v2 = "Promo code applied successfully|1735689480500".
Proof. vm_compute. do 2 eexists. repeat split; reflexivity. Qed.

(** C6, amended.  When a call of [validatePromoCode] got an answer (from
    the cache or from the catalog), a second call with the same code, plan
    and user within the expiry time makes no catalog request, leaves the
    service as it is, and returns a validation that agrees with the first on
    [isValid], [promoCode], [discountedPrice] and [error]. *)
Theorem validate_twice_within_expiry (host1 host2 : Host.t) (code : string)
    (planId userId : JsString.value) (w w1 : Runtime.t) (v1 : PromoCodeValidation.t)
    (d : Z) :
  cache_stamped w ->
  validatePromoCode_try host1 code planId userId w = (Normal v1, w1) ->
  (0 <= d <= PromoCodeService.cacheExpiry (Runtime.service w1))%Z ->
  exists v2,
    validatePromoCode host2 code planId userId (Runtime.advance d w1)
    = (Normal v2, Runtime.advance d w1)
    /\ PromoCodeValidation.isValid v2 = PromoCodeValidation.isValid v1
    /\ PromoCodeValidation.promoCode v2 = PromoCodeValidation.promoCode v1
    /\ PromoCodeValidation.discountedPrice v2 = PromoCodeValidation.discountedPrice v1
    /\ PromoCodeValidation.error v2 = PromoCodeValidation.error v1.
Proof.
  intros Hw Hfirst _.
  destruct (PromoCodeService.cache (Runtime.service w) !! cacheKey code planId userId)
    as [cached |] eqn:Hk.
  - rewrite (validatePromoCode_try_hit host1 _ _ _ _ _ Hw Hk) in Hfirst.
    injection Hfirst as <- <-. exists cached. split; [| auto 10].
    unfold validatePromoCode, try_catch.
    rewrite (validatePromoCode_try_hit host2 code planId userId cached (Runtime.advance d w));
      [reflexivity | apply cache_stamped_advance, Hw | exact Hk].
  - pose proof (validatePromoCode_try_miss host1 code planId userId w Hk) as [_ Hstore].
    rewrite Hfirst in Hstore. cbn [fst snd] in Hstore.
    exists (validationWithTimestamp (Runtime.now w1) v1). split; [| auto 10].
    unfold validatePromoCode, try_catch, validatePromoCode_try, bind.
    rewrite (getCachedValidation_stamped _ (validationWithTimestamp (Runtime.now w1) v1));
      [reflexivity | exact Hstore | apply validationWithTimestamp_bar].
Qed.

Lemma validate_twice_within_expiry_witness :
  exists v2,
    validatePromoCode offline "SAVE20" monthly_plan user1 (Runtime.advance 1000 after_save20)
    = (Normal v2, Runtime.advance 1000 after_save20)
    /\ PromoCodeValidation.isValid v2 = PromoCodeValidation.isValid save20_valid
    /\ PromoCodeValidation.promoCode v2 = PromoCodeValidation.promoCode save20_valid
    /\ PromoCodeValidation.discountedPrice v2 = PromoCodeValidation.discountedPrice save20_valid
    /\ PromoCodeValidation.error v2 = PromoCodeValidation.error save20_valid.
Proof.
  apply (validate_twice_within_expiry offline offline "SAVE20" monthly_plan user1
           fresh_service after_save20 save20_valid 1000).
  - intros key cached. vm_compute. discriminate.
  - vm_compute. reflexivity.
  - vm_compute. split; discriminate.
Defined.

(** C7 does not hold as stated: [save20] and [SAVE20] have the same
    canonical form, but after [save20] has been validated and cached, a
    call with [SAVE20] finds nothing under its own key and asks the catalog
    again. *)
Lemma canonical_twins_do_not_share_an_entry :
  let first := validatePromoCode offline "save20" monthly_plan user1 fresh_service in
  let second := validatePromoCode offline "SAVE20" monthly_plan user1 (snd first) in
  normalizeCode "save20" = normalizeCode "SAVE20"
  /\ Runtime.requests (snd first) = [MockCatalog "SAVE20" monthly_plan]
  /\ PromoCodeService.cache (Runtime.service (snd first)) !! "SAVE20_monthly_user_1" = None
  /\ Runtime.requests (snd second)
     = [MockCatalog "SAVE20" monthly_plan; MockCatalog "SAVE20" monthly_plan].
Proof. vm_compute. repeat split; reflexivity. Qed.

(** C7, amended.  [validatePromoCode] looks the cache up under the key made
    of the code as it was given, the plan and the user.  An entry under
    that key is returned as it is.  Without one, the code is canonicalised
    (trim, upper case, white space removed) for the one catalog request
    that follows, and the answer is stored under the key of the code as
    given. *)
Theorem validatePromoCode_cache_key (host : Host.t) (code : string)
    (planId userId : JsString.value) (w : Runtime.t) :
  cache_stamped w ->
  let key := code ++ "_" ++ JsString.template planId ++ "_" ++ JsString.template userId in
  let r := validatePromoCode host code planId userId w in
  match PromoCodeService.cache (Runtime.service w) !! key with
  | Some cached => r = (Normal cached, w)
  | None =>
      Runtime.requests (snd r)
      = (Runtime.requests w
           ++ [if JsString.truthy_opt (PromoCodeService.backendUrl (Runtime.service w))
               then BackendValidate (normalizeCode code) planId userId
               else MockCatalog (normalizeCode code) planId])%list
      /\ match fst (validatePromoCode_try host code planId userId w) with
         | Normal v =>
             PromoCodeService.cache (Runtime.service (snd r)) !! key
             = Some (validationWithTimestamp (Runtime.now (snd r)) v)
         | Throw _ => PromoCodeService.cache (Runtime.service (snd r)) !! key = None
         end
  end.
Proof.
  intros Hw key r. subst r. fold (cacheKey code planId userId) in key. subst key.
  destruct (PromoCodeService.cache (Runtime.service w) !! cacheKey code planId userId)
    as [cached |] eqn:Hk.
  - unfold validatePromoCode, try_catch.
    rewrite (validatePromoCode_try_hit host _ _ _ _ _ Hw Hk). reflexivity.
  - pose proof (validatePromoCode_try_miss host code planId userId w Hk) as [Hreq Hstore].
    unfold catalog_request in Hreq. unfold validatePromoCode, try_catch.
    destruct (validatePromoCode_try host code planId userId w) as [[v | e] w'].
    + split; [exact Hreq | exact Hstore].
    + cbn [fst snd] in *. unfold ret. cbn [fst snd].
      split; [exact Hreq | rewrite Hstore; exact Hk].
Qed.

Lemma validatePromoCode_cache_key_witness :
  Runtime.requests (snd (validatePromoCode offline "  save 20 " monthly_plan user1 fresh_service))
  = [MockCatalog "SAVE20" monthly_plan].
Proof.
  pose proof (validatePromoCode_cache_key offline "  save 20 " monthly_plan user1 fresh_service
                cache_stamped_fresh) as H.
  cbv zeta in H.
  change (PromoCodeService.cache (Runtime.service fresh_service)) with (∅ : gmap string PromoCodeValidation.t) in H.
  rewrite lookup_empty in H. destruct H as [H _]. exact H.
Defined.

(** C8.  [validatePromoCode] always completes with a validation and never
    with an exception: what its [try] block returns is returned, and when
    the block throws, the result is the invalid validation
    [VALIDATION_FAILED]. *)
Theorem validatePromoCode_never_throws (host : Host.t) (code : string)
    (planId userId : JsString.value) (w : Runtime.t) :
  (exists v w', validatePromoCode host code planId userId w = (Normal v, w'))
  /\ match validatePromoCode_try host code planId userId w with
     | (Normal v, w') => validatePromoCode host code planId userId w = (Normal v, w')
     | (Throw e, w') =>
         exists v, validatePromoCode host code planId userId w = (Normal v, w')
                   /\ PromoCodeValidation.isValid v = false
                   /\ PromoCodeValidation.error v = Some "VALIDATION_FAILED"
     end.
Proof.
  unfold validatePromoCode, try_catch.
  destruct (validatePromoCode_try host code planId userId w) as [[v | e] w'].
  - split; [exists v, w' |]; reflexivity.
  - split.
    + eexists _, w'. reflexivity.
    + eexists. repeat split.
Qed.

(** A backend that cannot be reached makes the [try] block throw, and the
    call still returns a validation. *)
Example validatePromoCode_unreachable_backend :
  let w := Runtime.mk (PromoCodeService.new
                         (PromoCodeService.Config.mk (Some "https://api.example.com")
                            (Some "key") None None)) 1718000000000 [] in
  fst (validatePromoCode_try offline "SAVE20" monthly_plan user1 w)
  = Throw (JsError.mk None "Network request failed")
  /\ fst (validatePromoCode offline "SAVE20" monthly_plan user1 w)
     = Normal (invalid "Invalid promo code" "VALIDATION_FAILED").
Proof. vm_compute. split; reflexivity. Qed.

(** ** The checks of the mock catalog *)

(** A validation reports [CODE_EXHAUSTED] only for a code of the table
    whose uses have reached its limit. *)
Lemma mockValidateIn_exhausted_inv (mockPromoCodes : list PromoCode.t)
    (mockPlans : list SubscriptionPlan.t) (now : Z) (code : string)
    (planId : JsString.value) :
  PromoCodeValidation.error (mockValidateIn mockPromoCodes mockPlans now code planId)
  = Some "CODE_EXHAUSTED" ->
  exists promoCode maxUses,
    In promoCode mockPromoCodes
    /\ PromoCode.maxUses promoCode = Some maxUses
    /\ (maxUses <= PromoCode.currentUses promoCode)%Z.
Proof.
  unfold mockValidateIn.
  destruct (List.find _ mockPromoCodes) as [promoCode |] eqn:Hfind; [| discriminate].
  apply List.find_some in Hfind as [Hin _].
  destruct (negb (PromoCode.isActive promoCode)); [discriminate |].
  destruct (JsDate.lt (Some now) (JsDate.parse (PromoCode.validFrom promoCode))
            || JsDate.lt (JsDate.parse (PromoCode.validUntil promoCode)) (Some now));
    [discriminate |].
  destruct (PromoCode.maxUses promoCode) as [maxUses |] eqn:Hmax.
  - destruct (negb (maxUses =? 0)%Z && (maxUses <=? PromoCode.currentUses promoCode)%Z)
      eqn:Hfull.
    + intros _. apply andb_true_iff in Hfull as [_ Hle]. apply Z.leb_le in Hle.
      exists promoCode, maxUses. auto.
    + destruct (match PromoCode.applicablePlans promoCode with
                | Some plans => _
                | None => false
                end); discriminate.
  - destruct (match PromoCode.applicablePlans promoCode with
              | Some plans => _
              | None => false
              end); discriminate.
Qed.

(** X30.  No code of the built-in catalog has its uses taken, so the
    check of the usage limit never fires: whatever the code, the plan and
    the instant, [mockValidate] returns a validation whose error is not
    [CODE_EXHAUSTED]. *)
Theorem mockValidate_never_exhausted (host : Host.t) (code : string)
    (planId : JsString.value) (w : Runtime.t) :
  (forall promoCode maxUses,
     In promoCode (getMockPromoCodes None) ->
     PromoCode.maxUses promoCode = Some maxUses ->
     (PromoCode.currentUses promoCode < maxUses)%Z)
  /\ exists validation,
       fst (mockValidate host code planId w) = Normal validation
       /\ PromoCodeValidation.error validation <> Some "CODE_EXHAUSTED".
Proof.
  assert (Hroom : forall promoCode maxUses,
            In promoCode (getMockPromoCodes None) ->
            PromoCode.maxUses promoCode = Some maxUses ->
            (PromoCode.currentUses promoCode < maxUses)%Z).
  { intros promoCode maxUses Hin Hmax. cbn in Hin.
    destruct Hin as [<- | [<- | [<- | []]]]; cbn in Hmax; injection Hmax as <-;
      reflexivity. }
  split; [exact Hroom |].
  unfold mockValidate, bind, modify, gets, ret. cbn [fst snd].
  eexists. split; [reflexivity |].
  intros Hfull. apply mockValidateIn_exhausted_inv in Hfull
    as (promoCode & maxUses & Hin & Hmax & Hle).
  specialize (Hroom promoCode maxUses Hin Hmax). lia.
Qed.

(** ** The purchase flow *)

Section PurchaseFlow.

Import Provider.


(** The promo code state after [CLEAR_PROMO_CODE]. *)
Lemma CLEAR_PROMO_CODE_clears (state : PromoCodeState.t) :
  promoCodeReducer state CLEAR_PROMO_CODE
  = PromoCodeState.mk "" None (PromoCodeState.isApplying state) None.
Proof. destruct state. reflexivity. Qed.

(** A successful [applyPromoCode] keeps the plan that was selected as the
    [originalPlan] of the application and selects the discounted plan; a
    failed one leaves the selection and the applied promo alone. *)
Lemma applyPromoCode_records_original (host : Host.t) (code : string)
    (plan : SubscriptionPlan.t) (w : Provider.t) :
  PaywallState.selectedPlan (paywallState w) = Some plan ->
  let w' := snd (PaywallProvider.rendered
                   (fun this => PaywallProvider.applyPromoCode host this code) w) in
  match fst (applyPromoCode host code plan (userId w) (promoCodeService w)) with
  | Normal application =>
      PromoCodeApplication.originalPlan application = plan
      /\ PromoCodeApplication.discountedPlan application
         = applyDiscountToPlan plan (PromoCodeApplication.promoCode application)
      /\ PromoCodeState.appliedPromo (promoCodeState w') = Some application
      /\ PaywallState.selectedPlan (paywallState w')
         = Some (PromoCodeApplication.discountedPlan application)
  | Throw _ =>
      PaywallState.selectedPlan (paywallState w') = Some plan
      /\ PromoCodeState.appliedPromo (promoCodeState w')
         = PromoCodeState.appliedPromo (promoCodeState w)
  end.
Proof.
  intros Hsel w'. subst w'.
  unfold PaywallProvider.rendered, PaywallProvider.applyPromoCode, render.
  cbn [Render.paywallState Render.userId]. rewrite Hsel.
  unfold try_finally, try_catch, bind, call, dispatchPromo, dispatchPaywall, emit, modify.
  cbn [paywallState promoCodeState subscriptionStatus userId promoCodeService events].
  destruct (applyPromoCode host code plan (userId w) (promoCodeService w))
    as [[application | e] r] eqn:Happ; cbn [fst snd].
  - destruct w as [[vis sel load err ps] [c v a ap] st u svc ev]. cbn in *.
    unfold applyPromoCode, try_catch, bind in Happ.
    destruct (validatePromoCode host code (JsString.str (SubscriptionPlan.id plan)) u svc)
      as [[validation | e] r'];
      [| discriminate Happ].
    destruct (PromoCodeValidation.isValid validation);
      [| discriminate Happ].
    destruct (PromoCodeValidation.promoCode validation) as [promoCode |];
      [| discriminate Happ].
    cbn in Happ. injection Happ as <- <-. cbn. auto.
  - destruct w as [[vis sel load err ps] [c v a ap] st u svc ev]. cbn in *. auto.
Qed.

(** X29.  Whatever the plan and the promo: when billing takes the purchase
    and the redemption request to the backend fails, the exception of
    [redeemPromoCode] reaches the [catch] of [purchasePlan], which ends in
    the state [error] with the message of the redemption and leaves the
    promo applied. *)
Theorem purchasePlan_redeem_failure (host : Host.t) (w : Provider.t)
    (plan : SubscriptionPlan.t) (applied : PromoCodeApplication.t)
    (purchaseInfo : PurchaseInfo.t) :
  PaywallState.selectedPlan (paywallState w) = Some plan ->
  PromoCodeState.appliedPromo (promoCodeState w) = Some applied ->
  JsString.truthy (PromoCode.code (PromoCodeApplication.promoCode applied)) = true ->
  JsString.truthy_opt (PromoCodeService.backendUrl (Runtime.service (promoCodeService w)))
  = true ->
  Host.purchase host = Some purchaseInfo ->
  match Host.redeem host with
  | Host.Rejected => True
  | Host.Reply status _ => Host.ok status = false
  end ->
  let after := snd (PaywallProvider.rendered (PaywallProvider.purchasePlan host) w) in
  PaywallState.purchaseState (paywallState after) = PurchaseState.error
  /\ PaywallState.error (paywallState after) = Some "Failed to redeem promo code"
  /\ promoCodeState after = promoCodeState w.
Proof.
  intros Hplan Happlied Hcode Hurl Hpurchase Hredeem after. subst after.
  destruct w as [[vis sel load err ps] [c v a ap] st u [service clock requests] ev].
  cbn in Hplan, Happlied, Hurl. subst sel ap.
  unfold PaywallProvider.rendered, PaywallProvider.purchasePlan, render.
  cbv beta iota zeta delta
    [try_finally try_catch bind PaywallProvider.purchasePlan_pending
     PaywallProvider.billing_request PaywallProvider.billing_settle
     PaywallProvider.refreshSubscriptionStatus dispatchPaywall dispatchPromo
     setSubscriptionStatus emit call modify ret throw gets paywallReducer promoCodeReducer
     paywallState promoCodeState subscriptionStatus userId promoCodeService events
     Render.paywallState Render.promoCodeState Render.userId
     PaywallState.selectedPlan PromoCodeState.appliedPromo
     redeemPromoCode redeemWithBackend mockRedeem createPaywallError
     Runtime.log Runtime.advance Runtime.service Runtime.now Runtime.requests fst snd].
  rewrite Hpurchase, Hcode.
  destruct (Host.status host) as [status |];
    rewrite Hurl;
    (destruct (Host.redeem host) as [| s b]; [| rewrite Hredeem]);
    repeat split.
Qed.

End PurchaseFlow.

(** The monthly plan is selected and [SAVE20] applied; billing takes the
    purchase and the backend answers the redemption request with status
    500.  [purchasePlan] sets the state to [success] and calls
    [onPurchaseSuccess], and then the exception of [redeemPromoCode]
    reaches its [catch]: the purchase state ends as [error] with the
    message of the redemption, [onPurchaseError] is called, the promo stays
    applied and the paywall is not scheduled to close. *)
Example redemption_failure_ends_in_error :
  let after := snd (PaywallProvider.rendered (PaywallProvider.purchasePlan (shop 500))
                      promo_applied) in
  PaywallState.purchaseState (Provider.paywallState after) = PurchaseState.error
  /\ PaywallState.error (Provider.paywallState after) = Some "Failed to redeem promo code"
  /\ PromoCodeState.appliedPromo (Provider.promoCodeState after)
     = PromoCodeState.appliedPromo (Provider.promoCodeState promo_applied)
  /\ PromoCodeState.appliedPromo (Provider.promoCodeState after) <> None
  /\ Provider.events after
     = [ onPromoCodeApplied save20_applied;
         onPurchaseStart (applyDiscountToPlan plan_9_99 SAVE20);
         BillingPurchase (applyDiscountToPlan plan_9_99 SAVE20) (Some "SAVE20");
         StatusRefresh;
         onPurchaseSuccess receipt;
         onPurchaseError "Failed to redeem promo code" ]
  /\ Runtime.requests (Provider.promoCodeService after)
     = [ BackendValidate "SAVE20" monthly_plan user1;
         BackendRedeem "SAVE20" user1 JsString.undefined ].
Proof. vm_compute. repeat split; try reflexivity. discriminate. Qed.

Lemma purchasePlan_redeem_failure_witness :
  let after := snd (PaywallProvider.rendered (PaywallProvider.purchasePlan (shop 500))
                      promo_applied) in
  PaywallState.purchaseState (Provider.paywallState after) = PurchaseState.error
  /\ PaywallState.error (Provider.paywallState after) = Some "Failed to redeem promo code"
  /\ Provider.promoCodeState after = Provider.promoCodeState promo_applied.
Proof.
  apply (purchasePlan_redeem_failure (shop 500) promo_applied
           (applyDiscountToPlan plan_9_99 SAVE20) save20_applied receipt).
  - vm_compute. reflexivity.
  - vm_compute. reflexivity.
  - reflexivity.
  - reflexivity.
  - reflexivity.
  - reflexivity.
Defined.

(** With the redemption accepted, the same purchase ends in [success], the
    promo is cleared and the paywall is scheduled to close. *)
Example redemption_success_ends_in_success :
  let after := snd (PaywallProvider.rendered (PaywallProvider.purchasePlan (shop 200))
                      promo_applied) in
  PaywallState.purchaseState (Provider.paywallState after) = PurchaseState.success
  /\ PaywallState.error (Provider.paywallState after) = None
  /\ PromoCodeState.appliedPromo (Provider.promoCodeState after) = None
  /\ last (Provider.events after) = Some (Timer 2000).
Proof. vm_compute. repeat split; reflexivity. Qed.




(** ** Removing a promo code *)




(** * Further properties *)

(** ** Canonical codes *)

Section Canonical.

Import JsString.

Lemma is_space_upper (c : ascii) : is_space (upper c) = is_space c.
Proof. destruct c as [[] [] [] [] [] [] [] []]; reflexivity. Qed.

Lemma upper_canonical (c : ascii) : is_lower (upper c) = false.
Proof. destruct c as [[] [] [] [] [] [] [] []]; reflexivity. Qed.

Lemma upper_fixed (c : ascii) : is_lower c = false -> upper c = c.
Proof. destruct c as [[] [] [] [] [] [] [] []]; intros H; try reflexivity; discriminate H. Qed.

Lemma remove_spaces_trimStart (s : string) :
  remove_spaces (toUpperCase (trimStart s)) = remove_spaces (toUpperCase s).
Proof.
  induction s as [| c s IH]; [reflexivity |]. cbn [trimStart].
  destruct (is_space c) eqn:Ec; [| reflexivity].
  rewrite IH. cbn [toUpperCase remove_spaces]. rewrite is_space_upper, Ec. reflexivity.
Qed.

Lemma remove_spaces_trimEnd (s : string) :
  remove_spaces (toUpperCase (trimEnd s)) = remove_spaces (toUpperCase s).
Proof.
  induction s as [| c s IH]; [reflexivity |]. cbn [trimEnd].
  destruct (trimEnd s) as [| d t] eqn:Et.
  - cbn [toUpperCase remove_spaces] in IH |- *. rewrite is_space_upper.
    destruct (is_space c) eqn:Ec.
    + exact IH.
    + cbn [toUpperCase remove_spaces]. rewrite is_space_upper, Ec, <- IH. reflexivity.
  - cbn [toUpperCase remove_spaces] in IH |- *. rewrite IH. reflexivity.
Qed.

(** [trim] changes nothing in the outcome of [normalizeCode]. *)
Lemma normalizeCode_without_trim (s : string) :
  normalizeCode s = remove_spaces (toUpperCase s).
Proof.
  unfold normalizeCode, trim. rewrite remove_spaces_trimEnd. apply remove_spaces_trimStart.
Qed.

Lemma append_cons (c : ascii) (a b : string) : String c a ++ b = String c (a ++ b).
Proof. reflexivity. Qed.

Lemma toUpperCase_app (a b : string) :
  toUpperCase (a ++ b) = toUpperCase a ++ toUpperCase b.
Proof.
  induction a as [| c a IH]; [reflexivity |].
  rewrite append_cons. cbn [toUpperCase]. rewrite IH. reflexivity.
Qed.

Lemma remove_spaces_app (a b : string) :
  remove_spaces (a ++ b) = remove_spaces a ++ remove_spaces b.
Proof.
  induction a as [| c a IH]; [reflexivity |]. rewrite append_cons. cbn [remove_spaces].
  destruct (is_space c); rewrite IH; reflexivity.
Qed.

Lemma normalizeCode_canonical_chars (s : string) :
  all_chars canonical_char (normalizeCode s) = true.
Proof.
  rewrite normalizeCode_without_trim.
  induction s as [| c s IH]; [reflexivity |]. cbn [toUpperCase remove_spaces].
  destruct (is_space (upper c)) eqn:Ec; [exact IH |].
  cbn [all_chars]. unfold canonical_char at 1. rewrite Ec, upper_canonical, IH. reflexivity.
Qed.

Lemma canonical_fixed (s : string) :
  all_chars canonical_char s = true -> remove_spaces (toUpperCase s) = s.
Proof.
  induction s as [| c s IH]; [reflexivity |]. cbn [all_chars].
  intros H. apply andb_true_iff in H as [Hc Hs].
  unfold canonical_char in Hc. apply andb_true_iff in Hc as [Hsp Hlo].
  apply negb_true_iff in Hsp, Hlo.
  cbn [toUpperCase remove_spaces]. rewrite (upper_fixed c Hlo), Hsp, (IH Hs). reflexivity.
Qed.

End Canonical.

(** X1.  The canonical form of a code has no white space and no lower-case
    letter, and canonicalising it again changes nothing. *)
Theorem normalizeCode_idempotent (code : string) :
  all_chars canonical_char (normalizeCode code) = true
  /\ normalizeCode (normalizeCode code) = normalizeCode code.
Proof.
  split; [apply normalizeCode_canonical_chars |].
  rewrite (normalizeCode_without_trim (normalizeCode code)).
  apply canonical_fixed, normalizeCode_canonical_chars.
Qed.

(** X2.  Canonicalisation goes through concatenation, so white space
    anywhere in a code, not only at its ends, is dropped; and it does not
    see the case of the letters. *)
Theorem normalizeCode_concat (a b : string) :
  normalizeCode (a ++ b) = normalizeCode a ++ normalizeCode b
  /\ normalizeCode (a ++ " " ++ b) = normalizeCode (a ++ b)
  /\ normalizeCode (JsString.toUpperCase a) = normalizeCode a.
Proof.
  rewrite !normalizeCode_without_trim, !toUpperCase_app, !remove_spaces_app.
  repeat split.
  rewrite <- normalizeCode_without_trim.
  pose proof (normalizeCode_canonical_chars a) as Hc.
  rewrite normalizeCode_without_trim in Hc |- *.
  induction a as [| c a IH]; [reflexivity |].
  cbn [JsString.toUpperCase JsString.remove_spaces] in *.
  rewrite !is_space_upper in *.
  rewrite (upper_fixed (JsString.upper c) (upper_canonical c)).
  destruct (JsString.is_space c); [apply IH; exact Hc |].
  cbn [all_chars] in Hc. apply andb_true_iff in Hc as [_ Hc]. rewrite (IH Hc). reflexivity.
Qed.

(** ** More on validation *)

(** X3.  Two codes with the same canonical form, neither of them in the
    cache, are resolved alike: the same catalog request and the same
    validation. *)
Theorem validatePromoCode_canonical_codes (host : Host.t) (code1 code2 : string)
    (planId userId : JsString.value) (w : Runtime.t) :
  normalizeCode code1 = normalizeCode code2 ->
  PromoCodeService.cache (Runtime.service w) !! cacheKey code1 planId userId = None ->
  PromoCodeService.cache (Runtime.service w) !! cacheKey code2 planId userId = None ->
  let r1 := validatePromoCode host code1 planId userId w in
  let r2 := validatePromoCode host code2 planId userId w in
  fst r1 = fst r2
  /\ Runtime.requests (snd r1) = Runtime.requests (snd r2)
  /\ Runtime.now (snd r1) = Runtime.now (snd r2).
Proof.
  intros Hcanon Hk1 Hk2 r1 r2. subst r1 r2.
  unfold validatePromoCode, try_catch, validatePromoCode_try, bind.
  rewrite (getCachedValidation_miss _ _ Hk1), (getCachedValidation_miss _ _ Hk2).
  unfold gets. rewrite Hcanon.
  destruct (JsString.truthy_opt (PromoCodeService.backendUrl (Runtime.service w))).
  - unfold validateWithBackend, bind, modify.
    destruct (Host.validate host) as [| status body]; [cbn; auto |].
    destruct (Host.ok status); cbn; auto.
  - unfold mockValidate, bind, modify, gets, ret. cbn. auto.
Qed.

Lemma validatePromoCode_canonical_codes_witness :
  fst (validatePromoCode offline "save 20" monthly_plan user1 fresh_service)
  = fst (validatePromoCode offline "SAVE20" monthly_plan user1 fresh_service).
Proof.
  apply (validatePromoCode_canonical_codes offline "save 20" "SAVE20" monthly_plan user1
           fresh_service).
  - vm_compute. reflexivity.
  - vm_compute. reflexivity.
  - vm_compute. reflexivity.
Defined.

Section MockCatalog.

Variable mockPromoCodes : list PromoCode.t.
Variable mockPlans : list SubscriptionPlan.t.

(** X4.  A validation of the mock catalog is never partially valid: a valid
    one carries the promo code and no error; an invalid one carries no
    promo code and no price, and its error is one of the four codes of the
    checks. *)
Theorem mockValidate_all_or_nothing (now : Z) (code : string) (planId : JsString.value) :
  let v := mockValidateIn mockPromoCodes mockPlans now code planId in
  if PromoCodeValidation.isValid v then
    PromoCodeValidation.promoCode v <> None
    /\ PromoCodeValidation.error v = None
  else
    PromoCodeValidation.promoCode v = None
    /\ PromoCodeValidation.discountedPrice v = None
    /\ (PromoCodeValidation.error v = Some "CODE_NOT_FOUND"
        \/ PromoCodeValidation.error v = Some "CODE_EXPIRED"
        \/ PromoCodeValidation.error v = Some "CODE_EXHAUSTED"
        \/ PromoCodeValidation.error v = Some "PLAN_NOT_APPLICABLE").
Proof.
  unfold mockValidateIn.
  destruct (List.find _ mockPromoCodes) as [promoCode |]; [| cbn; auto].
  destruct (negb (PromoCode.isActive promoCode)); [cbn; auto |].
  destruct (_ || _); [cbn; auto |].
  destruct (match PromoCode.maxUses promoCode with Some _ => _ | None => _ end);
    [cbn; auto 6 |].
  destruct (match PromoCode.applicablePlans promoCode with Some _ => _ | None => _ end);
    [cbn; auto 6 |].
  cbn. split; [discriminate | reflexivity].
Qed.

(** X5.  A valid validation is sound: the promo code it carries is an entry
    of the catalog with the code that was asked for; it is active, the
    instant is within its dates, its uses are below a non-zero limit, and
    the plan, when one is named, is in its list of plans when it has
    one. *)
Theorem mockValidate_sound (now : Z) (code : string) (planId : JsString.value) :
  PromoCodeValidation.isValid (mockValidateIn mockPromoCodes mockPlans now code planId)
  = true ->
  exists promoCode,
    PromoCodeValidation.promoCode (mockValidateIn mockPromoCodes mockPlans now code planId)
    = Some promoCode
    /\ In promoCode mockPromoCodes
    /\ PromoCode.code promoCode = code
    /\ PromoCode.isActive promoCode = true
    /\ JsDate.lt (Some now) (JsDate.parse (PromoCode.validFrom promoCode)) = false
    /\ JsDate.lt (JsDate.parse (PromoCode.validUntil promoCode)) (Some now) = false
    /\ (forall maxUses, PromoCode.maxUses promoCode = Some maxUses -> maxUses <> 0%Z ->
        (PromoCode.currentUses promoCode < maxUses)%Z)
    /\ (forall plans plan, PromoCode.applicablePlans promoCode = Some plans ->
        planId = JsString.str plan -> plan <> "" -> In plan plans).
Proof.
  unfold mockValidateIn.
  destruct (List.find _ mockPromoCodes) as [promoCode |] eqn:Hfind; [| discriminate].
  apply List.find_some in Hfind as [Hin Hcode]. apply String.eqb_eq in Hcode.
  destruct (PromoCode.isActive promoCode) eqn:Hactive; [| discriminate]. cbn [negb].
  destruct (JsDate.lt (Some now) _) eqn:Hfrom; [discriminate |].
  destruct (JsDate.lt _ (Some now)) eqn:Huntil; [discriminate |]. cbn [orb].
  destruct (match PromoCode.maxUses promoCode with Some _ => _ | None => _ end) eqn:Huses;
    [discriminate |].
  destruct (match PromoCode.applicablePlans promoCode with Some _ => _ | None => _ end)
    eqn:Hplans; [discriminate |].
  intros _. exists promoCode. cbn [PromoCodeValidation.promoCode].
  repeat split; try assumption.
  - intros maxUses Hmax Hnz. rewrite Hmax in Huses.
    apply Z.eqb_neq in Hnz. rewrite Hnz in Huses. cbn [negb andb] in Huses.
    apply Z.leb_gt in Huses. exact Huses.
  - intros plans plan Hlist -> Hplan. rewrite Hlist in Hplans.
    assert (Ht : JsString.truthy_value (JsString.str plan) = true)
      by (destruct plan; [contradiction | reflexivity]).
    rewrite Ht in Hplans. cbn [andb] in Hplans. apply negb_false_iff in Hplans.
    apply existsb_exists in Hplans as (p & Hp & Heq).
    cbn [JsString.strict_eq] in Heq. apply String.eqb_eq in Heq. subst p. exact Hp.
Qed.

(** X6.  Without a plan (no plan id, or an empty one) the list of plans of
    a code is not checked and no price is computed. *)
Theorem mockValidate_without_plan (now : Z) (code : string) (planId : JsString.value) :
  JsString.truthy_value planId = false ->
  let v := mockValidateIn mockPromoCodes mockPlans now code planId in
  PromoCodeValidation.error v <> Some "PLAN_NOT_APPLICABLE"
  /\ PromoCodeValidation.discountedPrice v = None
  /\ v = mockValidateIn mockPromoCodes [] now code JsString.undefined.
Proof.
  intros Hplan v. subst v. unfold mockValidateIn. rewrite Hplan. cbn [andb JsString.truthy_value].
  destruct (List.find _ mockPromoCodes) as [promoCode |]; [| cbn; auto; repeat split; discriminate].
  destruct (negb (PromoCode.isActive promoCode)); [cbn; repeat split; discriminate |].
  destruct (_ || _); [cbn; repeat split; discriminate |].
  destruct (match PromoCode.maxUses promoCode with Some _ => _ | None => _ end);
    [cbn; repeat split; discriminate |].
  destruct (PromoCode.applicablePlans promoCode); cbn; repeat split; discriminate.
Qed.

End MockCatalog.

Lemma mockValidate_sound_witness :
  exists promoCode,
    PromoCodeValidation.promoCode
      (mockValidateIn mockCodes getMockPlans 1718000000000 "SAVE20" monthly_plan)
    = Some promoCode
    /\ In promoCode mockCodes.
Proof.
  destruct (mockValidate_sound mockCodes getMockPlans 1718000000000 "SAVE20" monthly_plan)
    as (promoCode & Hv & Hin & _).
  - vm_compute. reflexivity.
  - exists promoCode. split; assumption.
Defined.

(** A code for the yearly plan only is valid when no plan is named. *)
Lemma mockValidate_without_plan_witness :
  PromoCodeValidation.error
    (mockValidateIn mockCodes getMockPlans 1706000000000 "SPECIAL50" JsString.undefined)
  <> Some "PLAN_NOT_APPLICABLE".
Proof.
  apply (mockValidate_without_plan mockCodes getMockPlans 1706000000000 "SPECIAL50"
           JsString.undefined).
  reflexivity.
Defined.

(** ** Applying a code in the service *)

(** The [catch] of [validatePromoCode] turns every exception into a
    validation. *)
Lemma validatePromoCode_returns (host : Host.t) (code : string)
    (planId userId : JsString.value) (w : Runtime.t) :
  exists validation w', validatePromoCode host code planId userId w = (Normal validation, w').
Proof.
  unfold validatePromoCode, try_catch.
  destruct (validatePromoCode_try host code planId userId w) as [[v | e] w'];
    eexists _, _; reflexivity.
Qed.

(** An application that the service returns holds the plan as it was given
    and its discount. *)
Lemma applyPromoCode_application (host : Host.t) (code : string) (plan : SubscriptionPlan.t)
    (userId : JsString.value) (w : Runtime.t) (application : PromoCodeApplication.t) :
  fst (applyPromoCode host code plan userId w) = Normal application ->
  PromoCodeApplication.originalPlan application = plan
  /\ PromoCodeApplication.discountedPlan application
     = applyDiscountToPlan plan (PromoCodeApplication.promoCode application).
Proof.
  destruct (validatePromoCode_returns host code (JsString.str (SubscriptionPlan.id plan))
              userId w) as (validation & w' & Hv).
  unfold applyPromoCode, try_catch, bind. rewrite Hv.
  destruct (PromoCodeValidation.isValid validation);
    [destruct (PromoCodeValidation.promoCode validation) as [promoCode |] |];
    cbn; intros [= <-]; auto.
Qed.



(** ** The cache *)

(** X8.  A validation touches the cache under its own key only: the entry
    under every other key is after the call what it was before. *)
Theorem validatePromoCode_other_keys (host : Host.t) (code : string)
    (planId userId : JsString.value) (w : Runtime.t) (key : string) :
  key <> cacheKey code planId userId ->
  PromoCodeService.cache
    (Runtime.service (snd (validatePromoCode host code planId userId w))) !! key
  = PromoCodeService.cache (Runtime.service w) !! key.
Proof.
  intros Hkey.
  assert (Hget : PromoCodeService.cache
                   (Runtime.service (snd (getCachedValidation (cacheKey code planId userId) w)))
                 !! key
                 = PromoCodeService.cache (Runtime.service w) !! key).
  { unfold getCachedValidation.
    destruct (PromoCodeService.cache (Runtime.service w) !! cacheKey code planId userId);
      [| reflexivity].
    destruct (JsDate.lt _ _); [| reflexivity].
    cbn. apply lookup_delete_ne. congruence. }
  unfold validatePromoCode, try_catch, validatePromoCode_try, bind.
  destruct (getCachedValidation (cacheKey code planId userId) w) as [[[cached |] | e] w1];
    cbn [fst snd] in *; try exact Hget.
  unfold gets.
  destruct (JsString.truthy_opt (PromoCodeService.backendUrl (Runtime.service w1))).
  - unfold validateWithBackend, bind, modify.
    destruct (Host.validate host) as [| status body]; [exact Hget |].
    destruct (Host.ok status); [| exact Hget].
    cbn. rewrite lookup_insert_ne by congruence. exact Hget.
  - unfold mockValidate, bind, modify, gets, ret. cbn.
    rewrite lookup_insert_ne by congruence. exact Hget.
Qed.

Lemma validatePromoCode_other_keys_witness :
  PromoCodeService.cache
    (Runtime.service (snd (validatePromoCode offline "SAVE20" monthly_plan user1 after_save20)))
  !! "FREEMONTH_monthly_user_1"
  = PromoCodeService.cache (Runtime.service after_save20) !! "FREEMONTH_monthly_user_1".
Proof.
  apply (validatePromoCode_other_keys offline "SAVE20" monthly_plan user1 after_save20
           "FREEMONTH_monthly_user_1").
  vm_compute. discriminate.
Defined.

(** X9.  [clearCache] empties the cache and touches nothing else, so the
    next validation, whatever was cached before, asks the catalog. *)
Theorem clearCache_forgets (host : Host.t) (code : string) (planId userId : JsString.value)
    (w : Runtime.t) :
  let cleared := snd (clearCache w) in
  fst (clearCache w) = Normal tt
  /\ PromoCodeService.cache (Runtime.service cleared) = ∅
  /\ PromoCodeService.backendUrl (Runtime.service cleared)
     = PromoCodeService.backendUrl (Runtime.service w)
  /\ PromoCodeService.cacheExpiry (Runtime.service cleared)
     = PromoCodeService.cacheExpiry (Runtime.service w)
  /\ Runtime.now cleared = Runtime.now w
  /\ Runtime.requests cleared = Runtime.requests w
  /\ Runtime.requests (snd (validatePromoCode host code planId userId cleared))
     = (Runtime.requests w ++ [catalog_request w code planId userId])%list.
Proof.
  intros cleared. subst cleared. unfold clearCache, modify. cbn [fst snd].
  repeat split.
  assert (Hk : PromoCodeService.cache
                 (Runtime.service
                    (Runtime.set_service
                       (PromoCodeService.set_cache ∅ (Runtime.service w)) w))
               !! cacheKey code planId userId = None) by apply lookup_empty.
  pose proof (validatePromoCode_try_miss host code planId userId _ Hk) as [Hreq _].
  unfold validatePromoCode, try_catch.
  destruct (validatePromoCode_try host code planId userId _) as [[v | e] w']; exact Hreq.
Qed.

(** ** Redemption and usage *)

(** X10.  Without a backend a redemption does nothing and cannot fail.  With
    one it makes one redemption request and leaves the service as it is; it
    returns when the request is accepted and otherwise throws
    [REDEEM_FAILED], in place of the error of the request. *)
Theorem redeemPromoCode_outcome (host : Host.t) (code : string)
    (userId purchaseId : JsString.value) (w : Runtime.t) :
  let r := redeemPromoCode host code userId purchaseId w in
  if JsString.truthy_opt (PromoCodeService.backendUrl (Runtime.service w)) then
    snd r = Runtime.advance (Host.latency host)
              (Runtime.log (BackendRedeem code userId purchaseId) w)
    /\ fst r = match Host.redeem host with
               | Host.Reply status _ =>
                   if Host.ok status then Normal tt
                   else Throw (JsError.mk (Some "REDEEM_FAILED") "Failed to redeem promo code")
               | Host.Rejected =>
                   Throw (JsError.mk (Some "REDEEM_FAILED") "Failed to redeem promo code")
               end
  else r = (Normal tt, w).
Proof.
  intros r. subst r. unfold redeemPromoCode, try_catch, bind, gets.
  destruct (JsString.truthy_opt (PromoCodeService.backendUrl (Runtime.service w)));
    [| reflexivity].
  unfold redeemWithBackend, bind, modify.
  destruct (Host.redeem host) as [| status body]; [split; reflexivity |].
  destruct (Host.ok status); split; reflexivity.
Qed.

Section Usage.

Variable host : Host.t.
Variable checkUsage : Host.response bool.

(** X11.  [hasUserUsedPromoCode] never throws and never touches the cache
    or the request log.  With a backend it gives the answer of the backend
    and [false] when the request fails; without one the answer depends on
    the code alone, not on the user. *)
Theorem hasUserUsedPromoCode_fails_open (code : string) (userId : JsString.value)
    (w : Runtime.t) :
  let r := hasUserUsedPromoCode host checkUsage code userId w in
  Runtime.service (snd r) = Runtime.service w
  /\ Runtime.requests (snd r) = Runtime.requests w
  /\ fst r
     = Normal
         (if JsString.truthy_opt (PromoCodeService.backendUrl (Runtime.service w)) then
            match checkUsage with
            | Host.Reply status hasUsed => if Host.ok status then hasUsed else false
            | Host.Rejected => false
            end
          else mockCheckUsage code JsString.undefined).
Proof.
  intros r. subst r. unfold hasUserUsedPromoCode, try_catch, bind, gets.
  destruct (JsString.truthy_opt (PromoCodeService.backendUrl (Runtime.service w)));
    [| repeat split].
  unfold checkUsageWithBackend, bind, modify.
  destruct checkUsage as [| status hasUsed]; [repeat split |].
  destruct (Host.ok status); repeat split.
Qed.

End Usage.

(** The mock usage check compares the code as it is given: [SAVE20] counts
    as used, [save20], which validates as the same code, does not. *)
Example mockCheckUsage_is_case_sensitive :
  mockCheckUsage "SAVE20" user1 = true
  /\ mockCheckUsage "save20" user1 = false
  /\ normalizeCode "save20" = "SAVE20".
Proof. vm_compute. repeat split; reflexivity. Qed.

(** ** The codes on offer *)

Section Offers.

Lemma filter_sublist {A} (f : A -> bool) (l : list A) : List.filter f l `sublist_of` l.
Proof.
  induction l as [| x l IH]; cbn; [constructor |].
  destruct (f x); [apply sublist_skip | apply sublist_cons]; exact IH.
Qed.

(** The limit cuts what the other filters let through. *)
Lemma getMockPromoCodes_limit (filters : option Filters.t) :
  getMockPromoCodes filters
  = match filters ≫= Filters.limit with
    | Some n =>
        if (n =? 0)%Z then getMockPromoCodes (without_limit filters)
        else slice0 n (getMockPromoCodes (without_limit filters))
    | None => getMockPromoCodes (without_limit filters)
    end.
Proof. destruct filters as [[a p [n |]] |]; reflexivity. Qed.

(** Without a limit the codes on offer are the mock codes that pass the
    two filters. *)
Lemma getMockPromoCodes_unlimited (filters : option Filters.t) (promoCode : PromoCode.t) :
  In promoCode (getMockPromoCodes (without_limit filters))
  <-> In promoCode mockCodes
      /\ (forall active,
            filters ≫= Filters.active = Some active -> PromoCode.isActive promoCode = active)
      /\ (forall planId plans,
            filters ≫= Filters.planId = Some planId -> planId <> "" ->
            PromoCode.applicablePlans promoCode = Some plans -> In planId plans).
Proof.
  destruct filters as [[a p n] |]; cbn [without_limit];
    [| cbn; split; [intros H; repeat split; [exact H | discriminate | discriminate]
                   | intros [H _]; exact H]].
  unfold getMockPromoCodes.
  cbn [mbind option_bind Filters.active Filters.planId Filters.limit].
  set (byActive := match a with
                   | Some a' => List.filter _ mockCodes
                   | None => mockCodes
                   end).
  assert (Hactive : In promoCode byActive
                    <-> In promoCode mockCodes
                        /\ forall active, a = Some active ->
                                          PromoCode.isActive promoCode = active).
  { subst byActive. destruct a as [a' |].
    - rewrite List.filter_In. split.
      + intros [Hin Heq]. split; [exact Hin |]. intros active [= <-].
        apply Bool.eqb_prop in Heq. exact Heq.
      + intros [Hin Heq]. split; [exact Hin |]. rewrite (Heq a' eq_refl).
        apply Bool.eqb_reflx.
    - split; [intros H; split; [exact H | discriminate] | intros [H _]; exact H]. }
  destruct p as [p |].
  - destruct (JsString.truthy p) eqn:Hp.
    + rewrite List.filter_In, Hactive. split.
      * intros [[Hin Hact] Hok]. split; [exact Hin |]. split; [exact Hact |].
        intros planId plans [= <-] _ Hplans. rewrite Hplans in Hok.
        apply existsb_exists in Hok as (q & Hq & Heq).
        apply String.eqb_eq in Heq. subst q. exact Hq.
      * intros (Hin & Hact & Hplan). split; [split; assumption |].
        destruct (PromoCode.applicablePlans promoCode) as [plans |] eqn:Hplans;
          [| reflexivity].
        apply existsb_exists. exists p. split; [| apply String.eqb_refl].
        apply (Hplan p plans eq_refl); [| reflexivity].
        intros ->. discriminate Hp.
    + rewrite Hactive. split.
      * intros [Hin Hact]. split; [exact Hin |]. split; [exact Hact |].
        intros planId plans [= <-] Hne. destruct p; [contradiction | discriminate Hp].
      * intros (Hin & Hact & _). split; assumption.
  - rewrite Hactive. split.
    + intros [Hin Hact]. split; [exact Hin |]. split; [exact Hact | discriminate].
    + intros (Hin & Hact & _). split; assumption.
Qed.

Lemma getMockPromoCodes_unlimited_sublist (filters : option Filters.t) :
  getMockPromoCodes (without_limit filters) `sublist_of` mockCodes.
Proof.
  destruct filters as [[a p n] |]; [| reflexivity].
  unfold getMockPromoCodes.
  cbn [without_limit mbind option_bind Filters.active Filters.planId Filters.limit].
  transitivity (match a with
                | Some a' =>
                    List.filter (fun code => Bool.eqb (PromoCode.isActive code) a') mockCodes
                | None => mockCodes
                end).
  - destruct p as [p |]; [| reflexivity].
    destruct (JsString.truthy p); [apply filter_sublist | reflexivity].
  - destruct a; [apply filter_sublist | reflexivity].
Qed.

Lemma slice0_prefix {A} (n : Z) (l : list A) : slice0 n l `prefix_of` l.
Proof. unfold slice0. destruct (0 <=? n)%Z; apply prefix_take. Qed.

Lemma slice0_length_exact {A} (n : Z) (l : list A) :
  Z.of_nat (length (slice0 n l))
  = (if (0 <=? n)%Z then Z.min n (Z.of_nat (length l))
     else Z.max 0 (Z.of_nat (length l) + n))%Z.
Proof.
  unfold slice0. destruct (0 <=? n)%Z eqn:E; rewrite length_take.
  - apply Z.leb_le in E. lia.
  - apply Z.leb_gt in E. lia.
Qed.

End Offers.

(** X12.  The mock codes on offer are the mock codes that pass the
    filters, in their order, cut to the limit.  Without a limit a mock code
    is on offer exactly when it has the activity asked for, if one is, and
    applies to the plan asked for, if one is; a limit other than 0 keeps
    the first [limit] of these (and drops the last [-limit] when it is
    negative), and a limit of 0 keeps them all.  So every code on offer
    passes the filters, with a positive limit there are at most that many,
    and without filters all mock codes are on offer.  *)
Theorem getMockPromoCodes_filters (filters : option Filters.t) :
  let offered := getMockPromoCodes filters in
  let unlimited := getMockPromoCodes (without_limit filters) in
  offered `sublist_of` mockCodes
  /\ (forall promoCode active,
        In promoCode offered -> filters ≫= Filters.active = Some active ->
        PromoCode.isActive promoCode = active)
  /\ (forall promoCode planId plans,
        In promoCode offered -> filters ≫= Filters.planId = Some planId ->
        planId <> "" -> PromoCode.applicablePlans promoCode = Some plans ->
        In planId plans)
  /\ (forall limit,
        filters ≫= Filters.limit = Some limit -> (0 < limit)%Z ->
        (Z.of_nat (length offered) <= limit)%Z)
  /\ (filters = None -> offered = mockCodes)
  /\ unlimited `sublist_of` mockCodes
  /\ (forall promoCode,
        In promoCode unlimited
        <-> In promoCode mockCodes
            /\ (forall active,
                  filters ≫= Filters.active = Some active ->
                  PromoCode.isActive promoCode = active)
            /\ (forall planId plans,
                  filters ≫= Filters.planId = Some planId -> planId <> "" ->
                  PromoCode.applicablePlans promoCode = Some plans -> In planId plans))
  /\ offered `prefix_of` unlimited
  /\ Z.of_nat (length offered)
     = (let available := Z.of_nat (length unlimited) in
        match filters ≫= Filters.limit with
        | Some limit =>
            if limit =? 0 then available
            else if 0 <? limit then Z.min limit available
            else Z.max 0 (available + limit)
        | None => available
        end)%Z.
Proof.
  intros offered unlimited.
  pose proof (getMockPromoCodes_limit filters) as Hcut. fold offered unlimited in Hcut.
  pose proof (getMockPromoCodes_unlimited_sublist filters) as Hsub. fold unlimited in Hsub.
  assert (Hprefix : offered `prefix_of` unlimited).
  { rewrite Hcut. destruct (filters ≫= Filters.limit) as [n |]; [| reflexivity].
    destruct (n =? 0)%Z; [reflexivity | apply slice0_prefix]. }
  assert (Hin : forall pc, In pc offered -> In pc unlimited).
  { intros pc H. destruct Hprefix as [rest ->]. apply in_or_app. left. exact H. }
  assert (Hlen : Z.of_nat (length offered)
                 = (let available := Z.of_nat (length unlimited) in
                    match filters ≫= Filters.limit with
                    | Some limit =>
                        if limit =? 0 then available
                        else if 0 <? limit then Z.min limit available
                        else Z.max 0 (available + limit)
                    | None => available
                    end)%Z).
  { rewrite Hcut. cbv zeta. destruct (filters ≫= Filters.limit) as [n |]; [| reflexivity].
    destruct (n =? 0)%Z eqn:E0; [reflexivity |]. rewrite slice0_length_exact.
    apply Z.eqb_neq in E0.
    destruct (0 <=? n)%Z eqn:E1, (0 <? n)%Z eqn:E2; try reflexivity;
      [apply Z.leb_le in E1; apply Z.ltb_ge in E2; lia
      | apply Z.leb_gt in E1; apply Z.ltb_lt in E2; lia]. }
  split; [| split; [| split; [| split; [| split; [| split; [| split; [| split]]]]]]].
  - transitivity unlimited; [| exact Hsub].
    apply sublist_alt. destruct Hprefix as [rest ->]. apply sublist_alt.
    apply sublist_inserts_r. reflexivity.
  - intros pc a H Ha.
    apply Hin, (getMockPromoCodes_unlimited filters) in H as (_ & Hact & _).
    exact (Hact a Ha).
  - intros pc p plans H Hp Hne Hplans.
    apply Hin, (getMockPromoCodes_unlimited filters) in H as (_ & _ & Hplan).
    exact (Hplan p plans Hp Hne Hplans).
  - intros limit Hl Hpos. rewrite Hlen. cbv zeta. rewrite Hl.
    destruct (limit =? 0)%Z eqn:E0; [apply Z.eqb_eq in E0; lia |].
    destruct (0 <? limit)%Z eqn:E1; [lia | apply Z.ltb_ge in E1; lia].
  - intros ->. reflexivity.
  - exact Hsub.
  - apply getMockPromoCodes_unlimited.
  - exact Hprefix.
  - exact Hlen.
Qed.

Section Catalogue.

Variable host : Host.t.
Variable promoCodes : Host.response (list PromoCode.t).

(** X13.  [getAvailablePromoCodes] leaves the service as it is.  Without a
    backend it returns the filtered mock codes and cannot fail; with one it
    returns what the backend sends, and every failure of the request is
    thrown as [FETCH_FAILED]. *)
Theorem getAvailablePromoCodes_outcome (filters : option Filters.t) (w : Runtime.t) :
  let r := getAvailablePromoCodes host promoCodes filters w in
  Runtime.service (snd r) = Runtime.service w
  /\ Runtime.requests (snd r) = Runtime.requests w
  /\ fst r
     = if JsString.truthy_opt (PromoCodeService.backendUrl (Runtime.service w)) then
         match promoCodes with
         | Host.Reply status body =>
             if Host.ok status then Normal body
             else Throw (JsError.mk (Some "FETCH_FAILED") "Failed to fetch promo codes")
         | Host.Rejected =>
             Throw (JsError.mk (Some "FETCH_FAILED") "Failed to fetch promo codes")
         end
       else Normal (getMockPromoCodes filters).
Proof.
  intros r. subst r. unfold getAvailablePromoCodes, try_catch, bind, gets.
  destruct (JsString.truthy_opt (PromoCodeService.backendUrl (Runtime.service w)));
    [| repeat split].
  unfold getPromoCodesFromBackend, bind, modify.
  destruct promoCodes as [| status body]; [repeat split |].
  destruct (Host.ok status); repeat split.
Qed.

End Catalogue.

(** ** The provider: applying a code *)

Ltac provider_run :=
  cbv beta iota zeta delta
    [try_finally try_catch bind PaywallProvider.purchasePlan_pending
     PaywallProvider.purchasePlan_timeout PaywallProvider.hidePaywall
     PaywallProvider.billing_request PaywallProvider.billing_settle
     PaywallProvider.refreshSubscriptionStatus Provider.dispatchPaywall
     Provider.dispatchPromo Provider.setSubscriptionStatus Provider.emit
     Provider.call modify ret throw gets paywallReducer promoCodeReducer
     Provider.paywallState Provider.promoCodeState Provider.subscriptionStatus
     Provider.userId Provider.promoCodeService Provider.events
     Provider.Render.paywallState Provider.Render.promoCodeState Provider.Render.userId
     PaywallState.selectedPlan PaywallState.isLoading PaywallState.error
     PaywallState.purchaseState PaywallState.isVisible
     PromoCodeState.appliedPromo PromoCodeState.isApplying PromoCodeState.code
     PromoCodeState.validation fst snd].


(** ** The provider: purchases *)

(** X15.  When billing refuses the purchase, [purchasePlan] ends in the
    state [error] with the message of the billing service and with
    [isLoading] off; the selected plan, the promo code state, the
    subscription status and the promo code service are untouched (no
    redemption, no refresh), and nothing is scheduled. *)
Theorem purchasePlan_billing_failure (host : Host.t) (w : Provider.t)
    (plan : SubscriptionPlan.t) :
  PaywallState.selectedPlan (Provider.paywallState w) = Some plan ->
  Host.purchase host = None ->
  let r := PaywallProvider.rendered (PaywallProvider.purchasePlan host) w in
  fst r = Normal tt
  /\ Provider.paywallState (snd r)
     = PaywallState.mk (PaywallState.isVisible (Provider.paywallState w)) (Some plan) false
         (Some "Purchase failed. Please try again.") PurchaseState.error
  /\ Provider.promoCodeState (snd r) = Provider.promoCodeState w
  /\ Provider.subscriptionStatus (snd r) = Provider.subscriptionStatus w
  /\ Provider.promoCodeService (snd r) = Provider.promoCodeService w
  /\ exists promoCode,
       Provider.events (snd r)
       = (Provider.events w
            ++ [onPurchaseStart plan; BillingPurchase plan promoCode;
                onPurchaseError "Purchase failed. Please try again."])%list.
Proof.
  intros Hplan Hpurchase r. subst r.
  destruct w as [[vis sel load err ps] [c v a ap] st u svc ev].
  cbn in Hplan. subst sel.
  unfold PaywallProvider.rendered, PaywallProvider.purchasePlan, Provider.render.
  provider_run. rewrite Hpurchase.
  cbv beta iota zeta delta [JsError.message JsString.truthy].
  repeat rewrite <- List.app_assoc.
  repeat split. eexists. reflexivity.
Qed.

Lemma purchasePlan_billing_failure_witness :
  PaywallState.purchaseState
    (Provider.paywallState
       (snd (PaywallProvider.rendered (PaywallProvider.purchasePlan offline) promo_applied)))
  = PurchaseState.error
  /\ Provider.promoCodeState
       (snd (PaywallProvider.rendered (PaywallProvider.purchasePlan offline) promo_applied))
     = Provider.promoCodeState promo_applied.
Proof.
  destruct (purchasePlan_billing_failure offline promo_applied
              (applyDiscountToPlan plan_9_99 SAVE20)) as (_ & Hstate & Hpromo & _).
  - vm_compute. reflexivity.
  - reflexivity.
  - split; [rewrite Hstate; reflexivity | exact Hpromo].
Defined.

(** X16.  When billing takes the purchase and the redemption, if there is a
    code to redeem, does not throw, [purchasePlan] ends in the state
    [success] with [isLoading] off; the plan stays selected and the error
    as it was; the subscription status is the refreshed one; a redeemed
    promo is cleared from the promo code state, which is otherwise
    untouched; and the last thing done is to schedule the closing of the
    paywall after two seconds. *)
Theorem purchasePlan_success (host : Host.t) (w : Provider.t) (plan : SubscriptionPlan.t)
    (purchaseInfo : PurchaseInfo.t) :
  PaywallState.selectedPlan (Provider.paywallState w) = Some plan ->
  Host.purchase host = Some purchaseInfo ->
  match code_to_redeem (Provider.promoCodeState w) with
  | Some code =>
      fst (redeemPromoCode host code (Provider.userId w) JsString.undefined
             (Provider.promoCodeService w)) = Normal tt
  | None => True
  end ->
  let r := PaywallProvider.rendered (PaywallProvider.purchasePlan host) w in
  fst r = Normal tt
  /\ Provider.paywallState (snd r)
     = PaywallState.mk (PaywallState.isVisible (Provider.paywallState w)) (Some plan) false
         (PaywallState.error (Provider.paywallState w)) PurchaseState.success
  /\ Provider.subscriptionStatus (snd r)
     = match Host.status host with
       | Some status => Some status
       | None => Provider.subscriptionStatus w
       end
  /\ Provider.promoCodeState (snd r)
     = match code_to_redeem (Provider.promoCodeState w) with
       | Some _ => promoCodeReducer (Provider.promoCodeState w) CLEAR_PROMO_CODE
       | None => Provider.promoCodeState w
       end
  /\ Provider.promoCodeService (snd r)
     = match code_to_redeem (Provider.promoCodeState w) with
       | Some code =>
           snd (redeemPromoCode host code (Provider.userId w) JsString.undefined
                  (Provider.promoCodeService w))
       | None => Provider.promoCodeService w
       end
  /\ exists promoCode,
       Provider.events (snd r)
       = (Provider.events w
            ++ [onPurchaseStart plan; BillingPurchase plan promoCode; StatusRefresh;
                onPurchaseSuccess purchaseInfo; Timer 2000])%list.
Proof.
  intros Hplan Hpurchase Hredeem r. subst r.
  destruct w as [[vis sel load err ps] [c v a ap] st u svc ev].
  cbn in Hplan. subst sel. unfold code_to_redeem in *.
  cbn [Provider.promoCodeState Provider.userId Provider.promoCodeService
       PromoCodeState.appliedPromo] in *.
  unfold PaywallProvider.rendered, PaywallProvider.purchasePlan, Provider.render.
  provider_run. rewrite Hpurchase.
  destruct (Host.status host) as [status |];
    (destruct ap as [applied |];
     [destruct (JsString.truthy (PromoCode.code (PromoCodeApplication.promoCode applied)));
      [provider_run;
       destruct (redeemPromoCode host _ u JsString.undefined svc) as [[[] | e] svc'];
       [| discriminate Hredeem] |] |]);
    provider_run;
    repeat rewrite <- List.app_assoc;
    repeat split; eexists; reflexivity.
Qed.

Lemma purchasePlan_success_witness :
  PaywallState.purchaseState
    (Provider.paywallState
       (snd (PaywallProvider.rendered (PaywallProvider.purchasePlan (shop 200)) promo_applied)))
  = PurchaseState.success
  /\ PromoCodeState.appliedPromo
       (Provider.promoCodeState
          (snd (PaywallProvider.rendered (PaywallProvider.purchasePlan (shop 200))
                  promo_applied)))
     = None.
Proof.
  destruct (purchasePlan_success (shop 200) promo_applied
              (applyDiscountToPlan plan_9_99 SAVE20) receipt) as (_ & Hstate & _ & Hpromo & _).
  - vm_compute. reflexivity.
  - reflexivity.
  - vm_compute. reflexivity.
  - split; [rewrite Hstate; reflexivity | rewrite Hpromo; reflexivity].
Defined.

(** X17.  After a successful purchase, the scheduled callback brings the
    paywall state back to the initial state: hidden, no plan selected, no
    error, [idle]. *)
Theorem purchasePlan_then_timeout (host : Host.t) (w : Provider.t)
    (plan : SubscriptionPlan.t) (purchaseInfo : PurchaseInfo.t) :
  PaywallState.selectedPlan (Provider.paywallState w) = Some plan ->
  Host.purchase host = Some purchaseInfo ->
  match code_to_redeem (Provider.promoCodeState w) with
  | Some code =>
      fst (redeemPromoCode host code (Provider.userId w) JsString.undefined
             (Provider.promoCodeService w)) = Normal tt
  | None => True
  end ->
  let purchased := snd (PaywallProvider.rendered (PaywallProvider.purchasePlan host) w) in
  let closed := snd (PaywallProvider.purchasePlan_timeout purchased) in
  Provider.paywallState closed = initialPaywallState
  /\ Provider.promoCodeState closed = Provider.promoCodeState purchased
  /\ Provider.events closed = (Provider.events purchased ++ [onPaywallClose])%list.
Proof.
  intros Hplan Hpurchase Hredeem purchased closed. subst closed purchased.
  destruct w as [[vis sel load err ps] [c v a ap] st u svc ev].
  cbn in Hplan. subst sel. unfold code_to_redeem in *.
  cbn [Provider.promoCodeState Provider.userId Provider.promoCodeService
       PromoCodeState.appliedPromo] in *.
  unfold PaywallProvider.rendered, PaywallProvider.purchasePlan, Provider.render.
  provider_run. rewrite Hpurchase.
  destruct (Host.status host) as [status |];
    (destruct ap as [applied |];
     [destruct (JsString.truthy (PromoCode.code (PromoCodeApplication.promoCode applied)));
      [provider_run;
       destruct (redeemPromoCode host _ u JsString.undefined svc) as [[[] | e] svc'];
       [| discriminate Hredeem] |] |]);
    provider_run; repeat split.
Qed.

Lemma purchasePlan_then_timeout_witness :
  Provider.paywallState
    (snd (PaywallProvider.purchasePlan_timeout
            (snd (PaywallProvider.rendered (PaywallProvider.purchasePlan (shop 200))
                    promo_applied))))
  = initialPaywallState.
Proof.
  apply (purchasePlan_then_timeout (shop 200) promo_applied
           (applyDiscountToPlan plan_9_99 SAVE20) receipt).
  - vm_compute. reflexivity.
  - reflexivity.
  - vm_compute. reflexivity.
Defined.

(** ** Entitlements *)

(** X18.  A feature is unlocked exactly when there is a subscription
    status, it is active, and the entitlements hold the feature or
    [premium]. *)
Theorem isFeatureUnlocked_iff (subscriptionStatus : option SubscriptionStatusResponse.t)
    (featureId : string) :
  isFeatureUnlocked subscriptionStatus featureId = true
  <-> exists status,
        subscriptionStatus = Some status
        /\ SubscriptionStatusResponse.isActive status = true
        /\ (In featureId (SubscriptionStatusResponse.entitlements status)
            \/ In "premium" (SubscriptionStatusResponse.entitlements status)).
Proof.
  assert (Hin : forall x l, existsb (String.eqb x) l = true <-> In x l).
  { intros x l. rewrite existsb_exists. split.
    - intros (y & Hy & Heq). apply String.eqb_eq in Heq. subst y. exact Hy.
    - intros Hx. exists x. split; [exact Hx | apply String.eqb_refl]. }
  unfold isFeatureUnlocked. destruct subscriptionStatus as [status |].
  - destruct (SubscriptionStatusResponse.isActive status) eqn:Hactive; cbn [negb].
    + rewrite orb_true_iff, !Hin. split.
      * intros H. exists status. auto.
      * intros (s & [= <-] & _ & H). exact H.
    + split; [discriminate |]. intros (s & [= <-] & Hs & _). congruence.
  - split; [discriminate |]. intros (s & Hs & _). discriminate Hs.
Qed.

(** ** The hooks *)

Section CheapestPlan.

Import Hooks.

Local Open Scope Q_scope.

Lemma price_lt_spec (a b : Q) : if price_lt a b then a < b else b <= a.
Proof. unfold price_lt. destruct (Qlt_le_dec a b); assumption. Qed.

Lemma cheapest_fold (rest : list SubscriptionPlan.t) (first : SubscriptionPlan.t) :
  let cheapest :=
    fold_left
      (fun cheapest current =>
         if price_lt (SubscriptionPlan.price current) (SubscriptionPlan.price cheapest)
         then current else cheapest)
      rest first in
  In cheapest (first :: rest)
  /\ forall plan, In plan (first :: rest) ->
                  SubscriptionPlan.price cheapest <= SubscriptionPlan.price plan.
Proof.
  revert first. induction rest as [| current rest IH]; intros first; cbn [fold_left].
  - split; [left; reflexivity |]. intros plan [<- | []]. apply Qle_refl.
  - pose proof (price_lt_spec (SubscriptionPlan.price current) (SubscriptionPlan.price first))
      as Hlt.
    destruct (price_lt (SubscriptionPlan.price current) (SubscriptionPlan.price first)).
    + destruct (IH current) as [Hin Hmin]. split.
      * right. exact Hin.
      * intros plan [<- | Hplan]; [| apply Hmin, Hplan].
        eapply Qle_trans; [apply Hmin; left; reflexivity | apply Qlt_le_weak, Hlt].
    + destruct (IH first) as [Hin Hmin]. split.
      * destruct Hin as [<- | Hin]; [left; reflexivity | right; right; exact Hin].
      * intros plan [<- | [<- | Hplan]].
        -- apply Hmin. left. reflexivity.
        -- eapply Qle_trans; [apply Hmin; left; reflexivity | exact Hlt].
        -- apply Hmin. right. exact Hplan.
Qed.

End CheapestPlan.

(** X19.  [getCheapestPlan] gives nothing for an empty list only;
    otherwise it gives a plan of the list whose price no plan of the list
    undercuts. *)
Theorem getCheapestPlan_minimal (plans : list SubscriptionPlan.t) :
  match Hooks.getCheapestPlan plans with
  | None => plans = []
  | Some cheapest =>
      In cheapest plans
      /\ forall plan, In plan plans ->
                      (SubscriptionPlan.price cheapest <= SubscriptionPlan.price plan)%Q
  end.
Proof.
  destruct plans as [| first rest]; [reflexivity |].
  unfold Hooks.getCheapestPlan. apply cheapest_fold.
Qed.

Section Discount.

Local Open Scope Q_scope.

(** A discount with a non-negative value does not raise a non-negative
    price. *)
Lemma calculateDiscountedPrice_le (plan : SubscriptionPlan.t) (promoCode : PromoCode.t) :
  0 <= SubscriptionPlan.price plan ->
  0 <= Discount.value (PromoCode.discount promoCode) ->
  calculateDiscountedPrice plan promoCode <= SubscriptionPlan.price plan.
Proof.
  intros Hp Hv. unfold calculateDiscountedPrice, Math_max.
  destruct (Discount.type (PromoCode.discount promoCode)).
  - destruct (Qlt_le_dec 0 _); [| exact Hp].
    unfold Qdiv. change (/ 100) with (1 # 100).
    set (p := SubscriptionPlan.price plan) in *.
    set (v := Discount.value (PromoCode.discount promoCode)) in *.
    nra.
  - destruct (Qlt_le_dec 0 _); [| exact Hp]. lra.
  - exact Hp.
Qed.

Lemma calculateDiscountedPrice_nonneg (plan : SubscriptionPlan.t) (promoCode : PromoCode.t) :
  0 <= calculateDiscountedPrice plan promoCode.
Proof.
  unfold calculateDiscountedPrice.
  destruct (Discount.type (PromoCode.discount promoCode));
    [apply Math_max_nonneg | apply Math_max_nonneg | apply Qle_refl].
Qed.

End Discount.

(** X20.  The discount amount that [usePromoCode] shows for an applied
    promo whose discounted plan is the discount of its original plan lies
    between 0 and the original price, when that price and the value of the
    discount are not negative. *)
Theorem discountAmount_bounds (state : PromoCodeState.t) (applied : PromoCodeApplication.t) :
  PromoCodeState.appliedPromo state = Some applied ->
  PromoCodeApplication.discountedPlan applied
  = applyDiscountToPlan (PromoCodeApplication.originalPlan applied)
      (PromoCodeApplication.promoCode applied) ->
  (0 <= SubscriptionPlan.price (PromoCodeApplication.originalPlan applied))%Q ->
  (0 <= Discount.value (PromoCode.discount (PromoCodeApplication.promoCode applied)))%Q ->
  (0 <= Hooks.discountAmount state
   <= SubscriptionPlan.price (PromoCodeApplication.originalPlan applied))%Q.
Proof.
  intros Happlied Hdisc Hp Hv. unfold Hooks.discountAmount. rewrite Happlied, Hdisc.
  pose proof (calculateDiscountedPrice_le _ _ Hp Hv) as Hle.
  pose proof (calculateDiscountedPrice_nonneg
                (PromoCodeApplication.originalPlan applied)
                (PromoCodeApplication.promoCode applied)) as Hnn.
  cbn [applyDiscountToPlan SubscriptionPlan.price].
  split; lra.
Qed.

Lemma discountAmount_bounds_witness :
  (0 <= Hooks.discountAmount (Provider.promoCodeState promo_applied) <= 999 # 100)%Q.
Proof.
  apply (discountAmount_bounds (Provider.promoCodeState promo_applied) save20_applied).
  - vm_compute. reflexivity.
  - reflexivity.
  - vm_compute. discriminate.
  - vm_compute. discriminate.
Defined.

(** A discount with a negative value raises the price. *)
Example negative_discount_raises_the_price :
  (calculateDiscountedPrice plan_9_99 (promo_of (Discount.mk fixed (-5) None)) == 1499 # 100)%Q.
Proof. vm_compute. reflexivity. Qed.

Section Expiration.

Import Hooks.

Local Open Scope Z_scope.

Variable status : SubscriptionStatusResponse.t.
Variable expirationDate : string.
Variable now : Z.

Hypothesis Hdate : SubscriptionStatusResponse.expirationDate status = Some expirationDate.
Hypothesis Hfilled : expirationDate <> "".

Lemma getTimeUntilExpiration_parsed :
  getTimeUntilExpiration (Some status) now
  = match JsDate.parse expirationDate with
    | None => Some (None, None)
    | Some expiration =>
        if expiration - now <=? 0 then None
        else Some (Some ((expiration - now) / 86400000),
                   Some (Z.rem (expiration - now) 86400000 / 3600000))
    end.
Proof.
  unfold getTimeUntilExpiration. cbn [mbind option_bind]. rewrite Hdate.
  destruct expirationDate as [| c s]; [contradiction |]. cbn [JsString.truthy negb].
  destruct (JsDate.parse (String c s)); reflexivity.
Qed.

End Expiration.

(** X21.  For an expiration date that parses to the instant [expiration],
    [getTimeUntilExpiration] gives nothing when that instant is not in the
    future; otherwise it gives whole days and hours, the hours below 24,
    that are the time left rounded down to the hour. *)
Theorem getTimeUntilExpiration_bounds (status : SubscriptionStatusResponse.t)
    (expirationDate : string) (expiration now : Z) :
  SubscriptionStatusResponse.expirationDate status = Some expirationDate ->
  JsDate.parse expirationDate = Some expiration ->
  match Hooks.getTimeUntilExpiration (Some status) now with
  | None => (expiration <= now)%Z
  | Some (Some days, Some hours) =>
      (now < expiration
       /\ 0 <= days /\ 0 <= hours < 24
       /\ days * 86400000 + hours * 3600000 <= expiration - now
          < days * 86400000 + hours * 3600000 + 3600000)%Z
  | Some _ => False
  end.
Proof.
  intros Hdate Hparse.
  assert (Hfilled : expirationDate <> "") by (intros ->; discriminate Hparse).
  rewrite (getTimeUntilExpiration_parsed status expirationDate now Hdate Hfilled), Hparse.
  destruct (expiration - now <=? 0)%Z eqn:Hdiff; [lia |].
  apply Z.leb_gt in Hdiff.
  rewrite Z.rem_mod_nonneg by lia.
  pose proof (Z.div_mod (expiration - now) 86400000 ltac:(lia)) as Hday.
  pose proof (Z.mod_pos_bound (expiration - now) 86400000 ltac:(lia)) as Hrem.
  pose proof (Z.div_mod ((expiration - now) mod 86400000) 3600000 ltac:(lia)) as Hhour.
  pose proof (Z.mod_pos_bound ((expiration - now) mod 86400000) 3600000 ltac:(lia)) as Hmin.
  assert (0 <= (expiration - now) / 86400000)%Z by (apply Z.div_pos; lia).
  assert (0 <= (expiration - now) mod 86400000 / 3600000 < 24)%Z
    by (split; [apply Z.div_pos; lia | apply Z.div_lt_upper_bound; lia]).
  lia.
Qed.

Lemma getTimeUntilExpiration_bounds_witness :
  match Hooks.getTimeUntilExpiration
          (Some (SubscriptionStatusResponse.mk true ["premium"]
                   (Some "2024-12-31T23:59:59Z") true None None)) 1735689480000 with
  | None => (1735689599000 <= 1735689480000)%Z
  | Some (Some days, Some hours) =>
      (1735689480000 < 1735689599000
       /\ 0 <= days /\ 0 <= hours < 24
       /\ days * 86400000 + hours * 3600000 <= 1735689599000 - 1735689480000
          < days * 86400000 + hours * 3600000 + 3600000)%Z
  | Some _ => False
  end.
Proof.
  apply (getTimeUntilExpiration_bounds
           (SubscriptionStatusResponse.mk true ["premium"]
              (Some "2024-12-31T23:59:59Z") true None None)
           "2024-12-31T23:59:59Z" 1735689599000 1735689480000).
  - reflexivity.
  - vm_compute. reflexivity.
Defined.



(** An expiration date that is no date gives days and hours that are NaN,
    not [null], and is never expiring soon. *)
Example getTimeUntilExpiration_no_date :
  let status := Some (SubscriptionStatusResponse.mk true [] (Some "next year") true None None) in
  Hooks.getTimeUntilExpiration status 1735689480000 = Some (None, None)
  /\ Hooks.isExpiringSoon status 1735689480000 None = false.
Proof. vm_compute. split; reflexivity. Qed.

(** ** The provider: validating and restoring *)

Ltac session_run :=
  cbv beta iota zeta delta
    [try_finally try_catch bind Session.step Session.handle Session.provider
     Session.handlerCalls PaywallProviderMore.paywallService_restorePurchases
     PaywallProvider.refreshSubscriptionStatus Provider.dispatchPaywall
     Provider.dispatchPromo Provider.setSubscriptionStatus Provider.emit
     Provider.call modify ret throw gets paywallReducer promoCodeReducer
     Provider.paywallState Provider.promoCodeState Provider.subscriptionStatus
     Provider.userId Provider.promoCodeService Provider.events Provider.render
     Provider.Render.paywallState Provider.Render.promoCodeState Provider.Render.userId
     PaywallState.selectedPlan PaywallState.isLoading PaywallState.error
     PaywallState.purchaseState PaywallState.isVisible
     PromoCodeState.appliedPromo PromoCodeState.isApplying PromoCodeState.code
     PromoCodeState.validation fst snd].

(** X23.  [validatePromoCode] of the provider returns the validation of the
    service for the code, the id of the selected plan and the user, and
    records it as the validation of the promo code state, with [isApplying]
    off.  It changes neither the paywall state (the selected plan keeps its
    price) nor the applied promo, and it calls one handler:
    [onPromoCodeApplied] for a valid code, with the selected plan as both
    plans, and [onPromoCodeError] otherwise. *)
Theorem provider_validatePromoCode_outcome (host : Host.t) (code : string) (w : Session.t) :
  let p := Session.provider w in
  let planId := match PaywallState.selectedPlan (Provider.paywallState p) with
                | Some plan => JsString.str (SubscriptionPlan.id plan)
                | None => JsString.undefined
                end in
  let served := validatePromoCode host code planId (Provider.userId p)
                  (Provider.promoCodeService p) in
  let r := PaywallProviderMore.rendered
             (fun this => PaywallProviderMore.validatePromoCode host this code) w in
  exists validation,
    fst served = Normal validation
    /\ fst r = Normal validation
    /\ Provider.promoCodeService (Session.provider (snd r)) = snd served
    /\ Provider.paywallState (Session.provider (snd r)) = Provider.paywallState p
    /\ Provider.promoCodeState (Session.provider (snd r))
       = PromoCodeState.mk (PromoCodeState.code (Provider.promoCodeState p))
           (Some validation) false
           (PromoCodeState.appliedPromo (Provider.promoCodeState p))
    /\ Provider.events (Session.provider (snd r)) = Provider.events p
    /\ Session.handlerCalls (snd r)
       = (Session.handlerCalls w
            ++ [if PromoCodeValidation.isValid validation then
                  promoCodeApplied (PromoCodeValidation.promoCode validation)
                    (PaywallState.selectedPlan (Provider.paywallState p))
                    (PaywallState.selectedPlan (Provider.paywallState p))
                    (Runtime.now (snd served))
                else
                  promoCodeError
                    (match PromoCodeValidation.error validation with
                     | Some error =>
                         if JsString.truthy error then error else "Invalid promo code"
                     | None => "Invalid promo code"
                     end)])%list.
Proof.
  intros p planId served r. subst p planId served r.
  destruct w as [[[vis sel load err ps] [c v a ap] st u svc ev] calls].
  unfold PaywallProviderMore.rendered, PaywallProviderMore.validatePromoCode.
  session_run.
  set (planId := match sel with
                 | Some plan => JsString.str (SubscriptionPlan.id plan)
                 | None => JsString.undefined
                 end).
  destruct (validatePromoCode_returns host code planId u svc) as (validation & svc' & Hv).
  rewrite Hv. exists validation. session_run.
  destruct (PromoCodeValidation.isValid validation); session_run; repeat split.
Qed.

(** X24.  [restorePurchases] never throws and ends with [isLoading] off;
    it leaves the selected plan, the purchase state, the promo code state
    and the promo code service alone.  When the restore succeeds the
    subscription status is refreshed and [onRestoreSuccess] gets the
    purchases; when it fails the status is not refreshed, the error of the
    paywall is the message of the failure and [onRestoreError] gets it. *)
Theorem restorePurchases_outcome (host : Host.t) (restored : option (list PurchaseInfo.t))
    (w : Session.t) :
  let p := Session.provider w in
  let r := PaywallProviderMore.restorePurchases host restored w in
  let p' := Session.provider (snd r) in
  fst r = Normal tt
  /\ PaywallState.isLoading (Provider.paywallState p') = false
  /\ PaywallState.selectedPlan (Provider.paywallState p')
     = PaywallState.selectedPlan (Provider.paywallState p)
  /\ PaywallState.purchaseState (Provider.paywallState p')
     = PaywallState.purchaseState (Provider.paywallState p)
  /\ PaywallState.isVisible (Provider.paywallState p')
     = PaywallState.isVisible (Provider.paywallState p)
  /\ Provider.promoCodeState p' = Provider.promoCodeState p
  /\ Provider.promoCodeService p' = Provider.promoCodeService p
  /\ match restored with
     | Some purchases =>
         PaywallState.error (Provider.paywallState p')
         = PaywallState.error (Provider.paywallState p)
         /\ Provider.subscriptionStatus p'
            = match Host.status host with
              | Some status => Some status
              | None => Provider.subscriptionStatus p
              end
         /\ Provider.events p' = (Provider.events p ++ [StatusRefresh])%list
         /\ Session.handlerCalls (snd r)
            = (Session.handlerCalls w ++ [restoreSuccess purchases])%list
     | None =>
         PaywallState.error (Provider.paywallState p')
         = Some "Failed to restore purchases. Please try again."
         /\ Provider.subscriptionStatus p' = Provider.subscriptionStatus p
         /\ Provider.events p' = Provider.events p
         /\ Session.handlerCalls (snd r)
            = (Session.handlerCalls w
                 ++ [restoreError "Failed to restore purchases. Please try again."])%list
     end.
Proof.
  intros p r p'. subst p r p'.
  destruct w as [[[vis sel load err ps] [c v a ap] st u svc ev] calls].
  unfold PaywallProviderMore.restorePurchases.
  session_run.
  destruct restored as [purchases |]; session_run;
    [destruct (Host.status host) as [status |]; session_run |];
    repeat split.
Qed.

(** ** [usePurchaseFlow] *)

(** [purchasePlan] catches everything that its collaborators throw. *)
Lemma purchasePlan_returns (host : Host.t) (w : Provider.t) :
  fst (PaywallProvider.rendered (PaywallProvider.purchasePlan host) w) = Normal tt.
Proof.
  destruct w as [[vis sel load err ps] [c v a ap] st u svc ev].
  unfold PaywallProvider.rendered, PaywallProvider.purchasePlan, Provider.render.
  provider_run.
  destruct sel as [plan |]; [| reflexivity].
  provider_run.
  destruct (Host.purchase host) as [info |]; [| reflexivity].
  destruct (Host.status host) as [status |];
    (destruct ap as [applied |];
     [destruct (JsString.truthy (PromoCode.code (PromoCodeApplication.promoCode applied)));
      [provider_run;
       destruct (redeemPromoCode host _ u JsString.undefined svc) as [[[] | e] svc'] |] |]);
    reflexivity.
Qed.

(** X25.  [handlePurchase] never sets the purchase error of the hook:
    [purchasePlan] reports every failure through the paywall state and
    throws nothing, so after it the hook has an error exactly when the
    purchase state is [error]. *)
Theorem handlePurchase_reports_through_state (host : Host.t) (w : PurchaseFlow.t) :
  let r := PurchaseFlow.handlePurchase host w in
  fst r = Normal tt
  /\ PurchaseFlow.purchaseError (snd r) = None
  /\ PurchaseFlow.provider (snd r)
     = snd (PaywallProvider.rendered (PaywallProvider.purchasePlan host)
              (PurchaseFlow.provider w))
  /\ (PurchaseFlow.hasError (snd r) = true
      <-> PaywallState.purchaseState (Provider.paywallState (PurchaseFlow.provider (snd r)))
          = PurchaseState.error).
Proof.
  intros r. subst r. destruct w as [p e].
  unfold PurchaseFlow.handlePurchase, try_catch, bind, PurchaseFlow.setPurchaseError,
    PurchaseFlow.step, modify.
  cbn [PurchaseFlow.provider PurchaseFlow.purchaseError].
  pose proof (purchasePlan_returns host p) as Hret.
  destruct (PaywallProvider.rendered (PaywallProvider.purchasePlan host) p) as [c p'].
  cbn [fst] in Hret. subst c. cbn [fst snd PurchaseFlow.provider PurchaseFlow.purchaseError].
  repeat split; unfold PurchaseFlow.hasError; cbn [PurchaseFlow.provider PurchaseFlow.purchaseError];
    destruct (PaywallState.purchaseState (Provider.paywallState p')); congruence.
Qed.

(** ** Dates written and read back *)

Section RoundTrip.

Local Open Scope Z_scope.

Lemma digit_digit_char (n : Z) (r : list ascii) :
  0 <= n < 10 -> JsDate.digit (JsDateFormat.digit_char n :: r) = Some (n, r).
Proof.
  intros H.
  assert (Hn : In n [0; 1; 2; 3; 4; 5; 6; 7; 8; 9]) by (cbn; lia).
  cbn in Hn.
  repeat (destruct Hn as [<- | Hn]; [reflexivity |]). destruct Hn.
Qed.

Lemma digit_char_not (c : ascii) (n : Z) :
  JsDate.is_digit c = false -> 0 <= n < 10 -> Ascii.eqb c (JsDateFormat.digit_char n) = false.
Proof.
  intros Hc H.
  assert (Hn : In n [0; 1; 2; 3; 4; 5; 6; 7; 8; 9]) by (cbn; lia).
  cbn in Hn.
  destruct (Ascii.eqb c (JsDateFormat.digit_char n)) eqn:E; [| reflexivity].
  apply Ascii.eqb_eq in E. subst c.
  repeat (destruct Hn as [<- | Hn]; [vm_compute in Hc; discriminate |]). destruct Hn.
Qed.

Lemma digits2_pad2 (n : Z) (r : list ascii) :
  0 <= n < 100 -> JsDate.digits2 (JsDateFormat.pad2 n ++ r)%list = Some (n, r).
Proof.
  intros H. unfold JsDate.digits2, JsDate.pbind, JsDateFormat.pad2, JsDate.pret.
  cbn [app].
  rewrite digit_digit_char by (split; [apply Z.div_pos; lia | apply Z.div_lt_upper_bound; lia]).
  rewrite digit_digit_char by (apply Z.mod_pos_bound; lia).
  f_equal. f_equal. pose proof (Z.div_mod n 10). lia.
Qed.

Lemma digits3_pad3 (n : Z) (r : list ascii) :
  0 <= n < 1000 -> JsDate.digits3 (JsDateFormat.pad3 n ++ r)%list = Some (n, r).
Proof.
  intros H. unfold JsDate.digits3, JsDate.pbind, JsDateFormat.pad3, JsDate.pret.
  rewrite <- app_assoc.
  rewrite digits2_pad2 by (split; [apply Z.div_pos; lia | apply Z.div_lt_upper_bound; lia]).
  cbn [app].
  rewrite digit_digit_char by (apply Z.mod_pos_bound; lia).
  f_equal. f_equal. pose proof (Z.div_mod n 10). lia.
Qed.

Lemma digits4_pad4 (n : Z) (r : list ascii) :
  0 <= n < 10000 -> JsDate.digits4 (JsDateFormat.pad4 n ++ r)%list = Some (n, r).
Proof.
  intros H. unfold JsDate.digits4, JsDate.pbind, JsDateFormat.pad4, JsDate.pret.
  rewrite <- app_assoc.
  rewrite digits2_pad2 by (split; [apply Z.div_pos; lia | apply Z.div_lt_upper_bound; lia]).
  rewrite digits2_pad2 by (apply Z.mod_pos_bound; lia).
  f_equal. f_equal. pose proof (Z.div_mod n 100). lia.
Qed.

Lemma digits6_pad6 (n : Z) (r : list ascii) :
  0 <= n < 1000000 -> JsDate.digits6 (JsDateFormat.pad6 n ++ r)%list = Some (n, r).
Proof.
  intros H. unfold JsDate.digits6, JsDate.pbind, JsDateFormat.pad6, JsDate.pret.
  rewrite <- app_assoc.
  rewrite digits4_pad4 by (split; [apply Z.div_pos; lia | apply Z.div_lt_upper_bound; lia]).
  rewrite digits2_pad2 by (apply Z.mod_pos_bound; lia).
  f_equal. f_equal. pose proof (Z.div_mod n 100). lia.
Qed.

Lemma year_year_string (y : Z) (r : list ascii) :
  -1000000 < y < 1000000 ->
  JsDate.year (JsDateFormat.year_string y ++ r)%list = Some (y, r).
Proof.
  intros H. unfold JsDate.year, JsDateFormat.year_string.
  destruct ((0 <=? y) && (y <=? 9999))%bool eqn:E.
  - apply andb_true_iff in E as [E1 E2]. apply Z.leb_le in E1, E2.
    unfold JsDateFormat.pad4 at 1. unfold JsDateFormat.pad2 at 1.
    cbn [app]. unfold JsDate.opt.
    assert (Hd : 0 <= y / 100 / 10 < 10).
    { split; [apply Z.div_pos; [apply Z.div_pos |]; lia |].
      apply Z.div_lt_upper_bound; [lia |]. apply Z.div_lt_upper_bound; lia. }
    rewrite !digit_char_not by (auto; reflexivity).
    change (JsDateFormat.digit_char (y / 100 / 10)
              :: JsDateFormat.digit_char ((y / 100) mod 10)
              :: (JsDateFormat.pad2 (y mod 100) ++ r)%list)
      with (JsDateFormat.pad4 y ++ r)%list.
    apply digits4_pad4. lia.
  - destruct (y <? 0) eqn:En.
    + apply Z.ltb_lt in En. cbn [app JsDate.opt Ascii.eqb].
      unfold JsDate.opt. cbn [Ascii.eqb Bool.eqb andb].
      unfold JsDate.pbind. rewrite digits6_pad6 by lia.
      destruct (- y =? 0) eqn:Ez; [apply Z.eqb_eq in Ez; lia |].
      unfold JsDate.pret. f_equal. f_equal. lia.
    + cbn [app]. unfold JsDate.opt. cbn [Ascii.eqb Bool.eqb andb].
      apply Z.ltb_ge in En. apply digits6_pad6. lia.
Qed.

End RoundTrip.

Section CivilDates.

Local Open Scope Z_scope.

Lemma forall_from_spec (p : Z -> bool) (n : nat) (z k : Z) :
  forall_from p n z = true -> z <= k < z + Z.of_nat n -> p k = true.
Proof.
  revert z. induction n as [| n IH]; intros z H Hk; [lia |].
  cbn [forall_from] in H. apply andb_true_iff in H as [H0 H].
  destruct (Z.eq_dec k z) as [-> | Hne]; [exact H0 |].
  apply (IH (z + 1)); [exact H | lia].
Qed.

(** Every day of an era has a date, and the date gives the day back. *)
Lemma civil_of_doe_table :
  forall_from
    (fun doe =>
       let '(yoe, m, d) := JsDateFormat.civil_of_doe doe in
       (0 <=? yoe) && (yoe <=? 399) && (1 <=? m) && (m <=? 12) && (1 <=? d) && (d <=? 31)
       && (yoe * 365 + yoe / 4 - yoe / 100
           + ((153 * (if m >? 2 then m - 3 else m + 9) + 2) / 5 + d - 1) =? doe))
    (Z.to_nat 146097) 0 = true.
Proof. vm_compute. reflexivity. Qed.

Lemma civil_of_doe_spec (doe : Z) :
  0 <= doe < 146097 ->
  exists yoe m d,
    JsDateFormat.civil_of_doe doe = (yoe, m, d)
    /\ 0 <= yoe <= 399 /\ 1 <= m <= 12 /\ 1 <= d <= 31
    /\ yoe * 365 + yoe / 4 - yoe / 100
       + ((153 * (if m >? 2 then m - 3 else m + 9) + 2) / 5 + d - 1) = doe.
Proof.
  intros H.
  pose proof (forall_from_spec _ _ _ doe civil_of_doe_table) as T.
  cbv beta in T. specialize (T ltac:(lia)).
  destruct (JsDateFormat.civil_of_doe doe) as [[yoe m] d].
  exists yoe, m, d.
  rewrite !andb_true_iff, !Z.leb_le, Z.eqb_eq in T.
  destruct T as ((((((? & ?) & ?) & ?) & ?) & ?) & ?).
  repeat split; assumption.
Qed.

Lemma days_from_civil_from_days (z : Z) :
  exists y m d,
    JsDateFormat.civil_from_days z = (y, m, d)
    /\ JsDate.days_from_civil y m d = z
    /\ 1 <= m <= 12 /\ 1 <= d <= 31
    /\ (z + 719468) / 146097 * 400 <= y <= (z + 719468) / 146097 * 400 + 400.
Proof.
  unfold JsDateFormat.civil_from_days.
  pose proof (Z.mod_pos_bound (z + 719468) 146097 ltac:(lia)) as Hdoe.
  pose proof (Z.div_mod (z + 719468) 146097 ltac:(lia)) as Hz.
  destruct (civil_of_doe_spec _ Hdoe) as (yoe & m & d & -> & Hy & Hm & Hd & E).
  set (era := (z + 719468) / 146097) in *.
  set (doe := (z + 719468) mod 146097) in *.
  eexists _, m, d. split; [reflexivity |].
  split; [| split; [exact Hm | split; [exact Hd | destruct (m <=? 2); lia]]].
  unfold JsDate.days_from_civil.
  assert (Hy' : (if m <=? 2 then (if m <=? 2 then yoe + era * 400 + 1 else yoe + era * 400) - 1
                 else (if m <=? 2 then yoe + era * 400 + 1 else yoe + era * 400))
                = yoe + era * 400) by (destruct (m <=? 2); lia).
  rewrite Hy'.
  rewrite Z.div_add by lia. rewrite (Z.div_small yoe 400) by lia.
  replace (yoe + era * 400 - (0 + era) * 400) with yoe by lia.
  cbv zeta. rewrite E. lia.
Qed.

End CivilDates.

Section ParseFormat.

Local Open Scope Z_scope.

Lemma opt_hit {A} (c : ascii) (p q : JsDate.parser A) (r : list ascii) :
  JsDate.opt c p q (c :: r) = p r.
Proof. unfold JsDate.opt. rewrite Ascii.eqb_refl. reflexivity. Qed.

(** A date in the range of time values is read back from its ISO
    string. *)
Lemma parse_format (t : Z) :
  Z.abs t <= 8640000000000000 -> JsDate.parse (JsDateFormat.format t) = Some t.
Proof.
  intros Ht. unfold JsDate.parse, JsDateFormat.format.
  destruct (days_from_civil_from_days (t / 86400000)) as (y & m & d & -> & E & Hm & Hd & Hy).
  rewrite list_ascii_of_string_of_list_ascii.
  pose proof (Z.mod_pos_bound t 86400000 ltac:(lia)) as Hms.
  pose proof (Z.div_mod t 86400000 ltac:(lia)) as Hdm.
  set (ms := t mod 86400000) in *.
  set (day := t / 86400000) in *.
  assert (Hday : -100000000 <= day <= 100000000) by lia.
  assert (Hera : -1000 < (day + 719468) / 146097 < 1000).
  { pose proof (Z.div_mod (day + 719468) 146097 ltac:(lia)).
    pose proof (Z.mod_pos_bound (day + 719468) 146097 ltac:(lia)). lia. }
  unfold JsDate.date_time, JsDate.date, JsDate.time, JsDate.seconds, JsDate.offset, JsDate.lit.
  unfold JsDate.pbind at 1 2 3.
  rewrite year_year_string by lia.
  rewrite opt_hit. unfold JsDate.pbind at 1. rewrite digits2_pad2 by lia.
  rewrite opt_hit. unfold JsDate.pbind at 1. rewrite digits2_pad2 by lia.
  unfold JsDate.pret at 1.
  rewrite opt_hit. unfold JsDate.pbind at 1.
  assert (Hh : 0 <= ms / 3600000 < 24).
  { split; [apply Z.div_pos | apply Z.div_lt_upper_bound]; lia. }
  assert (Hmi : 0 <= ms / 60000 mod 60 < 60) by (apply Z.mod_pos_bound; lia).
  assert (Hs : 0 <= ms / 1000 mod 60 < 60) by (apply Z.mod_pos_bound; lia).
  assert (Hmss : 0 <= ms mod 1000 < 1000) by (apply Z.mod_pos_bound; lia).
  rewrite digits2_pad2 by lia.
  unfold JsDate.pbind at 1. rewrite opt_hit. unfold JsDate.pret at 1.
  unfold JsDate.pbind at 1. rewrite digits2_pad2 by lia.
  unfold JsDate.pbind at 1. rewrite opt_hit.
  unfold JsDate.pbind at 1. rewrite digits2_pad2 by lia.
  rewrite opt_hit. unfold JsDate.pbind at 1. rewrite digits3_pad3 by lia.
  unfold JsDate.pret at 1.
  unfold JsDate.pbind at 1. rewrite opt_hit. unfold JsDate.pret at 1.
  assert (Hc : ((ms / 3600000 <=? 24) && (ms / 60000 mod 60 <=? 59) && (ms / 1000 mod 60 <=? 59)
                && ((ms / 3600000 <? 24)
                    || ((ms / 60000 mod 60 =? 0) && (ms / 1000 mod 60 =? 0) && (ms mod 1000 =? 0))))%bool
               = true).
  { rewrite !andb_true_iff, orb_true_iff, !Z.leb_le, Z.ltb_lt. lia. }
  rewrite Hc. unfold JsDate.pret at 1.
  assert (Hr : ((1 <=? m) && (m <=? 12) && (1 <=? d) && (d <=? 31))%bool = true).
  { rewrite !andb_true_iff, !Z.leb_le. lia. }
  rewrite Hr. unfold JsDate.pret. rewrite E.
  replace (day * 86400000
           + (ms / 3600000 * 3600000 + ms / 60000 mod 60 * 60000 + ms / 1000 mod 60 * 1000
              + ms mod 1000) - 0 * 60000) with t.
  - unfold JsDate.TimeClip. destruct (Z.abs t <=? 8640000000000000) eqn:Ec; [reflexivity |].
    apply Z.leb_gt in Ec. lia.
  - pose proof (Z.div_mod ms 1000 ltac:(lia)).
    pose proof (Z.div_mod (ms / 1000) 60 ltac:(lia)) as H1.
    pose proof (Z.div_mod (ms / 60000) 60 ltac:(lia)) as H2.
    rewrite Z.div_div in H1, H2 by lia.
    change (1000 * 60) with 60000 in H1. change (60000 * 60) with 3600000 in H2.
    lia.
Qed.

End ParseFormat.

(** ** [usePaywallTriggers] *)

Section TriggerHistory.

Local Open Scope Z_scope.

Variable Context : Type.

Lemma toISOString_in_range (t : Z) :
  Z.abs t <= 8640000000000000 ->
  JsDateFormat.toISOString (JsDateFormat.Date_of t) = Normal (JsDateFormat.format t).
Proof.
  intros H. unfold JsDateFormat.Date_of, JsDate.TimeClip.
  destruct (Z.abs t <=? 8640000000000000) eqn:E; [reflexivity |].
  apply Z.leb_gt in E. lia.
Qed.

Lemma recent_recorded (later recorded : Z) (trigger other : string) (c : option Context) :
  Z.abs recorded <= 8640000000000000 ->
  Triggers.recent later other (Triggers.mkRecord trigger (JsDateFormat.format recorded) c)
  = (String.eqb trigger other && (later - recorded <? 86400000))%bool.
Proof.
  intros H. unfold Triggers.recent. cbn [Triggers.trigger Triggers.timestamp].
  rewrite parse_format by exact H. reflexivity.
Qed.

(** X26.  [triggerPaywallIfNeeded] shows the paywall and records the
    trigger when [shouldShowPaywall] allows it, and otherwise changes
    nothing.  Once a trigger is recorded, [shouldShowPaywall] refuses that
    trigger until 24 hours after the recorded time, and answers for every
    other trigger, and for this one from then on, as it did before. *)
Theorem triggerPaywallIfNeeded_outcome (w : Triggers.t Context)
    (now recorded shown : Z) (trigger : string) (c : option Context) :
  Z.abs recorded <= 8640000000000000 ->
  Z.abs shown <= 8640000000000000 ->
  let r := Triggers.rendered
             (fun this => Triggers.triggerPaywallIfNeeded this now recorded shown trigger c) w in
  if Triggers.shouldShowPaywall (Triggers.render w) now trigger then
    fst r = Normal true
    /\ Provider.paywallState (Triggers.provider (snd r))
       = paywallReducer (Provider.paywallState (Triggers.provider w)) SHOW_PAYWALL
    /\ Triggers.triggerHistory (snd r)
       = (Triggers.triggerHistory w
          ++ [Triggers.mkRecord trigger (JsDateFormat.format recorded) c])%list
    /\ Triggers.storage (snd r) !! Triggers.LAST_SEEN_PAYWALL
       = Some (JsDateFormat.format shown)
    /\ forall (later : Z) (other : string),
         Triggers.shouldShowPaywall (Triggers.render (snd r)) later other
         = (Triggers.shouldShowPaywall (Triggers.render w) later other
            && (negb (String.eqb trigger other) || (86400000 <=? later - recorded)))%bool
  else r = (Normal false, w).
Proof.
  intros Hrec Hshown r. subst r. unfold Triggers.rendered, Triggers.triggerPaywallIfNeeded.
  destruct (Triggers.shouldShowPaywall (Triggers.render w) now trigger); [| reflexivity].
  unfold Triggers.triggerPaywall, Triggers.recordTrigger, Triggers.showPaywall, bind,
    Triggers.settle, Triggers.step, modify, ret.
  rewrite !toISOString_in_range by assumption.
  destruct w as [[ps promo st u svc ev] hist store].
  cbn [fst snd Triggers.provider Triggers.triggerHistory Triggers.storage
       Provider.dispatchPaywall modify Provider.paywallState Provider.promoCodeState
       Provider.subscriptionStatus Provider.userId Provider.promoCodeService Provider.events].
  unfold Provider.dispatchPaywall, modify.
  cbn [fst snd Triggers.provider Triggers.triggerHistory Triggers.storage
       Provider.paywallState Provider.promoCodeState
       Provider.subscriptionStatus Provider.userId Provider.promoCodeService Provider.events].
  split; [reflexivity |]. split; [reflexivity |]. split; [reflexivity |].
  split; [apply lookup_insert_eq |].
  intros later other. unfold Triggers.shouldShowPaywall, Triggers.render.
  cbn [Triggers.provider Triggers.triggerHistory Triggers.subscriptionStatus Triggers.history
       Provider.subscriptionStatus].
  destruct (match st with
            | Some status => SubscriptionStatusResponse.isActive status
            | None => false
            end); [reflexivity |].
  rewrite List.filter_app, length_app. cbn [List.filter].
  rewrite recent_recorded by exact Hrec.
  destruct (String.eqb trigger other); cbn [andb negb orb].
  - destruct (later - recorded <? 86400000) eqn:E.
    + apply Z.ltb_lt in E. destruct (86400000 <=? later - recorded) eqn:E'.
      * apply Z.leb_le in E'. lia.
      * cbn [length]. rewrite Nat.add_1_r, andb_false_r. reflexivity.
    + apply Z.ltb_ge in E. apply Z.leb_le in E. rewrite E.
      cbn [length]. rewrite Nat.add_0_r, andb_true_r. reflexivity.
  - cbn [length]. rewrite Nat.add_0_r, andb_true_r. reflexivity.
Qed.

End TriggerHistory.

Lemma triggerPaywallIfNeeded_outcome_witness :
  let r := Triggers.rendered
             (fun this =>
                Triggers.triggerPaywallIfNeeded this 1718000000000 1718000000001
                  1718000000002 "feature_gate" (Some "export"))
             no_trigger_yet in
  fst r = Normal true
  /\ forall (later : Z) (other : string),
       Triggers.shouldShowPaywall (Triggers.render (snd r)) later other
       = (Triggers.shouldShowPaywall (Triggers.render no_trigger_yet) later other
          && (negb (String.eqb "feature_gate" other)
              || (86400000 <=? later - 1718000000001)%Z))%bool.
Proof.
  intros r.
  pose proof (triggerPaywallIfNeeded_outcome string no_trigger_yet
                1718000000000 1718000000001 1718000000002 "feature_gate" (Some "export")
                ltac:(lia) ltac:(lia)) as H.
  cbv zeta in H.
  change (Triggers.shouldShowPaywall (Triggers.render no_trigger_yet)
            1718000000000 "feature_gate") with true in H.
  cbv iota in H. destruct H as (H1 & _ & _ & _ & H5).
  split; [exact H1 | exact H5].
Defined.

(** ** [PaywallService]: purchases *)

Section MockPurchase.

Local Open Scope Z_scope.

(** X27.  A service with a RevenueCat configuration, or without the URL of
    a backend, makes the purchase up: it is active and carries the promo
    code as given; the original price is the price of the plan and the
    final price is 80% of it for every non-empty promo code, whatever the
    code, and the full price without one.  The purchase date reads back as
    the time of the purchase; a lifetime plan has no expiration date, and
    the expiration date of a monthly or yearly plan reads back as 30 or
    365 days after the clock reading it was made from. *)
Theorem mock_purchasePlan_outcome (this : PaywallService.t)
    (purchase : Host.response PurchaseInfo.t) (t_id t_purchase t_expiration : Z)
    (plan : SubscriptionPlan.t) (promoCode : option string) :
  PaywallService.revenueCatConfig this <> None
  \/ JsString.truthy_opt (PaywallService.customBackendUrl this) = false ->
  Z.abs t_purchase <= 8640000000000000 ->
  (SubscriptionPlan.duration plan <> lifetime ->
   Z.abs (t_expiration + PaywallService.getDurationMs (SubscriptionPlan.duration plan))
   <= 8640000000000000) ->
  exists info,
    PaywallService.purchasePlan purchase t_id t_purchase t_expiration this plan promoCode
    = Normal info
    /\ PurchaseInfo.isActive info = true
    /\ PurchaseInfo.promoCodeUsed info = promoCode
    /\ PurchaseInfo.originalPrice info = SubscriptionPlan.price plan
    /\ PurchaseInfo.finalPrice info
       = (if JsString.truthy_opt promoCode then SubscriptionPlan.price plan * (8 # 10)
          else SubscriptionPlan.price plan)%Q
    /\ JsDate.parse (PurchaseInfo.purchaseDate info) = Some t_purchase
    /\ match PurchaseInfo.expirationDate info with
       | None => SubscriptionPlan.duration plan = lifetime
       | Some expirationDate =>
           SubscriptionPlan.duration plan <> lifetime
           /\ JsDate.parse expirationDate
              = Some (t_expiration
                      + PaywallService.getDurationMs (SubscriptionPlan.duration plan))
       end.
Proof.
  intros Hmock Hp He.
  assert (Hpath : PaywallService.purchasePlan purchase t_id t_purchase t_expiration this
                    plan promoCode
                  = match PaywallService.mockPurchase t_id t_purchase t_expiration plan
                            promoCode with
                    | Normal info => Normal info
                    | Throw _ =>
                        Throw (PaywallService.createPaywallError "PURCHASE_FAILED"
                                 "Purchase failed. Please try again.")
                    end).
  { unfold PaywallService.purchasePlan, PaywallService.purchaseRevenueCatPlan.
    destruct (PaywallService.revenueCatConfig this); [reflexivity |].
    destruct Hmock as [Hmock | Hmock]; [congruence |]. rewrite Hmock. reflexivity. }
  rewrite Hpath. unfold PaywallService.mockPurchase.
  rewrite toISOString_in_range by exact Hp.
  destruct (SubscriptionPlan.duration plan) eqn:Hd;
    try rewrite toISOString_in_range by (apply He; discriminate);
    eexists; (split; [reflexivity |]);
    cbn [PurchaseInfo.isActive PurchaseInfo.promoCodeUsed PurchaseInfo.originalPrice
         PurchaseInfo.finalPrice PurchaseInfo.purchaseDate PurchaseInfo.expirationDate];
    repeat split; try discriminate;
    try (apply parse_format; first [exact Hp | apply He; discriminate]).
Qed.

End MockPurchase.

Lemma mock_purchasePlan_outcome_witness :
  exists info,
    PaywallService.purchasePlan Host.Rejected 1718000002000 1718000002000 1718000002001
      (PaywallService.mk None None None false) plan_9_99 (Some "ANYTHING")
    = Normal info
    /\ PurchaseInfo.finalPrice info = ((999 # 100) * (8 # 10))%Q
    /\ JsDate.parse (PurchaseInfo.purchaseDate info) = Some 1718000002000%Z
    /\ match PurchaseInfo.expirationDate info with
       | None => False
       | Some expirationDate => JsDate.parse expirationDate = Some 1720592002001%Z
       end.
Proof.
  destruct (mock_purchasePlan_outcome (PaywallService.mk None None None false) Host.Rejected
              1718000002000 1718000002000 1718000002001 plan_9_99 (Some "ANYTHING"))
    as (info & Hinfo & _ & _ & _ & Hfinal & Hdate & Hexp).
  - right. reflexivity.
  - lia.
  - intros _. vm_compute. discriminate.
  - exists info. split; [exact Hinfo |]. split; [exact Hfinal |]. split; [exact Hdate |].
    destruct (PurchaseInfo.expirationDate info) as [e |].
    + exact (proj2 Hexp).
    + discriminate Hexp.
Defined.

(** ** A promo code from its application to the bill *)

Lemma provider_applyPromoCode_success (host : Host.t) (code : string) (w : Provider.t)
    (plan : SubscriptionPlan.t) (application : PromoCodeApplication.t) :
  PaywallState.selectedPlan (Provider.paywallState w) = Some plan ->
  fst (applyPromoCode host code plan (Provider.userId w) (Provider.promoCodeService w))
  = Normal application ->
  let w' := snd (PaywallProvider.rendered
                   (fun this => PaywallProvider.applyPromoCode host this code) w) in
  PaywallState.selectedPlan (Provider.paywallState w')
  = Some (applyDiscountToPlan plan (PromoCodeApplication.promoCode application))
  /\ PromoCodeState.appliedPromo (Provider.promoCodeState w') = Some application.
Proof.
  destruct w as [[vis sel load err ps] [c v a ap] st u svc ev].
  cbn [Provider.paywallState Provider.userId Provider.promoCodeService
       PaywallState.selectedPlan].
  intros -> Happ.
  unfold PaywallProvider.rendered, PaywallProvider.applyPromoCode, Provider.render.
  cbn [Provider.paywallState Provider.promoCodeState Provider.userId
       Provider.promoCodeService Provider.events
       Provider.Render.paywallState Provider.Render.userId PaywallState.selectedPlan].
  pose proof (applyPromoCode_application host code plan u svc) as Hout.
  provider_run.
  destruct (applyPromoCode host code plan u svc) as [[application' | e] svc'];
    cbv beta iota zeta delta [fst snd] in *; [| discriminate Happ].
  injection Happ as ->.
  destruct (Hout application eq_refl) as [_ Hdisc]. rewrite Hdisc. split; reflexivity.
Qed.

(** The first things [purchasePlan] does with a selected plan: the
    handler [onPurchaseStart] and the request to billing, with the code
    of the applied promo. *)
Lemma purchasePlan_request (host : Host.t) (w : Provider.t) (plan : SubscriptionPlan.t) :
  PaywallState.selectedPlan (Provider.paywallState w) = Some plan ->
  exists rest,
    Provider.events (snd (PaywallProvider.rendered (PaywallProvider.purchasePlan host) w))
    = (Provider.events w
       ++ onPurchaseStart plan
          :: BillingPurchase plan
               (option_map (fun applied =>
                              PromoCode.code (PromoCodeApplication.promoCode applied))
                  (PromoCodeState.appliedPromo (Provider.promoCodeState w)))
          :: rest)%list.
Proof.
  destruct w as [[vis sel load err ps] [c v a ap] st u svc ev].
  cbn [Provider.paywallState PaywallState.selectedPlan Provider.promoCodeState
       PromoCodeState.appliedPromo Provider.events].
  intros ->.
  unfold PaywallProvider.rendered, PaywallProvider.purchasePlan, Provider.render.
  provider_run.
  destruct (Host.purchase host) as [info |]; [| rewrite <- !app_assoc; eexists; reflexivity].
  destruct (Host.status host) as [status |];
    (destruct ap as [applied |];
     [destruct (JsString.truthy (PromoCode.code (PromoCodeApplication.promoCode applied)));
      [provider_run;
       destruct (redeemPromoCode host _ u JsString.undefined svc) as [[[] | e] svc'] |] |]);
    cbn [option_map]; rewrite <- ?app_assoc; cbn [app]; eexists; reflexivity.
Qed.

(** X28.  After [applyPromoCode] has succeeded on the selected plan,
    [purchasePlan] sends billing the discounted plan together with the
    code: the plan whose price is the discounted price.  The made-up
    purchase of [PaywallService] for that request reports the discounted
    price as the original price and takes its 20% off that price
    again. *)
Theorem promo_purchase_bills_discounted_plan (host : Host.t) (code : string)
    (w : Provider.t) (plan : SubscriptionPlan.t) (application : PromoCodeApplication.t) :
  PaywallState.selectedPlan (Provider.paywallState w) = Some plan ->
  fst (applyPromoCode host code plan (Provider.userId w) (Provider.promoCodeService w))
  = Normal application ->
  let promo := PromoCodeApplication.promoCode application in
  let billed := applyDiscountToPlan plan promo in
  let w1 := snd (PaywallProvider.rendered
                   (fun this => PaywallProvider.applyPromoCode host this code) w) in
  let w2 := snd (PaywallProvider.rendered (PaywallProvider.purchasePlan host) w1) in
  (exists rest,
     Provider.events w2
     = (Provider.events w1
        ++ onPurchaseStart billed :: BillingPurchase billed (Some (PromoCode.code promo))
           :: rest)%list)
  /\ SubscriptionPlan.price billed = calculateDiscountedPrice plan promo
  /\ forall (t_id t_purchase t_expiration : Z) (info : PurchaseInfo.t),
       PaywallService.mockPurchase t_id t_purchase t_expiration billed
         (Some (PromoCode.code promo)) = Normal info ->
       PurchaseInfo.originalPrice info = calculateDiscountedPrice plan promo
       /\ PurchaseInfo.finalPrice info
          = (if JsString.truthy (PromoCode.code promo)
             then calculateDiscountedPrice plan promo * (8 # 10)
             else calculateDiscountedPrice plan promo)%Q.
Proof.
  intros Hsel Happ promo billed w1 w2.
  destruct (provider_applyPromoCode_success host code w plan application Hsel Happ)
    as [Hsel1 Hpromo1].
  fold w1 in Hsel1, Hpromo1. fold promo in Hsel1. fold billed in Hsel1.
  split; [| split; [reflexivity |]].
  - destruct (purchasePlan_request host w1 billed Hsel1) as [rest Hrest].
    rewrite Hpromo1 in Hrest. exists rest. exact Hrest.
  - intros t_id t_purchase t_expiration info. unfold PaywallService.mockPurchase.
    destruct (JsDateFormat.toISOString (JsDateFormat.Date_of t_purchase)); [| discriminate].
    destruct (SubscriptionPlan.duration billed);
      try destruct (JsDateFormat.toISOString _); try discriminate;
      intros [= <-]; split; reflexivity.
Qed.

Lemma promo_purchase_bills_discounted_plan_witness :
  exists rest,
    Provider.events
      (snd (PaywallProvider.rendered (PaywallProvider.purchasePlan (shop 200)) promo_applied))
    = (Provider.events promo_applied
       ++ onPurchaseStart (applyDiscountToPlan plan_9_99 SAVE20)
          :: BillingPurchase (applyDiscountToPlan plan_9_99 SAVE20) (Some "SAVE20")
          :: rest)%list.
Proof.
  destruct (promo_purchase_bills_discounted_plan (shop 200) "SAVE20" plan_selected plan_9_99
              save20_applied) as [H _].
  - reflexivity.
  - vm_compute. reflexivity.
  - exact H.
Defined.
